(** * SEC-App: statement resolution, classification and ratio engine

    A shallow embedding of the core of the SEC financial-data service:
    - [app/services/xbrl_parser.py]   (module [XBRLParser])
    - [app/services/sec_service.py]   (module [SECService])
    - [app/services/financial_ratios.py] (module [FinancialRatioCalculator])

    Conventions of the embedding.
    - Python dictionaries whose iteration order is observable are
      association lists in insertion order ([PyDict]); dictionaries that are
      only read by key are [gmap]s.
    - Text is ASCII: [str.lower], [str.strip] and [str.isdigit] act on the
      ASCII range.  Python floats are the binary64 primitive floats.
    - JSON documents have the shapes of [app/schemas/sec_data.py]; XML
      documents are given by what the ElementTree queries select from them,
      and a query answers once its prefix is resolved ([Xml.findall]).
    - The filing host is a function of the request and of the history; a
      computation threads the trace of its requests ([Http.M]).
    - A [try]/[except Exception] block is a computation in [result] whose
      [Raise] the handler turns into the value it returns.
    - Progress messages and [time.sleep] are left out, except the three
      messages that announce a tier of the resolver. *)

From Stdlib Require Import ZArith List String Ascii Bool Lia Floats DecimalString.
From stdpp Require Import base gmap strings list.

Local Open Scope string_scope.

(** ** Python string primitives *)

Module PyStr.

(** [str.lower] on one ASCII character. *)
Definition lower_ascii (c : ascii) : ascii :=
  let n := nat_of_ascii c in
  if (65 <=? n)%nat && (n <=? 90)%nat then ascii_of_nat (n + 32) else c.

(** [s.lower()] *)
Fixpoint lower (s : string) : string :=
  match s with
  | EmptyString => EmptyString
  | String c s' => String (lower_ascii c) (lower s')
  end.

(** [k in s] for two strings: [k] occurs in [s] as a contiguous block. *)
Fixpoint contains (k s : string) : bool :=
  String.prefix k s ||
  match s with
  | EmptyString => false
  | String _ s' => contains k s'
  end.

(** [any(k in s for k in ks)] *)
Definition contains_any (ks : list string) (s : string) : bool :=
  existsb (fun k => contains k s) ks.

(** Truth value of a string: [bool(s)]. *)
Definition truthy (s : string) : bool :=
  match s with EmptyString => false | _ => true end.

(** [s.startswith(p)] *)
Definition startswith (p s : string) : bool := String.prefix p s.

(** Characters removed by [str.strip()] (ASCII white space, including the
    separators 0x1c-0x1f). *)
Definition is_space (c : ascii) : bool :=
  let n := nat_of_ascii c in
  ((9 <=? n)%nat && (n <=? 13)%nat) || ((28 <=? n)%nat && (n <=? 32)%nat).

(** [bool(s.strip())]: some character of [s] is not white space. *)
Fixpoint strip_nonempty (s : string) : bool :=
  match s with
  | EmptyString => false
  | String c s' => negb (is_space c) || strip_nonempty s'
  end.

Fixpoint lstrip (s : string) : string :=
  match s with
  | EmptyString => EmptyString
  | String c s' => if is_space c then lstrip s' else s
  end.

Fixpoint rstrip (s : string) : string :=
  match s with
  | EmptyString => EmptyString
  | String c s' =>
      match rstrip s' with
      | EmptyString => if is_space c then EmptyString else String c EmptyString
      | r => String c r
      end
  end.

(** [s.strip()] *)
Definition strip (s : string) : string := lstrip (rstrip s).

Definition is_digit (c : ascii) : bool :=
  let n := nat_of_ascii c in (48 <=? n)%nat && (n <=? 57)%nat.

Fixpoint all_digits (s : string) : bool :=
  match s with
  | EmptyString => true
  | String c s' => is_digit c && all_digits s'
  end.

(** [s.isdigit()]: non-empty and made of digits only. *)
Definition isdigit (s : string) : bool := truthy s && all_digits s.

(** [s.replace(c, '')] for a one-character [c]. *)
Fixpoint remove_char (c : ascii) (s : string) : string :=
  match s with
  | EmptyString => EmptyString
  | String d s' =>
      if Ascii.eqb c d then remove_char c s' else String d (remove_char c s')
  end.

(** [s.split(c)[-1]]: what follows the last occurrence of [c]. *)
Fixpoint after_last (c : ascii) (s : string) : string :=
  match s with
  | EmptyString => EmptyString
  | String d s' =>
      if contains (String c EmptyString) s' then after_last c s'
      else if Ascii.eqb c d then s'
      else String d s'
  end.

(** [s.zfill(width)] *)
Definition zfill (width : nat) (s : string) : string :=
  let pad := String.concat "" (repeat "0" (width - String.length s)) in
  match s with
  | String c s' =>
      if Ascii.eqb c "+" || Ascii.eqb c "-"
      then String c (pad ++ s')
      else pad ++ s
  | EmptyString => pad
  end.

End PyStr.

(** ** Python dictionaries in insertion order *)

Module PyDict.

Section Dict.
Context {V : Type}.

(** [d.get(k)] *)
Fixpoint lookup (k : string) (d : list (string * V)) : option V :=
  match d with
  | [] => None
  | (k', v) :: d' => if String.eqb k k' then Some v else lookup k d'
  end.

(** [d[k] = v]: an existing key keeps its position. *)
Fixpoint set (k : string) (v : V) (d : list (string * V)) : list (string * V) :=
  match d with
  | [] => [(k, v)]
  | (k', v') :: d' =>
      if String.eqb k k' then (k, v) :: d' else (k', v') :: set k v d'
  end.

(** [k in d] *)
Definition mem (k : string) (d : list (string * V)) : bool :=
  match lookup k d with Some _ => true | None => false end.

Definition keys (d : list (string * V)) : list string := map fst d.
End Dict.

End PyDict.

(** A member of a JSON object as [dict.get] sees it: the key is missing,
    it holds [null], or it holds a value. *)
Inductive jfield (A : Type) : Type :=
| Absent
| Null
| Val (a : A).
Arguments Absent {A}.
Arguments Null {A}.
Arguments Val {A} a.

(** [d.get(k)] *)
Definition jget {A} (f : jfield A) : option A :=
  match f with Val a => Some a | _ => None end.

(** [d.get(k, dflt)] *)
Definition jget_default {A} (f : jfield A) (dflt : A) : option A :=
  match f with Absent => Some dflt | Null => None | Val a => Some a end.

(** JSON numbers as Python reads them. *)
Inductive pynum : Type :=
| PInt (z : Z)
| PFloat (f : float).

(** ** Python exceptions and floats *)

Inductive exception : Type :=
| ZeroDivisionError
| ValueError
| TypeError
| OverflowError
| AttributeError
| RecursionError
| SyntaxError.

Inductive result (A : Type) : Type :=
| Ok (a : A)
| Raise (e : exception).
Arguments Ok {A} a.
Arguments Raise {A} e.

Definition rbind {A B} (r : result A) (k : A -> result B) : result B :=
  match r with
  | Ok a => k a
  | Raise e => Raise e
  end.

Notation "'let!' x ':=' m 'in' k" := (rbind m (fun x => k))
  (at level 10, x pattern, m at level 100, k at level 200).

Module PyFloat.

Local Open Scope Z_scope.

(** [x > 0], [x != 0], [x == 0] against the integer zero. *)
Definition gt0 (x : float) : bool := PrimFloat.ltb 0%float x.
Definition eq0 (x : float) : bool := PrimFloat.eqb x 0%float.
Definition ne0 (x : float) : bool := negb (eq0 x).

(** [x / y]: true division raises on a zero divisor. *)
Definition div (x y : float) : result float :=
  if eq0 y then Raise ZeroDivisionError else Ok (PrimFloat.div x y).

(** The double nearest to the integer [z] (ties to even). *)
Definition nearest_int (z : Z) : float :=
  SF2Prim (binary_normalize prec emax z 0 false).

(** The double nearest to [(-1)^s * p / q] (ties to even). *)
Definition nearest_ratio (s : bool) (p q : positive) : float :=
  SF2Prim (SFdiv prec emax (S754_finite s p 0) (S754_finite false q 0)).

(** [float(z)] for a Python integer. *)
Definition of_int (z : Z) : result float :=
  let f := nearest_int z in
  if PrimFloat.is_infinity f then Raise OverflowError else Ok f.

(** [float(n)] for a JSON number. *)
Definition of_num (n : pynum) : result float :=
  match n with
  | PInt z => of_int z
  | PFloat f => Ok f
  end.

(** Nearest integer to [n / d], ties to even ([d > 0]). *)
Definition div_half_even (n d : Z) : Z :=
  let q := n / d in
  let r := n mod d in
  match 2 * r ?= d with
  | Lt => q
  | Gt => q + 1
  | Eq => if Z.even q then q else q + 1
  end.

(** The magnitude of a finite double [m * 2^e] in hundredths, rounded to
    the nearest integer with ties to even: the digits that both
    [round(x, 2)] and the format [.2f] keep. *)
Definition hundredths (m : positive) (e : Z) : Z :=
  match e with
  | Zneg k => div_half_even (Zpos m * 100) (2 ^ Zpos k)
  | _ => Zpos m * 100 * 2 ^ e
  end.

(** [round(x, 2)] *)
Definition round2 (x : float) : float :=
  match Prim2SF x with
  | S754_finite s m e =>
      match hundredths m e with
      | Zpos n => nearest_ratio s n 100
      | _ => if s then neg_zero else zero
      end
  | _ => x
  end.

Definition two_digits (r : Z) : string :=
  let s := DecimalString.NilZero.string_of_uint (N.to_uint (Z.to_N r)) in
  if r <? 10 then "0" ++ s else s.

(** [f"{x:.2f}"] *)
Definition format_2f (x : float) : string :=
  match Prim2SF x with
  | S754_nan => "nan"
  | S754_infinity s => if s then "-inf" else "inf"
  | S754_zero s => if s then "-0.00" else "0.00"
  | S754_finite s m e =>
      let n := hundredths m e in
      ((if s then "-" else "") ++
       DecimalString.NilZero.string_of_uint (N.to_uint (Z.to_N (n / 100))) ++ "." ++
       two_digits (n mod 100))%string
  end.

(** Value of a run of decimal digits read after the accumulator [acc]. *)
Fixpoint digits_value (acc : Z) (s : string) : Z :=
  match s with
  | EmptyString => acc
  | String c s' => digits_value (10 * acc + (Z.of_nat (nat_of_ascii c) - 48)) s'
  end.

(** Splits a text at its first ['.']. *)
Fixpoint split_point (s : string) : string * option string :=
  match s with
  | EmptyString => (EmptyString, None)
  | String c s' =>
      if Ascii.eqb c "." then (EmptyString, Some s')
      else let '(a, b) := split_point s' in (String c a, b)
  end.

(** [float(text)] for a text made of digits, ['.'] and ['-'], the only
    texts that [parse_xbrl_instance] hands to [float]: an optional minus
    sign, then digits with at most one point and at least one digit.
    Anything else in that alphabet is a [ValueError]. *)
Definition of_text (text : string) : result float :=
  let '(neg, body) :=
    match text with
    | String "-"%char rest => (true, rest)
    | _ => (false, text)
    end in
  let '(int_part, frac) := split_point body in
  let frac_part := match frac with Some f => f | None => EmptyString end in
  if PyStr.all_digits int_part && PyStr.all_digits frac_part
     && PyStr.truthy (int_part ++ frac_part)
  then
    match digits_value 0 (int_part ++ frac_part) with
    | Zpos p => Ok (nearest_ratio neg p (Z.to_pos (10 ^ Z.of_nat (String.length frac_part))))
    | _ => Ok (if neg then neg_zero else zero)
    end
  else Raise ValueError.

(** The magnitude of a finite double [m * 2^e] in tenths, rounded to the
    nearest integer with ties to even. *)
Definition tenths (m : positive) (e : Z) : Z :=
  match e with
  | Zneg k => div_half_even (Zpos m * 10) (2 ^ Zpos k)
  | _ => Zpos m * 10 * 2 ^ e
  end.

(** [round(x, 1)] *)
Definition round1 (x : float) : float :=
  match Prim2SF x with
  | S754_finite s m e =>
      match tenths m e with
      | Zpos n => nearest_ratio s n 10
      | _ => if s then neg_zero else zero
      end
  | _ => x
  end.

(** [a / b] for two Python integers: the quotient rounded to the nearest
    double. *)
Definition int_div (a b : Z) : result float :=
  match b with
  | 0 => Raise ZeroDivisionError
  | _ =>
      let negative := xorb (a <? 0) (b <? 0) in
      match Z.abs a with
      | Zpos p =>
          let f := nearest_ratio negative p (Z.to_pos (Z.abs b)) in
          if PrimFloat.is_infinity f then Raise OverflowError else Ok f
      | _ => Ok (if negative then neg_zero else zero)
      end
  end.

End PyFloat.

(** ** Documents exchanged with the filing host

    JSON documents follow [app/schemas/sec_data.py]; XML documents are
    given by the element lists that the ElementTree queries of the parser
    select from them. *)

Module Schema.

(** One reported value of a concept ([SECValue]).  For ['end'], ['form']
    and the stored fields a missing key and [null] read alike; for ['fp']
    the code supplies a default, so the three cases are kept apart. *)
Record SECValue : Type := {
  v_end : option string;
  v_val : option pynum;
  v_accn : option string;
  v_fy : option Z;
  v_fp : jfield string;
  v_form : option string;
  v_filed : option string
}.

(** [units]: unit name to reported values, in document order. *)
Definition units : Type := list (string * list SECValue).

(** One concept ([SECConcept]); its members come in the order of the schema:
    label, description, units. *)
Record concept : Type := {
  c_label : jfield string;
  c_description : jfield string;
  c_units : option units
}.

(** A value found where the code expects a concept dictionary: a concept,
    a units dictionary, a string, or [null]. *)
Inductive concept_obj : Type :=
| OConcept (c : concept)
| OUnits (u : units)
| OString (s : string)
| ONull.

(** The ['facts'] member: taxonomy name to its concepts; [None] stands for
    a member that is not a dictionary. *)
Definition facts : Type := list (string * option (list (string * concept_obj))).

(** [filings.recent] of a submissions document ([SECRecentFilings]). *)
Record recent : Type := {
  r_accessionNumber : list string;
  r_form : list string;
  r_filingDate : list string;
  r_reportDate : list string
}.

(** A JSON object as the service reads it: the three members that select a
    branch of the extraction, and the names of its other members. *)
Record data : Type := {
  d_facts : option facts;
  d_filings : option recent;
  d_units : option units;
  d_other : list string
}.

(** One filing of a filing list ([SECFiling]). *)
Record filing : Type := {
  f_form : string;
  f_filingDate : string;
  f_accessionNumber : option string
}.

(** What [response.json()] returns: an array (whose items are filing
    objects, or [None] for an item that is not an object) or an object. *)
Inductive json : Type :=
| JArray (items : list (option filing))
| JObject (d : data).

End Schema.

Module Xml.

(** An element: tag in Clark notation, text, attributes. *)
Record element : Type := {
  tag : string;
  text : option string;
  attrib : gmap string string
}.

(** [xbrl:period] with the children the parser looks for. *)
Record period : Type := {
  startDate : option element;
  endDate : option element;
  instant : option element
}.

(** [xbrl:context] *)
Record context : Type := {
  ctx_id : option string;
  ctx_period : option period
}.

(** [xsd:element] of a schema document. *)
Record xsd_element : Type := {
  xsd_name : option string;
  xsd_type : option string;
  xsd_substitutionGroup : option string
}.

(** [link:label] of a label linkbase. *)
Record label : Type := {
  label_id : option string;
  label_text : option string
}.

(** A parsed document, as the answers to the four queries made on its
    root: [.//xbrl:context], [.//xbrl:*], [.//xsd:element], [.//link:label],
    each in document order. *)
Record document : Type := {
  find_contexts : list context;
  find_xbrl : list element;
  find_xsd_elements : list xsd_element;
  find_labels : list label
}.

(** A prefix map, as handed to [find] and [findall]. *)
Definition prefix_map : Type := list (string * string).

(** [root.findall(path, namespaces)] for a path whose name carries the
    prefix [prefix]: before it looks at any element, ElementPath resolves
    the prefix in the map, and raises [SyntaxError] when no map is given or
    the map lacks the prefix.  [found] is what the resolved path selects. *)
Definition findall {A} (namespaces : option prefix_map) (prefix : string)
    (found : list A) : result (list A) :=
  match namespaces with
  | Some map =>
      match PyDict.lookup prefix map with
      | Some _ => Ok found
      | None => Raise SyntaxError
      end
  | None => Raise SyntaxError
  end.

End Xml.

Module Http.

(** A response: status, body text, and the body as [response.json()] and
    [ET.fromstring] read it ([None] when they raise). *)
Record response : Type := {
  status_code : nat;
  text : string;
  json : option Schema.json;
  xml : option Xml.document
}.

(** The tiers of statement resolution. *)
Inductive tier : Type := Tier1 | Tier2 | Tier3.

(** What a run leaves behind: the requests sent, and the three progress
    messages with which [get_financial_statements] announces a tier
    ("Trying XBRL parsing...", "Falling back to filing-specific data
    extraction...", "Falling back to company facts data..."). *)
Inductive event : Type :=
| Get (url : string)
| Announce (t : tier).

Definition trace : Type := list event.

(** The filing host: its answer to a request may depend on everything that
    happened before; [None] is a transport error raised by [session.get]. *)
Definition host : Type := trace -> string -> option response.

(** Computations that talk to the host. *)
Definition M (A : Type) : Type := trace -> A * trace.

Definition ret {A} (a : A) : M A := fun tr => (a, tr).

Definition bind {A B} (m : M A) (k : A -> M B) : M B :=
  fun tr => let '(a, tr') := m tr in k a tr'.

Definition get (net : host) (url : string) : M (option response) :=
  fun tr => (net tr url, (tr ++ [Get url])%list).

Definition announce (t : tier) : M unit :=
  fun tr => (tt, (tr ++ [Announce t])%list).

(** [response.raise_for_status()] raises on 4xx and 5xx. *)
Definition status_ok (r : response) : bool :=
  negb ((400 <=? status_code r)%nat && (status_code r <? 600)%nat).

End Http.

Notation "'let*' x ':=' m 'in' k" := (Http.bind m (fun x => k))
  (at level 10, x pattern, m at level 100, k at level 200).

(** ** [app/services/xbrl_parser.py] *)

Module XBRLParser.

Import PyStr.

Definition base_url : string := "https://www.sec.gov/Archives/edgar/data".

(** Period of a context, as stored under [contexts[context_id]]. *)
Record context_info : Type := {
  start_date : option string;
  end_date : option string;
  instant : option string
}.

(** The ['value'] of a fact: a float, or the raw text. *)
Inductive fact_value : Type :=
| FloatValue (f : float)
| TextValue (s : string).

(** An entry of the facts dictionary; [context = None] is the empty
    dictionary that [contexts.get(context_ref, {})] falls back to. *)
Record fact_entry : Type := {
  value : fact_value;
  context : option context_info;
  unit_ref : option string;
  decimals : option string;
  raw_value : string
}.

Definition facts_dict : Type := list (string * fact_entry).

(** The dictionary returned by [parse_xbrl_instance] (its constant
    ['namespaces'] member is left out). *)
Record instance_data : Type := {
  i_contexts : gmap (option string) context_info;
  i_facts : facts_dict
}.

Definition xbrl_namespace : string := "{http://www.xbrl.org/2003/instance}".

Definition text_of (e : option Xml.element) : option string :=
  match e with
  | Some el => Xml.text el
  | None => None
  end.

(** The loop over [root.findall('.//xbrl:context', namespaces)]. *)
Definition parse_contexts (found : list Xml.context)
  : gmap (option string) context_info :=
  fold_left
    (fun contexts ctx =>
       match Xml.ctx_period ctx with
       | Some period =>
           <[Xml.ctx_id ctx :=
               {| start_date := text_of (Xml.startDate period);
                  end_date := text_of (Xml.endDate period);
                  instant := text_of (Xml.instant period) |}]> contexts
       | None => contexts
       end)
    found ∅.

(** [float(value) if value.replace('.', '').replace('-', '').isdigit()
    else value] *)
Definition coerce (value : string) : result fact_value :=
  if isdigit (remove_char "-" (remove_char "." value))
  then rbind (PyFloat.of_text value) (fun f => Ok (FloatValue f))
  else Ok (TextValue value).

(** Body of the loop over [root.findall('.//xbrl:*')]. *)
Definition parse_fact (contexts : gmap (option string) context_info)
    (facts : facts_dict) (fact : Xml.element) : result facts_dict :=
  if startswith xbrl_namespace (Xml.tag fact) then
    let concept := after_last "}" (Xml.tag fact) in
    let context_ref := Xml.attrib fact !! "contextRef" in
    let context_info := contexts !! context_ref in
    let unit_ref := Xml.attrib fact !! "unitRef" in
    let decimals := Xml.attrib fact !! "decimals" in
    match Xml.text fact with
    | Some value =>
        if strip_nonempty value then
          rbind (coerce value) (fun v =>
            Ok (PyDict.set concept
                  {| value := v; context := context_info;
                     unit_ref := unit_ref; decimals := decimals;
                     raw_value := value |} facts))
        else Ok facts
    | None => Ok facts
    end
  else Ok facts.

Fixpoint parse_facts (contexts : gmap (option string) context_info)
    (facts : facts_dict) (found : list Xml.element) : result facts_dict :=
  match found with
  | [] => Ok facts
  | fact :: rest =>
      rbind (parse_fact contexts facts fact)
            (fun facts' => parse_facts contexts facts' rest)
  end.

(** [namespaces] of [parse_xbrl_instance]. *)
Definition namespaces : Xml.prefix_map :=
  [ ("xbrl", "http://www.xbrl.org/2003/instance");
    ("xlink", "http://www.w3.org/1999/xlink");
    ("link", "http://www.xbrl.org/2003/linkbase");
    ("xsi", "http://www.w3.org/2001/XMLSchema-instance") ].

(** What [parse_xbrl_instance] does with a parsed root.  The contexts are
    queried with the prefix map, the facts ([root.findall('.//xbrl:*')])
    without one.  Any exception ends in the handler, which returns [{}]
    ([None]). *)
Definition parse_root (root : Xml.document) : option instance_data :=
  let attempt :=
    let! found_contexts :=
      Xml.findall (Some namespaces) "xbrl" (Xml.find_contexts root) in
    let contexts := parse_contexts found_contexts in
    let! found := Xml.findall None "xbrl" (Xml.find_xbrl root) in
    let! facts := parse_facts contexts [] found in
    Ok {| i_contexts := contexts; i_facts := facts |} in
  match attempt with
  | Ok parsed => Some parsed
  | Raise _ => None
  end.

(** The bucket names of [categorize_financial_data]. *)
Inductive category : Type :=
| income_statement
| balance_sheet
| cash_flow
| other.

Definition categories : list (category * list string) :=
  [ (income_statement,
     [ "Revenues"; "RevenueFromContractWithCustomerExcludingAssessedTax";
       "SalesRevenueNet"; "CostOfGoodsAndServicesSold"; "CostOfRevenue";
       "GrossProfit"; "OperatingExpenses"; "SellingAndMarketingExpense";
       "GeneralAndAdministrativeExpense"; "ResearchAndDevelopmentExpense";
       "OperatingIncomeLoss"; "InterestExpense"; "InterestIncome";
       "IncomeTaxExpenseBenefit"; "NetIncomeLoss"; "EarningsPerShareBasic";
       "EarningsPerShareDiluted"; "WeightedAverageNumberOfSharesOutstandingBasic";
       "WeightedAverageNumberOfSharesOutstandingDiluted";
       "IncomeLossFromContinuingOperationsBeforeIncomeTaxes";
       "IncomeLossFromContinuingOperationsAfterIncomeTaxes" ]);
    (balance_sheet,
     [ "Assets"; "CurrentAssets"; "CashAndCashEquivalentsAtCarryingValue";
       "CashAndCashEquivalents"; "AccountsReceivableNetCurrent"; "InventoryNet";
       "InventoryGross"; "PrepaidExpenseAndOtherAssetsCurrent";
       "PropertyPlantAndEquipmentNet"; "PropertyPlantAndEquipmentGross";
       "IntangibleAssetsNetExcludingGoodwill";
       "IntangibleAssetsGrossExcludingGoodwill"; "Goodwill"; "Liabilities";
       "CurrentLiabilities"; "AccountsPayableCurrent"; "AccruedLiabilitiesCurrent";
       "LongTermDebtNoncurrent"; "DeferredTaxLiabilitiesNoncurrent";
       "StockholdersEquity"; "CommonStockValue";
       "RetainedEarningsAccumulatedDeficit"; "TreasuryStockValue";
       "AdditionalPaidInCapital"; "TotalStockholdersEquity" ]);
    (cash_flow,
     [ "NetCashProvidedByUsedInOperatingActivities";
       "NetCashProvidedByUsedInInvestingActivities";
       "NetCashProvidedByUsedInFinancingActivities";
       "CashAndCashEquivalentsPeriodIncreaseDecrease";
       "CashAndCashEquivalentsAtCarryingValue";
       "PaymentsToAcquirePropertyPlantAndEquipment";
       "ProceedsFromSaleOfPropertyPlantAndEquipment";
       "PaymentsForBusinessAcquisitionsNetOfCashAcquired";
       "ProceedsFromIssuanceOfCommonStock"; "PaymentsForRepurchaseOfCommonStock";
       "PaymentsOfDividends"; "CashAndCashEquivalentsAtBeginningOfPeriod";
       "CashAndCashEquivalentsAtEndOfPeriod" ]) ].

(** [categorized_data]: the four dictionaries. *)
Record categorized : Type := {
  cat_income_statement : facts_dict;
  cat_balance_sheet : facts_dict;
  cat_cash_flow : facts_dict;
  cat_other : facts_dict
}.

Definition bucket (c : category) (d : categorized) : facts_dict :=
  match c with
  | income_statement => cat_income_statement d
  | balance_sheet => cat_balance_sheet d
  | cash_flow => cat_cash_flow d
  | other => cat_other d
  end.

(** [categorized_data[c][concept] = data] *)
Definition assign (c : category) (concept : string) (data : fact_entry)
    (d : categorized) : categorized :=
  match c with
  | income_statement =>
      {| cat_income_statement := PyDict.set concept data (cat_income_statement d);
         cat_balance_sheet := cat_balance_sheet d;
         cat_cash_flow := cat_cash_flow d; cat_other := cat_other d |}
  | balance_sheet =>
      {| cat_income_statement := cat_income_statement d;
         cat_balance_sheet := PyDict.set concept data (cat_balance_sheet d);
         cat_cash_flow := cat_cash_flow d; cat_other := cat_other d |}
  | cash_flow =>
      {| cat_income_statement := cat_income_statement d;
         cat_balance_sheet := cat_balance_sheet d;
         cat_cash_flow := PyDict.set concept data (cat_cash_flow d);
         cat_other := cat_other d |}
  | other =>
      {| cat_income_statement := cat_income_statement d;
         cat_balance_sheet := cat_balance_sheet d;
         cat_cash_flow := cat_cash_flow d;
         cat_other := PyDict.set concept data (cat_other d) |}
  end.

(** The category chosen for one concept name. *)
Definition category_of (concept : string) : category :=
  let concept_lower := lower concept in
  if contains_any ["increase"; "decrease"] concept_lower then cash_flow
  else
    match List.find
            (fun entry =>
               existsb (fun pattern => contains (lower pattern) concept_lower)
                       (snd entry))
            categories with
    | Some (statement_type, _) => statement_type
    | None => other
    end.

Definition categorize_financial_data (facts : facts_dict) : categorized :=
  fold_left
    (fun d '(concept, data) => assign (category_of concept) concept data d)
    facts
    {| cat_income_statement := []; cat_balance_sheet := [];
       cat_cash_flow := []; cat_other := [] |}.

(** The dictionary returned by [get_financial_statements_xbrl] (the
    constant ['parsing_method'] is left out). *)
Record xbrl_result : Type := {
  financial_statements : categorized;
  contexts : gmap (option string) context_info;
  schema : list (string * (option string * option string));
  labels : list (string * string);
  xbrl_files : list (string * string);
  total_facts : nat
}.

Section Network.

Variable net : Http.host.

Definition get_xbrl_files (cik accession_number : string)
  : Http.M (list (string * string)) :=
  let filing_url :=
    base_url ++ "/" ++ cik ++ "/" ++ remove_char "-" accession_number in
  let index_url := filing_url ++ "/" ++ accession_number ++ "-index.html" in
  let* response := Http.get net index_url in
  match response with
  | Some response =>
      if Http.status_ok response then
        let content := Http.text response in
        let add (key suffix : string) (xbrl_files : list (string * string)) :=
          if contains (accession_number ++ suffix) content
          then PyDict.set key (filing_url ++ "/" ++ accession_number ++ suffix)
                          xbrl_files
          else xbrl_files in
        Http.ret
          (add "label" "_lab.xml"
            (add "definition" "_def.xml"
              (add "calculation" "_cal.xml"
                (add "schema" ".xsd"
                  (add "instance" ".xml" [])))))
      else Http.ret []
  | None => Http.ret []
  end.

(** Fetch and parse a document; [None] when the request, the status check
    or the XML parser raises. *)
Definition fetch_root (url : string) : Http.M (option Xml.document) :=
  let* response := Http.get net url in
  match response with
  | Some response =>
      if Http.status_ok response then Http.ret (Http.xml response)
      else Http.ret None
  | None => Http.ret None
  end.

Definition parse_xbrl_instance (instance_url : string)
  : Http.M (option instance_data) :=
  let* root := fetch_root instance_url in
  match root with
  | Some root => Http.ret (parse_root root)
  | None => Http.ret None
  end.

Definition parse_xbrl_schema (schema_url : string)
  : Http.M (list (string * (option string * option string))) :=
  let* root := fetch_root schema_url in
  match root with
  | Some root =>
      Http.ret
        match Xml.findall (Some [ ("xsd", "http://www.w3.org/2001/XMLSchema");
                                  ("link", "http://www.xbrl.org/2003/linkbase") ])
                          "xsd" (Xml.find_xsd_elements root) with
        | Ok found =>
            fold_left
              (fun elements element =>
                 match Xml.xsd_name element with
                 | Some name =>
                     if truthy name
                     then PyDict.set name
                            (Xml.xsd_type element, Xml.xsd_substitutionGroup element)
                            elements
                     else elements
                 | None => elements
                 end)
              found []
        | Raise _ => []
        end
  | None => Http.ret []
  end.

Definition parse_xbrl_labels (label_url : string)
  : Http.M (list (string * string)) :=
  let* root := fetch_root label_url in
  match root with
  | Some root =>
      Http.ret
        match Xml.findall (Some [ ("link", "http://www.xbrl.org/2003/linkbase");
                                  ("xlink", "http://www.w3.org/1999/xlink") ])
                          "link" (Xml.find_labels root) with
        | Ok found =>
            fold_left
              (fun labels label =>
                 match Xml.label_id label, Xml.label_text label with
                 | Some label_id, Some label_text =>
                     if truthy label_id && truthy label_text
                     then PyDict.set label_id (strip label_text) labels
                     else labels
                 | _, _ => labels
                 end)
              found []
        | Raise _ => []
        end
  | None => Http.ret []
  end.

(** [None] is the empty dictionary. *)
Definition get_financial_statements_xbrl (cik accession_number : string)
  : Http.M (option xbrl_result) :=
  let* xbrl_files := get_xbrl_files cik accession_number in
  match xbrl_files with
  | [] => Http.ret None
  | _ =>
      let* instance_data :=
        match PyDict.lookup "instance" xbrl_files with
        | Some url => parse_xbrl_instance url
        | None => Http.ret None
        end in
      let* schema_data :=
        match PyDict.lookup "schema" xbrl_files with
        | Some url => parse_xbrl_schema url
        | None => Http.ret []
        end in
      let* labels :=
        match PyDict.lookup "label" xbrl_files with
        | Some url => parse_xbrl_labels url
        | None => Http.ret []
        end in
      match instance_data with
      | Some instance_data =>
          Http.ret
            (Some {| financial_statements :=
                       categorize_financial_data (i_facts instance_data);
                     contexts := i_contexts instance_data;
                     schema := schema_data;
                     labels := labels;
                     xbrl_files := xbrl_files;
                     total_facts := length (i_facts instance_data) |})
      | None => Http.ret None
      end
  end.

End Network.

End XBRLParser.

(** ** [app/services/sec_service.py] *)

Module SECService.

Import PyStr Schema.

(** *** Concept classifier *)

(** Keys of [statement_keywords] and of [categorized]. *)
Inductive statement_type : Type :=
| income_statement
| balance_sheet
| cash_flow.

(** The keys in the order the dictionary lists them. *)
Definition statement_types : list statement_type :=
  [income_statement; balance_sheet; cash_flow].

Definition statement_keywords (t : statement_type) : list string :=
  match t with
  | income_statement =>
      [ "revenue"; "sales"; "income"; "profit"; "loss"; "earnings"; "expense";
        "cost"; "gross"; "operating"; "eps"; "per share"; "research";
        "development" ]
  | balance_sheet =>
      [ "asset"; "liability"; "equity"; "cash"; "receivable"; "payable";
        "inventory"; "debt"; "stock"; "capital"; "retained"; "current"; "total";
        "shares"; "other comprehensive income"; "goodwill"; "intangible";
        "available for sale" ]
  | cash_flow =>
      [ "cash flow"; "operating activities"; "investing activities";
        "financing activities"; "cash provided"; "cash used"; "payments";
        "proceeds"; "capital expenditures"; "proceeds from"; "payments to";
        "payments for repurchases of common stock"; "Increase (Decrease)";
        "increase"; "decrease"; "depreciation"; "amortization" ]
  end.

(** [description]: the label, else the concept name, lower-cased. *)
Definition description (concept_name : string) (concept_data : concept) : string :=
  lower
    match jget (c_label concept_data) with
    | Some label => if truthy label then label else concept_name
    | None => concept_name
    end.

(** The inner scoring loop: one point per keyword found in the description. *)
Definition score (description : string) (keywords : list string) : nat :=
  fold_left
    (fun score keyword => if contains keyword description then S score else score)
    keywords 0.

(** [scores[statement_type]] *)
Definition scores (description : string) (t : statement_type) : nat :=
  score description (statement_keywords t).

(** [max(xs, key=key)] after its first item: a later item replaces the best
    one only when its key is strictly larger. *)
Fixpoint py_max {A} (key : A -> nat) (best : A) (rest : list A) : A :=
  match rest with
  | [] => best
  | x :: rest' => py_max key (if (key best <? key x)%nat then x else best) rest'
  end.

(** The statement chosen for a description, [None] when the concept is
    appended to no list. *)
Definition categorize (description : string) : option statement_type :=
  if existsb (fun keyword => contains (lower keyword) description)
             ["increase"; "decrease"]
  then Some cash_flow
  else if contains "comprehensive income" description
  then Some balance_sheet
  else if existsb (fun t => negb (scores description t =? 0)%nat) statement_types
  then
    let best_statement :=
      py_max (scores description) income_statement [balance_sheet; cash_flow] in
    if (0 <? scores description best_statement)%nat
    then Some best_statement
    else None
  else None.

(** [categorized]: concept names per statement, in order of arrival. *)
Record categorized : Type := {
  cat_income_statement : list string;
  cat_balance_sheet : list string;
  cat_cash_flow : list string
}.

Definition names (t : statement_type) (c : categorized) : list string :=
  match t with
  | income_statement => cat_income_statement c
  | balance_sheet => cat_balance_sheet c
  | cash_flow => cat_cash_flow c
  end.

(** [categorized[t].append(concept_name)] *)
Definition append (t : statement_type) (concept_name : string)
    (c : categorized) : categorized :=
  match t with
  | income_statement =>
      {| cat_income_statement := (cat_income_statement c ++ [concept_name])%list;
         cat_balance_sheet := cat_balance_sheet c;
         cat_cash_flow := cat_cash_flow c |}
  | balance_sheet =>
      {| cat_income_statement := cat_income_statement c;
         cat_balance_sheet := (cat_balance_sheet c ++ [concept_name])%list;
         cat_cash_flow := cat_cash_flow c |}
  | cash_flow =>
      {| cat_income_statement := cat_income_statement c;
         cat_balance_sheet := cat_balance_sheet c;
         cat_cash_flow := (cat_cash_flow c ++ [concept_name])%list |}
  end.

Definition _categorize_concepts_by_statement (facts : list (string * concept))
  : categorized :=
  fold_left
    (fun categorized '(concept_name, concept_data) =>
       match categorize (description concept_name concept_data) with
       | Some t => append t concept_name categorized
       | None => categorized
       end)
    facts
    {| cat_income_statement := []; cat_balance_sheet := []; cat_cash_flow := [] |}.

(** *** Period matching *)

(** [value_end and str(period) in value_end] *)
Definition end_matches (period : string) (value : SECValue) : bool :=
  match v_end value with
  | Some value_end => truthy value_end && contains period value_end
  | None => false
  end.

(** [value_fp == 'FY' or value_fp == 'Q4' or value_fp == '' or
    value_fp in ['Q1', 'Q2', 'Q3', 'Q4']], with [value_fp = value.get('fp', '')]. *)
Definition fp_matches (value : SECValue) : bool :=
  match jget_default (v_fp value) "" with
  | Some value_fp =>
      String.eqb value_fp "FY" || String.eqb value_fp "Q4" ||
      String.eqb value_fp "" ||
      existsb (String.eqb value_fp) ["Q1"; "Q2"; "Q3"; "Q4"]
  | None => false
  end.

(** [value_form == report_type] *)
Definition form_matches (report_type : string) (value : SECValue) : bool :=
  match v_form value with
  | Some value_form => String.eqb value_form report_type
  | None => false
  end.

(** The test of the concept-selection pass (first loop over [facts]). *)
Definition has_value_in_period (report_type period : string) (value : SECValue)
  : bool :=
  form_matches report_type value && end_matches period value &&
  fp_matches value &&
  match v_val value with Some _ => true | None => false end.

(** [period_match] of the value-selection pass (second loop). *)
Definition period_match (report_type period : string) (value : SECValue) : bool :=
  form_matches report_type value && end_matches period value && fp_matches value.

(** [has_reported_value] after the loops over the units of a concept. *)
Definition has_reported_value (report_type period : string) (u : units) : bool :=
  existsb (fun '(_, values) => existsb (has_value_in_period report_type period) values) u.

(** The value the second loop stops at: the first match of the first unit
    that has one. *)
Fixpoint first_match (report_type period : string) (u : units)
  : option (string * SECValue) :=
  match u with
  | [] => None
  | (unit_key, values) :: rest =>
      match List.find (period_match report_type period) values with
      | Some value => Some (unit_key, value)
      | None => first_match report_type period rest
      end
  end.

(** *** Extraction *)

(** An entry of a statement of [financial_data]. *)
Record line_item : Type := {
  li_value : option pynum;
  li_unit : string;
  li_period : option string;
  li_fiscal_year : option Z;
  li_fiscal_period : option string;
  li_filing_date : option string;
  li_accession_number : option string;
  li_label : option string
}.

Definition statement : Type := list (string * line_item).

(** [filing_info] of the submissions branch. *)
Record filing_info : Type := {
  fi_form : string;
  fi_filing_date : option string;
  fi_accession_number : option string;
  fi_index : nat
}.

(** [financial_data['concept_data']] of the company-concept branch. *)
Record concept_value : Type := {
  cv_value : option pynum;
  cv_unit : string;
  cv_period : option string;
  cv_fiscal_year : option Z;
  cv_fiscal_period : option string;
  cv_form : option string;
  cv_filing_date : option string;
  cv_accession_number : option string
}.

(** [financial_data].  The members that only echo the input for reference
    ([raw_data], [all_labels], [all_concepts]) are left out; [fd_error]
    tells whether the handler added an ['error'] member. *)
Record financial_data : Type := {
  fd_income_statement : statement;
  fd_balance_sheet : statement;
  fd_cash_flow : statement;
  fd_filings : option recent;
  fd_matching_filing : option filing_info;
  fd_concept_data : option concept_value;
  fd_available_keys : option (list string);
  fd_error : bool
}.

Definition initial_financial_data : financial_data :=
  {| fd_income_statement := []; fd_balance_sheet := []; fd_cash_flow := [];
     fd_filings := None; fd_matching_filing := None; fd_concept_data := None;
     fd_available_keys := None; fd_error := false |}.

Definition fd_statement (t : statement_type) (fd : financial_data) : statement :=
  match t with
  | income_statement => fd_income_statement fd
  | balance_sheet => fd_balance_sheet fd
  | cash_flow => fd_cash_flow fd
  end.

(** [financial_data[t][concept_name] = item] *)
Definition set_item (t : statement_type) (concept_name : string)
    (item : line_item) (fd : financial_data) : financial_data :=
  let put (t' : statement_type) :=
    match t, t' with
    | income_statement, income_statement
    | balance_sheet, balance_sheet
    | cash_flow, cash_flow => PyDict.set concept_name item (fd_statement t' fd)
    | _, _ => fd_statement t' fd
    end in
  {| fd_income_statement := put income_statement;
     fd_balance_sheet := put balance_sheet;
     fd_cash_flow := put cash_flow;
     fd_filings := fd_filings fd;
     fd_matching_filing := fd_matching_filing fd;
     fd_concept_data := fd_concept_data fd;
     fd_available_keys := fd_available_keys fd;
     fd_error := fd_error fd |}.

Definition with_error (fd : financial_data) : financial_data :=
  {| fd_income_statement := fd_income_statement fd;
     fd_balance_sheet := fd_balance_sheet fd;
     fd_cash_flow := fd_cash_flow fd;
     fd_filings := fd_filings fd;
     fd_matching_filing := fd_matching_filing fd;
     fd_concept_data := fd_concept_data fd;
     fd_available_keys := fd_available_keys fd;
     fd_error := true |}.

(** First loop of the facts branch, one concept: collect it under its full
    name when it reports a value for the period.  A value that is not a
    dictionary has no [get]; a units dictionary taken for a concept has no
    [items] under its ['units'] member. *)
Definition collect_concept (report_type period category concept_name : string)
    (obj : concept_obj) (reported : list (string * concept))
  : result (list (string * concept)) :=
  let full_concept_name := category ++ "." ++ concept_name in
  match obj with
  | OString _ | ONull => Raise AttributeError
  | OUnits u =>
      if PyDict.mem "units" u then Raise AttributeError else Ok reported
  | OConcept concept_data =>
      match c_units concept_data with
      | Some u =>
          if has_reported_value report_type period u
          then Ok (PyDict.set full_concept_name concept_data reported)
          else Ok reported
      | None => Ok reported
      end
  end.

Fixpoint collect_category (report_type period category : string)
    (concepts : list (string * concept_obj)) (reported : list (string * concept))
  : result (list (string * concept)) :=
  match concepts with
  | [] => Ok reported
  | (concept_name, obj) :: rest =>
      rbind (collect_concept report_type period category concept_name obj reported)
            (collect_category report_type period category rest)
  end.

(** [reported_concepts] after the first loop. *)
Fixpoint collect_reported (report_type period : string) (f : facts)
    (reported : list (string * concept)) : result (list (string * concept)) :=
  match f with
  | [] => Ok reported
  | (category, Some concepts) :: rest =>
      rbind (collect_category report_type period category concepts reported)
            (collect_reported report_type period rest)
  | (_, None) :: rest => collect_reported report_type period rest reported
  end.

(** Second loop, one concept of one statement. *)
Definition extract_concept (report_type period : string)
    (all_concepts : list (string * concept)) (t : statement_type)
    (fd : financial_data) (concept_name : string) : financial_data :=
  match PyDict.lookup concept_name all_concepts with
  | Some concept_data =>
      match c_units concept_data with
      | Some u =>
          match first_match report_type period u with
          | Some (unit_key, value) =>
              set_item t concept_name
                {| li_value := v_val value;
                   li_unit := unit_key;
                   li_period := v_end value;
                   li_fiscal_year := v_fy value;
                   li_fiscal_period := jget (v_fp value);
                   li_filing_date := v_filed value;
                   li_accession_number := v_accn value;
                   li_label := jget_default (c_label concept_data) concept_name |}
                fd
          | None => fd
          end
      | None => fd
      end
  | None => fd
  end.

(** The facts branch of [_extract_financial_data]. *)
Definition extract_facts (f : facts) (report_type period : string)
  : financial_data :=
  match collect_reported report_type period f [] with
  | Ok all_concepts =>
      let categorized_concepts := _categorize_concepts_by_statement all_concepts in
      fold_left
        (fun fd t =>
           fold_left (extract_concept report_type period all_concepts t)
                     (names t categorized_concepts) fd)
        statement_types initial_financial_data
  | Raise _ => with_error initial_financial_data
  end.

(** [xs[i] if i < len(xs) else None] *)
Definition item_or_none (xs : list string) (i : nat) : option string := nth_error xs i.

(** [matching_filings] of the submissions branch. *)
Fixpoint matching_filings (report_type : string) (r : recent) (i : nat)
    (forms : list string) : list filing_info :=
  match forms with
  | [] => []
  | form :: rest =>
      let tail := matching_filings report_type r (S i) rest in
      if String.eqb form report_type
      then {| fi_form := form;
              fi_filing_date := item_or_none (r_filingDate r) i;
              fi_accession_number := item_or_none (r_accessionNumber r) i;
              fi_index := i |} :: tail
      else tail
  end.

(** The company-concept branch: every matching value overwrites
    ['concept_data']. *)
Definition extract_units (u : units) (report_type period : string)
  : option concept_value :=
  fold_left
    (fun found '(unit_key, values) =>
       fold_left
         (fun found value =>
            if period_match report_type period value
            then Some {| cv_value := v_val value;
                         cv_unit := unit_key;
                         cv_period := v_end value;
                         cv_fiscal_year := v_fy value;
                         cv_fiscal_period := jget (v_fp value);
                         cv_form := v_form value;
                         cv_filing_date := v_filed value;
                         cv_accession_number := v_accn value |}
            else found)
         values found)
    u None.

(** *** Resolution *)

(** What the resolver returns: the empty dictionary, the dictionary of the
    XBRL tier, a [financial_data], or the dictionary that holds nothing but
    ['matching_filing']. *)
Inductive bundle : Type :=
| BEmpty
| BXbrl (r : XBRLParser.xbrl_result)
| BData (fd : financial_data)
| BMatching (latest_filing : filing_info).

(** [bool(d)] for such a dictionary. *)
Definition nonempty (b : bundle) : bool :=
  match b with BEmpty => false | _ => true end.

(** [filing_info] of [get_reported_concepts_from_filing]. *)
Record target_filing : Type := {
  tf_accession_number : option string;
  tf_filing_date : string;
  tf_form : string
}.

Definition endpoints (cik_padded : string) : list string :=
  [ "https://data.sec.gov/api/xbrl/companyfacts/CIK" ++ cik_padded ++ ".json";
    "https://data.sec.gov/submissions/CIK" ++ cik_padded ++ ".json";
    "https://data.sec.gov/api/xbrl/company_concept/CIK" ++ cik_padded
      ++ "/us-gaap/Revenues.json" ].

(** [bool(d)] for a JSON object. *)
Definition data_nonempty (d : data) : bool :=
  match d_facts d, d_filings d, d_units d, d_other d with
  | None, None, None, [] => false
  | _, _, _, _ => true
  end.

(** The members of a concept object in the order of the schema, as the
    loop over [category_data.items()] meets them when a concept stands
    where a taxonomy is expected. *)
Definition members (c : concept) : list (string * concept_obj) :=
  let member (name : string) (f : jfield string) :=
    match f with
    | Absent => []
    | Null => [(name, ONull)]
    | Val s => [(name, OString s)]
    end in
  (member "label" (c_label c) ++ member "description" (c_description c) ++
   match c_units c with Some u => [("units", OUnits u)] | None => [] end)%list.

(** [{'facts': reported_concepts}] as [_extract_financial_data] reads it. *)
Definition reported_as_data (reported : list (string * concept)) : data :=
  {| d_facts := Some (map (fun '(name, c) => (name, Some (members c))) reported);
     d_filings := None; d_units := None; d_other := [] |}.

(** First filing of the requested form whose date contains the period
    (the loop of [get_reported_concepts_from_filing]). *)
Fixpoint find_target (report_type period : string) (r : recent) (i : nat)
    (forms : list string) : option target_filing :=
  match forms with
  | [] => None
  | form :: rest =>
      let next := find_target report_type period r (S i) rest in
      if String.eqb form report_type then
        match item_or_none (r_filingDate r) i with
        | Some filing_date =>
            if truthy filing_date && contains period filing_date
            then Some {| tf_accession_number := item_or_none (r_accessionNumber r) i;
                         tf_filing_date := filing_date;
                         tf_form := form |}
            else next
        | None => next
        end
      else next
  end.

(** Inner loop of [get_reported_concepts_from_filing], one concept: keep
    it when one of its units lists a value.  ['units' in concept_data] is a
    substring test on a string and a type error on [null]; what it finds
    there cannot be indexed or has no [items]. *)
Definition keep_reported (category concept_name : string) (obj : concept_obj)
    (reported : list (string * concept)) : result (list (string * concept)) :=
  match obj with
  | OConcept concept_data =>
      match c_units concept_data with
      | Some u =>
          if existsb (fun '(_, values) =>
                        match values with [] => false | _ => true end) u
          then Ok (PyDict.set (category ++ "." ++ concept_name) concept_data reported)
          else Ok reported
      | None => Ok reported
      end
  | OUnits u => if PyDict.mem "units" u then Raise AttributeError else Ok reported
  | OString s => if contains "units" s then Raise TypeError else Ok reported
  | ONull => Raise TypeError
  end.

Fixpoint keep_category (category : string) (concepts : list (string * concept_obj))
    (reported : list (string * concept)) : result (list (string * concept)) :=
  match concepts with
  | [] => Ok reported
  | (concept_name, obj) :: rest =>
      rbind (keep_reported category concept_name obj reported)
            (keep_category category rest)
  end.

(** The concepts of a filing that report at least one value. *)
Fixpoint reported_in_filing (f : facts) (reported : list (string * concept))
  : result (list (string * concept)) :=
  match f with
  | [] => Ok reported
  | (category, Some concepts) :: rest =>
      rbind (keep_category category concepts reported) (reported_in_filing rest)
  | (_, None) :: rest => reported_in_filing rest reported
  end.

Section Network.

Variable net : Http.host.

(** Returns the first document an endpoint answers with, else [[]]. *)
Fixpoint first_document (urls : list string) : Http.M json :=
  match urls with
  | [] => Http.ret (JArray [])
  | url :: rest =>
      let* response := Http.get net url in
      match response with
      | Some response =>
          if (Http.status_code response =? 200)%nat then
            match Http.json response with
            | Some document => Http.ret document
            | None => first_document rest
            end
          else first_document rest
      | None => first_document rest
      end
  end.

Definition get_company_filings (cik : string) : Http.M json :=
  first_document (endpoints (zfill 10 cik)).

(** Tier 1.  [None] is the empty dictionary. *)
Definition get_financial_statements_xbrl (cik report_type period : string)
  : Http.M (option XBRLParser.xbrl_result) :=
  let* filings := get_company_filings cik in
  match filings with
  | JArray [] => Http.ret None
  | JArray items =>
      let matches (item : option filing) :=
        match item with
        | Some filing =>
            contains (lower report_type) (lower (f_form filing)) &&
            contains period (f_filingDate filing)
        | None => false
        end in
      match List.find matches items with
      | Some (Some filing) =>
          match f_accessionNumber filing with
          | Some target_accession =>
              if truthy target_accession
              then XBRLParser.get_financial_statements_xbrl net cik target_accession
              else Http.ret None
          | None => Http.ret None
          end
      | _ => Http.ret None
      end
  | JObject _ => Http.ret None
  end.

(** [_get_filing_financial_data], with the extraction it calls back. *)
Definition _get_filing_financial_data
    (extract : data -> string -> string -> Http.M bundle)
    (accession_number report_type period : string) : Http.M bundle :=
  let url := "https://data.sec.gov/api/xbrl/facts/" ++ accession_number ++ ".json" in
  let* response := Http.get net url in
  match response with
  | Some response =>
      if (Http.status_code response =? 200)%nat then
        match Http.json response with
        | Some (JObject filing_data) => extract filing_data report_type period
        | _ => Http.ret BEmpty
        end
      else Http.ret BEmpty
  | None => Http.ret BEmpty
  end.

(** [_extract_financial_data].  The submissions branch re-enters the
    function through [_get_filing_financial_data]; [depth] is the number of
    such re-entries the interpreter still allows.  When it is used up, the
    request made by [_get_filing_financial_data] raises [RecursionError]
    inside its [try]: its handler returns [{}], and the caller stores the
    matching filing in that empty dictionary, as for any filing without
    data. *)
Fixpoint _extract_financial_data (depth : nat) (d : data)
    (report_type period : string) : Http.M bundle :=
  match d_facts d with
  | Some f => Http.ret (BData (extract_facts f report_type period))
  | None =>
      match d_filings d with
      | Some recent_filings =>
          let fd :=
            {| fd_income_statement := []; fd_balance_sheet := [];
               fd_cash_flow := []; fd_filings := Some recent_filings;
               fd_matching_filing := None; fd_concept_data := None;
               fd_available_keys := None; fd_error := false |} in
          let with_matching (latest_filing : filing_info) :=
            {| fd_income_statement := []; fd_balance_sheet := [];
               fd_cash_flow := []; fd_filings := Some recent_filings;
               fd_matching_filing := Some latest_filing; fd_concept_data := None;
               fd_available_keys := None; fd_error := false |} in
          match matching_filings report_type recent_filings 0
                                 (r_form recent_filings) with
          | latest_filing :: _ =>
              match fi_accession_number latest_filing with
              | Some accession_number =>
                  if truthy accession_number then
                    match depth with
                    | S depth' =>
                        let* filing_data :=
                          _get_filing_financial_data
                            (_extract_financial_data depth')
                            accession_number report_type period in
                        if nonempty filing_data then Http.ret filing_data
                        else Http.ret (BMatching latest_filing)
                    | O => Http.ret (BMatching latest_filing)
                    end
                  else Http.ret (BData (with_matching latest_filing))
              | None => Http.ret (BData (with_matching latest_filing))
              end
          | [] => Http.ret (BData fd)
          end
      | None =>
          match d_units d with
          | Some u =>
              Http.ret
                (BData
                   {| fd_income_statement := []; fd_balance_sheet := [];
                      fd_cash_flow := []; fd_filings := None;
                      fd_matching_filing := None;
                      fd_concept_data := extract_units u report_type period;
                      fd_available_keys := None; fd_error := false |})
          | None =>
              Http.ret
                (BData
                   {| fd_income_statement := []; fd_balance_sheet := [];
                      fd_cash_flow := []; fd_filings := None;
                      fd_matching_filing := None; fd_concept_data := None;
                      fd_available_keys := Some (d_other d); fd_error := false |})
          end
      end
  end.

(** Tier 2.  [None] is the empty dictionary. *)
Definition get_reported_concepts_from_filing (cik report_type period : string)
  : Http.M (option (list (string * concept) * target_filing)) :=
  let submissions_url :=
    "https://data.sec.gov/submissions/CIK" ++ zfill 10 cik ++ ".json" in
  let* response := Http.get net submissions_url in
  match response with
  | Some response =>
      if (Http.status_code response =? 200)%nat then
        match Http.json response with
        | Some (JObject submissions_data) =>
            let filings :=
              match d_filings submissions_data with
              | Some r => r
              | None => {| r_accessionNumber := []; r_form := [];
                           r_filingDate := []; r_reportDate := [] |}
              end in
            match find_target report_type period filings 0 (r_form filings) with
            | Some target =>
                match tf_accession_number target with
                | Some accession_number =>
                    if truthy accession_number then
                      let filing_url :=
                        "https://data.sec.gov/api/xbrl/facts/" ++ accession_number
                          ++ ".json" in
                      let* filing_response := Http.get net filing_url in
                      match filing_response with
                      | Some filing_response =>
                          if (Http.status_code filing_response =? 200)%nat then
                            match Http.json filing_response with
                            | Some (JObject filing_data) =>
                                match d_facts filing_data with
                                | Some f =>
                                    match reported_in_filing f [] with
                                    | Ok reported_concepts =>
                                        Http.ret (Some (reported_concepts, target))
                                    | Raise _ => Http.ret None
                                    end
                                | None => Http.ret (Some ([], target))
                                end
                            | Some (JArray _) => Http.ret (Some ([], target))
                            | None => Http.ret None
                            end
                          else Http.ret None
                      | None => Http.ret None
                      end
                    else Http.ret None
                | None => Http.ret None
                end
            | None => Http.ret None
            end
        | _ => Http.ret None
        end
      else Http.ret None
  | None => Http.ret None
  end.

(** The loop over the endpoints of tier 3. *)
Fixpoint company_facts_fallback (depth : nat) (report_type period : string)
    (urls : list string) : Http.M bundle :=
  match urls with
  | [] => Http.ret BEmpty
  | url :: rest =>
      let* response := Http.get net url in
      match response with
      | Some response =>
          if (Http.status_code response =? 200)%nat then
            match Http.json response with
            | Some (JObject d) => _extract_financial_data depth d report_type period
            | _ => company_facts_fallback depth report_type period rest
            end
          else company_facts_fallback depth report_type period rest
      | None => company_facts_fallback depth report_type period rest
      end
  end.

(** The resolver: one company, one period. *)
Definition get_financial_statements (depth : nat) (cik report_type period : string)
  : Http.M bundle :=
  let cik_padded := zfill 10 cik in
  let* _ := Http.announce Http.Tier1 in
  let* xbrl_data := get_financial_statements_xbrl cik report_type period in
  match xbrl_data with
  | Some xbrl_data => Http.ret (BXbrl xbrl_data)
  | None =>
      let* _ := Http.announce Http.Tier2 in
      let* filing_data := get_reported_concepts_from_filing cik report_type period in
      match filing_data with
      | Some ((_ :: _) as reported_concepts, _) =>
          _extract_financial_data depth (reported_as_data reported_concepts)
                                  report_type period
      | _ =>
          let* _ := Http.announce Http.Tier3 in
          company_facts_fallback depth report_type period (endpoints cik_padded)
      end
  end.

(** Peer-group analysis: the resolver once per company. *)
Fixpoint peer_group_loop (depth : nat) (report_type period : string)
    (ciks : list string) (peer_group_data : list (string * bundle))
  : Http.M (list (string * bundle)) :=
  match ciks with
  | [] => Http.ret peer_group_data
  | cik :: rest =>
      let* company_data := get_financial_statements depth cik report_type period in
      peer_group_loop depth report_type period rest
        (if nonempty company_data
         then PyDict.set cik company_data peer_group_data
         else peer_group_data)
  end.

Definition get_peer_group_analysis (depth : nat) (ciks : list string)
    (report_type period : string) : Http.M (list (string * bundle)) :=
  peer_group_loop depth report_type period ciks [].

(** [year_data and any(year_data.get(statement_type) for statement_type in
    ['income_statement', 'balance_sheet', 'cash_flow'])]: only a
    [financial_data] has these members. *)
Definition has_statement_data (year_data : bundle) : bool :=
  match year_data with
  | BData fd =>
      existsb (fun t => match fd_statement t fd with [] => false | _ => true end)
              statement_types
  | _ => false
  end.

(** The loop of [get_financial_statements_multiple_years] over the periods. *)
Fixpoint years_loop (depth : nat) (cik report_type : string) (periods : list string)
    (historical_data : list (string * bundle)) (available_periods : list string)
  : Http.M (list (string * bundle) * list string) :=
  match periods with
  | [] => Http.ret (historical_data, available_periods)
  | period :: rest =>
      let* year_data := get_financial_statements depth cik report_type period in
      if has_statement_data year_data
      then years_loop depth cik report_type rest
             (PyDict.set period year_data historical_data)
             (available_periods ++ [period])%list
      else years_loop depth cik report_type rest historical_data available_periods
  end.

End Network.

(** The value of one concept in one year, as the trend tables keep it. *)
Record trend_point : Type := {
  tp_value : option pynum;
  tp_unit : string;
  tp_label : option string
}.

(** A trend table: concept name to its points by year. *)
Definition trends : Type := list (string * list (string * trend_point)).

(** [trend_data] (its ['key_metrics'] member stays empty and is left out). *)
Record trend_data : Type := {
  income_statement_trends : trends;
  balance_sheet_trends : trends;
  cash_flow_trends : trends
}.

(** [trends[concept_name][year] = point], creating the row when the concept
    is new. *)
Definition add_point (concept_name year : string) (point : trend_point)
    (table : trends) : trends :=
  let row :=
    match PyDict.lookup concept_name table with
    | Some row => row
    | None => []
    end in
  PyDict.set concept_name (PyDict.set year point row) table.

(** The two inner loops of [_prepare_trend_analysis] for one statement. *)
Definition statement_trends (t : statement_type)
    (historical_data : list (string * bundle)) : trends :=
  fold_left
    (fun table '(year, year_data) =>
       match year_data with
       | BData fd =>
           fold_left
             (fun table '(concept_name, concept_data) =>
                add_point concept_name year
                  {| tp_value := li_value concept_data;
                     tp_unit := li_unit concept_data;
                     tp_label := li_label concept_data |}
                  table)
             (fd_statement t fd) table
       | _ => table
       end)
    historical_data [].

Definition _prepare_trend_analysis (historical_data : list (string * bundle))
  : trend_data :=
  {| income_statement_trends := statement_trends income_statement historical_data;
     balance_sheet_trends := statement_trends balance_sheet historical_data;
     cash_flow_trends := statement_trends cash_flow historical_data |}.

(** [trend_summary] *)
Record trend_summary : Type := {
  company_cik : string;
  ts_report_type : string;
  available_years : list string;
  historical_data : list (string * bundle);
  trend_analysis : trend_data
}.

(** [None] is the empty dictionary. *)
Definition get_financial_statements_multiple_years (net : Http.host) (depth : nat)
    (cik report_type : string) (periods : list string)
  : Http.M (option trend_summary) :=
  let* collected := years_loop net depth cik report_type periods [] [] in
  let '(historical_data, available_periods) := collected in
  match historical_data with
  | [] => Http.ret None
  | _ =>
      Http.ret
        (Some {| company_cik := cik;
                 ts_report_type := report_type;
                 available_years := available_periods;
                 historical_data := historical_data;
                 trend_analysis := _prepare_trend_analysis historical_data |})
  end.

(** An entry of the company tickers file, with the defaults the search
    supplies for missing members. *)
Record company_info : Type := {
  ci_cik_str : option Z;
  ci_ticker : string;
  ci_title : string;
  ci_sic : string;
  ci_sicDescription : string
}.

(** A search result. *)
Record company : Type := {
  co_cik : string;
  co_ticker : string;
  co_company_name : string;
  co_sic : string;
  co_industry : string
}.

Definition search_hit (query_lower : string) (company_info : company_info) : bool :=
  PyStr.contains query_lower (lower (ci_ticker company_info)) ||
  PyStr.contains query_lower (lower (ci_title company_info)).

Definition search_result (company_info : company_info) : company :=
  {| co_cik := match ci_cik_str company_info with
               | Some z => DecimalString.NilZero.string_of_int (Z.to_int z)
               | None => ""
               end;
     co_ticker := ci_ticker company_info;
     co_company_name := ci_title company_info;
     co_sic := ci_sic company_info;
     co_industry := ci_sicDescription company_info |}.

(** The loop over [companies_data.items()], left as soon as ten results are
    collected. *)
Fixpoint search_loop (query_lower : string)
    (companies_data : list (string * company_info)) (results : list company)
  : list company :=
  match companies_data with
  | [] => results
  | (_, company_info) :: rest =>
      let results :=
        if search_hit query_lower company_info
        then (results ++ [search_result company_info])%list
        else results in
      if (10 <=? length results)%nat then results
      else search_loop query_lower rest results
  end.

Section Search.

(** The answer of the host to the request for the tickers file, made
    outside the session, and the tickers file as [response.json()] reads
    it ([None] when it raises). *)
Variable net : Http.host.
Variable company_tickers : Http.response -> option (list (string * company_info)).

Definition search_companies (query : string) : Http.M (list company) :=
  let url := "https://www.sec.gov/files/company_tickers.json" in
  let* response := Http.get net url in
  match response with
  | Some response =>
      if Http.status_ok response then
        match company_tickers response with
        | Some companies_data =>
            Http.ret (search_loop (lower query) companies_data [])
        | None => Http.ret []
        end
      else Http.ret []
  | None => Http.ret []
  end.

End Search.

End SECService.

(** ** [app/services/financial_ratios.py] *)

Module FinancialRatioCalculator.

Import PyStr.

(** A value of a statement dictionary: a dictionary with an optional
    ['value'] member, or anything else. *)
Inductive value_data : Type :=
| Dict (value : jfield pynum)
| NotADict.

(** The dictionary built by [_extract_key_values]. *)
Record values : Type := {
  revenue : float;
  gross_profit : float;
  operating_income : float;
  net_income : float;
  cost_of_goods_sold : float;
  depreciation_amortization : float;
  interest_expense : float;
  shares_outstanding : float;
  total_assets : float;
  current_assets : float;
  total_liabilities : float;
  current_liabilities : float;
  total_equity : float;
  cash : float;
  inventory : float;
  accounts_receivable : float;
  operating_cash_flow : float;
  capex : float
}.

Fixpoint _find_value_by_keywords (statement_data : gmap string value_data)
    (keywords : list string) : result float :=
  match keywords with
  | [] => Ok 0%float
  | keyword :: rest =>
      match statement_data !! keyword with
      | Some (Dict (Val value)) => PyFloat.of_num value
      | _ => _find_value_by_keywords statement_data rest
      end
  end.

Definition _extract_key_values
    (income_statement balance_sheet cash_flow : gmap string value_data)
  : result values :=
  let! revenue := _find_value_by_keywords income_statement
    [ "us-gaap.Revenues"; "us-gaap.SalesRevenueNet";
      "us-gaap.RevenueFromContractWithCustomerExcludingAssessedTax" ] in
  let! gross_profit := _find_value_by_keywords income_statement
    [ "us-gaap.GrossProfit" ] in
  let! operating_income := _find_value_by_keywords income_statement
    [ "us-gaap.OperatingIncomeLoss" ] in
  let! net_income := _find_value_by_keywords income_statement
    [ "us-gaap.NetIncomeLoss" ] in
  let! cost_of_goods_sold := _find_value_by_keywords income_statement
    [ "us-gaap.CostOfGoodsAndServicesSold"; "us-gaap.CostOfRevenue" ] in
  let! depreciation_amortization := _find_value_by_keywords income_statement
    [ "us-gaap.DepreciationAndAmortization" ] in
  let! interest_expense := _find_value_by_keywords income_statement
    [ "us-gaap.InterestExpense" ] in
  let! shares_outstanding := _find_value_by_keywords balance_sheet
    [ "us-gaap.CommonStockSharesOutstanding";
      "us-gaap.EntityCommonStockSharesOutstanding";
      "us-gaap.CommonStockSharesIssued"; "us-gaap.CommonStockSharesAuthorized" ] in
  let! total_assets := _find_value_by_keywords balance_sheet
    [ "us-gaap.Assets" ] in
  let! current_assets := _find_value_by_keywords balance_sheet
    [ "us-gaap.AssetsCurrent" ] in
  let! total_liabilities := _find_value_by_keywords balance_sheet
    [ "us-gaap.Liabilities" ] in
  let! current_liabilities := _find_value_by_keywords balance_sheet
    [ "us-gaap.LiabilitiesCurrent" ] in
  let! total_equity := _find_value_by_keywords balance_sheet
    [ "us-gaap.StockholdersEquity" ] in
  let! cash := _find_value_by_keywords balance_sheet
    [ "us-gaap.CashAndCashEquivalentsAtCarryingValue";
      "us-gaap.CashAndCashEquivalents" ] in
  let! inventory := _find_value_by_keywords balance_sheet
    [ "us-gaap.InventoryNet" ] in
  let! accounts_receivable := _find_value_by_keywords balance_sheet
    [ "us-gaap.AccountsReceivableNetCurrent" ] in
  let! operating_cash_flow := _find_value_by_keywords cash_flow
    [ "us-gaap.NetCashProvidedByUsedInOperatingActivities" ] in
  let! capex := _find_value_by_keywords cash_flow
    [ "us-gaap.PaymentsToAcquirePropertyPlantAndEquipment" ] in
  Ok {| revenue := revenue; gross_profit := gross_profit;
        operating_income := operating_income; net_income := net_income;
        cost_of_goods_sold := cost_of_goods_sold;
        depreciation_amortization := depreciation_amortization;
        interest_expense := interest_expense;
        shares_outstanding := shares_outstanding;
        total_assets := total_assets; current_assets := current_assets;
        total_liabilities := total_liabilities;
        current_liabilities := current_liabilities;
        total_equity := total_equity; cash := cash; inventory := inventory;
        accounts_receivable := accounts_receivable;
        operating_cash_flow := operating_cash_flow; capex := capex |}.

(** A standardized ratio result. *)
Record ratio_result : Type := {
  value : float;
  label : string;
  formatted : string
}.

Definition _format_ratio_value (value : float) (label : string) : string :=
  if contains "Margin" label || contains "ROE" label || contains "ROA" label
     || contains "ROIC" label
  then PyFloat.format_2f value ++ "%"
  else if contains "Ratio" label || contains "Turnover" label
  then PyFloat.format_2f value ++ "x"
  else if contains "Per Share" label || contains "Book Value" label
  then "$" ++ PyFloat.format_2f value
  else if contains "Revenue" label
  then "$" ++ PyFloat.format_2f value ++ "M"
  else PyFloat.format_2f value.

Definition _create_ratio_result (value : float) (label : string) : ratio_result :=
  {| value := PyFloat.round2 value;
     label := label;
     formatted := _format_ratio_value value label |}.

Definition ratios : Type := list (string * ratio_result).

(** One guarded block of [_calculate_ratios]: under [guard], compute the
    value and store it under [key]. *)
Definition block (guard : bool) (key label : string) (value : result float)
    (r : ratios) : result ratios :=
  if guard
  then let! v := value in Ok (PyDict.set key (_create_ratio_result v label) r)
  else Ok r.

(** [(x / y) * 100] *)
Definition percent (x y : float) : result float :=
  let! q := PyFloat.div x y in Ok (q * 100)%float.

Definition _calculate_ratios (v : values) : result ratios :=
  let gt0 := PyFloat.gt0 in
  let ne0 := PyFloat.ne0 in
  let! r := block (gt0 (revenue v)) "revenue" "Revenue" (Ok (revenue v)) [] in
  let! r := block (gt0 (revenue v) && gt0 (gross_profit v))
      "gross_profit_margin" "Gross Profit Margin"
      (percent (gross_profit v) (revenue v)) r in
  let! r := block (gt0 (revenue v) && ne0 (operating_income v))
      "operating_margin" "Operating Margin"
      (percent (operating_income v) (revenue v)) r in
  let! r := block (gt0 (revenue v) && ne0 (net_income v))
      "net_margin" "Net Margin"
      (percent (net_income v) (revenue v)) r in
  let ebitda := (operating_income v + depreciation_amortization v)%float in
  let! r := block (gt0 (revenue v) && ne0 ebitda)
      "ebitda_margin" "EBITDA Margin"
      (percent ebitda (revenue v)) r in
  let! r := block (gt0 (current_liabilities v))
      "current_ratio" "Current Ratio"
      (PyFloat.div (current_assets v) (current_liabilities v)) r in
  let! r := block (gt0 (current_liabilities v))
      "quick_ratio" "Quick Ratio"
      (PyFloat.div (current_assets v - inventory v)%float (current_liabilities v)) r in
  let! r := block (gt0 (current_liabilities v))
      "cash_ratio" "Cash Ratio"
      (PyFloat.div (cash v) (current_liabilities v)) r in
  let! r := block (gt0 (total_equity v))
      "debt_to_equity" "Debt to Equity"
      (PyFloat.div (total_liabilities v) (total_equity v)) r in
  let total_capitalization := (total_liabilities v + total_equity v)%float in
  let! r := block (gt0 total_capitalization)
      "debt_to_total_capitalization" "Debt to Total Capitalization"
      (PyFloat.div (total_liabilities v) total_capitalization) r in
  let! r := block (gt0 (total_equity v))
      "total_assets_to_equity" "Total Assets/Equity"
      (PyFloat.div (total_assets v) (total_equity v)) r in
  let! r := block (gt0 (total_equity v) && ne0 (net_income v))
      "roe" "Return on Equity (ROE)"
      (percent (net_income v) (total_equity v)) r in
  let! r := block (gt0 (total_assets v) && ne0 (net_income v))
      "roa" "Return on Assets (ROA)"
      (percent (net_income v) (total_assets v)) r in
  let invested_capital := (total_assets v - current_liabilities v)%float in
  let! r := block (gt0 invested_capital && ne0 (net_income v))
      "roic" "Return on Invested Capital (ROIC)"
      (percent (net_income v) invested_capital) r in
  let! r := block (gt0 (interest_expense v))
      "interest_coverage" "Interest Coverage Ratio"
      (PyFloat.div (operating_income v) (interest_expense v)) r in
  let! r := block (gt0 (inventory v))
      "inventory_turnover" "Inventory Turnover"
      (PyFloat.div (cost_of_goods_sold v) (inventory v)) r in
  let! r := block (gt0 (revenue v))
      "receivables_ratio" "Receivables Ratio"
      (PyFloat.div (accounts_receivable v) (revenue v)) r in
  let! r := block (ne0 (net_income v))
      "operating_cash_flow_to_net_income" "Operating Cash Flow/Net Income"
      (PyFloat.div (operating_cash_flow v) (net_income v)) r in
  let! r := block (gt0 (depreciation_amortization v))
      "capex_to_depreciation" "Capex/Depreciation"
      (PyFloat.div (capex v) (depreciation_amortization v)) r in
  let! r := block (gt0 (total_equity v))
      "book_value" "Book Value"
      (PyFloat.div (total_equity v) 1000000) r in
  let! r := block (gt0 (total_equity v))
      "tangible_book_value" "Tangible Book Value"
      (PyFloat.div (total_equity v) 1000000) r in
  let! r := block (gt0 (total_assets v))
      "net_working_capital_ratio" "Net Working Capital Ratio"
      (PyFloat.div (current_assets v - current_liabilities v)%float (total_assets v)) r in
  block (gt0 (shares_outstanding v) && ne0 (net_income v))
      "earnings_per_share" "Earnings Per Share"
      (PyFloat.div (net_income v) (shares_outstanding v)) r.

(** [values.values()] in the order the keys were set. *)
Definition values_list (v : values) : list float :=
  [ revenue v; gross_profit v; operating_income v; net_income v;
    cost_of_goods_sold v; depreciation_amortization v; interest_expense v;
    shares_outstanding v; total_assets v; current_assets v; total_liabilities v;
    current_liabilities v; total_equity v; cash v; inventory v;
    accounts_receivable v; operating_cash_flow v; capex v ].

(** The dictionary returned by [_assess_data_quality]. *)
Record data_quality : Type := {
  completeness : float;
  non_zero_values : nat;
  total_values : nat;
  quality_score : string
}.

Definition _assess_data_quality (v : values) : result data_quality :=
  let non_zero_values := length (List.filter PyFloat.gt0 (values_list v)) in
  let total_values := length (values_list v) in
  let! share := PyFloat.int_div (Z.of_nat non_zero_values) (Z.of_nat total_values) in
  Ok {| completeness := PyFloat.round1 (share * 100)%float;
        non_zero_values := non_zero_values;
        total_values := total_values;
        quality_score := if PrimFloat.ltb 0.5%float share then "Good" else "Poor" |}.

(** The statements of a [financial_data] argument; [None] is a missing
    member, read as the empty dictionary. *)
Record statements : Type := {
  st_income_statement : option (gmap string value_data);
  st_balance_sheet : option (gmap string value_data);
  st_cash_flow : option (gmap string value_data)
}.

(** What [calculate_single_company_ratios] returns: the calculation, or the
    dictionary that holds the error. *)
Inductive single_result : Type :=
| Calculated (calculated_ratios : ratios) (raw_values : values)
             (total_ratios_calculated : nat) (quality : data_quality)
| Failed (e : exception).

Definition calculate_single_company_ratios (financial_data : statements)
  : single_result :=
  let get (member : option (gmap string value_data)) :=
    match member with Some d => d | None => ∅ end in
  let attempt :=
    let! extracted_values :=
      _extract_key_values (get (st_income_statement financial_data))
                          (get (st_balance_sheet financial_data))
                          (get (st_cash_flow financial_data)) in
    let! calculated_ratios := _calculate_ratios extracted_values in
    let! quality := _assess_data_quality extracted_values in
    Ok (Calculated calculated_ratios extracted_values
                   (length calculated_ratios) quality) in
  match attempt with
  | Ok r => r
  | Raise e => Failed e
  end.

(** A company of [peer_group_data]: its name, its periods when it has a
    ['periods'] member, and its own statements otherwise. *)
Record company_data : Type := {
  cd_company_name : jfield string;
  cd_periods : option (list (string * statements));
  cd_statements : statements
}.

(** An entry of [peer_ratios]. *)
Inductive peer_entry : Type :=
| WithPeriods (company_name : option string)
              (periods : list (string * single_result))
| WithRatios (company_name : option string) (ratios : single_result).

(** The keys of an entry. *)
Definition entry_keys (c : peer_entry) : list string :=
  match c with
  | WithPeriods _ _ => ["company_name"; "periods"]
  | WithRatios _ _ => ["company_name"; "ratios"]
  end.

(** The dictionary returned by [calculate_peer_group_ratios]. *)
Record peer_group_ratios : Type := {
  peer_ratios : list (string * peer_entry);
  total_companies : nat;
  companies_with_data : nat
}.

Definition calculate_peer_group_ratios
    (peer_group_data : list (string * company_data)) : peer_group_ratios :=
  let peer_ratios :=
    fold_left
      (fun peer_ratios '(ticker, company_data) =>
         let company_name := jget_default (cd_company_name company_data) ticker in
         match cd_periods company_data with
         | Some periods =>
             let period_ratios :=
               fold_left
                 (fun period_ratios '(period, period_data) =>
                    PyDict.set period (calculate_single_company_ratios period_data)
                               period_ratios)
                 periods [] in
             PyDict.set ticker (WithPeriods company_name period_ratios) peer_ratios
         | None =>
             PyDict.set ticker
               (WithRatios company_name
                  (calculate_single_company_ratios (cd_statements company_data)))
               peer_ratios
         end)
      peer_group_data [] in
  {| peer_ratios := peer_ratios;
     total_companies := length peer_ratios;
     companies_with_data :=
       length (List.filter
                 (fun c => negb (existsb (String.eqb "error") (entry_keys c)))
                 (map snd peer_ratios)) |}.

(** A statement of the resolver as the calculator reads it: every line item
    is a dictionary with a ['value'] member. *)
Definition statement_dict (s : SECService.statement) : gmap string value_data :=
  list_to_map
    (map (fun '(concept_name, item) =>
            (concept_name,
             Dict match SECService.li_value item with
                  | Some v => Val v
                  | None => Null
                  end))
         s).

(** A dictionary returned by the resolver, passed on as [financial_data]:
    only a [financial_data] has the three statement members. *)
Definition of_bundle (b : SECService.bundle) : statements :=
  match b with
  | SECService.BData fd =>
      {| st_income_statement := Some (statement_dict (SECService.fd_income_statement fd));
         st_balance_sheet := Some (statement_dict (SECService.fd_balance_sheet fd));
         st_cash_flow := Some (statement_dict (SECService.fd_cash_flow fd)) |}
  | _ => {| st_income_statement := None; st_balance_sheet := None;
            st_cash_flow := None |}
  end.

End FinancialRatioCalculator.

(** ** Notions used to state the properties *)

Module Spec.

Import Schema.




(** [k] occurs in [s]. *)
Definition substring (k s : string) : Prop := exists pre post, s = pre ++ k ++ post.

(** The fiscal period of a value, with the default of the code for a missing
    member, is one of the listed tags. *)
Definition fiscal_period_listed (value : SECValue) : Prop :=
  exists fp,
    jget_default (v_fp value) "" = Some fp /\
    In fp ["FY"; "Q4"; ""; "Q1"; "Q2"; "Q3"].

(** The period test as the specification words it. *)
Definition stated_match (report_type period : string) (value : SECValue) : Prop :=
  v_form value = Some report_type /\
  (exists value_end, v_end value = Some value_end /\ substring period value_end) /\
  fiscal_period_listed value /\
  v_val value <> None.

(** Form, end date and fiscal period as the code tests them: the end date
    must also be non-empty. *)
Definition period_conditions (report_type period : string) (value : SECValue)
  : Prop :=
  v_form value = Some report_type /\
  (exists value_end,
      v_end value = Some value_end /\ value_end <> "" /\ substring period value_end) /\
  fiscal_period_listed value.

(** The entry an element of the instance namespace with non-blank text
    leaves in the facts dictionary, with its concept name. *)
Definition entry_of (contexts : gmap (option string) XBRLParser.context_info)
    (fact : Xml.element) : option (string * XBRLParser.fact_entry) :=
  if PyStr.startswith XBRLParser.xbrl_namespace (Xml.tag fact) then
    match Xml.text fact with
    | Some value =>
        if PyStr.strip_nonempty value then
          match XBRLParser.coerce value with
          | Ok v =>
              Some (PyStr.after_last "}" (Xml.tag fact),
                    {| XBRLParser.value := v;
                       XBRLParser.context := contexts !! (Xml.attrib fact !! "contextRef");
                       XBRLParser.unit_ref := Xml.attrib fact !! "unitRef";
                       XBRLParser.decimals := Xml.attrib fact !! "decimals";
                       XBRLParser.raw_value := value |})
          | Raise _ => None
          end
        else None
    | None => None
    end
  else None.

(** [fact] is the last element of [found] that leaves an entry for
    [concept], and [entry] is what it leaves. *)
Definition last_for (contexts : gmap (option string) XBRLParser.context_info)
    (concept : string) (found : list Xml.element)
    (entry : XBRLParser.fact_entry) : Prop :=
  exists pre fact post,
    found = (pre ++ fact :: post)%list /\
    entry_of contexts fact = Some (concept, entry) /\
    forall later, In later post ->
                  forall entry', entry_of contexts later <> Some (concept, entry').

(** A text has a character that is neither a digit, a point nor a dash. *)
Definition has_other_character (value : string) : Prop :=
  exists pre c post,
    value = pre ++ String c post /\
    PyStr.is_digit c = false /\ c <> "."%char /\ c <> "-"%char.

(** An event is a request to the host. *)
Definition is_request (e : Http.event) : Prop :=
  match e with
  | Http.Get _ => True
  | Http.Announce _ => False
  end.

(** A computation leaves only requests behind. *)
Definition requests_only {A} (m : Http.M A) : Prop :=
  forall tr, exists requests,
    snd (m tr) = (tr ++ requests)%list /\ Forall is_request requests.

(** The value set [_extract_key_values] builds when no key holds a value. *)
Definition no_values : FinancialRatioCalculator.values :=
  {| FinancialRatioCalculator.revenue := 0;
     FinancialRatioCalculator.gross_profit := 0;
     FinancialRatioCalculator.operating_income := 0;
     FinancialRatioCalculator.net_income := 0;
     FinancialRatioCalculator.cost_of_goods_sold := 0;
     FinancialRatioCalculator.depreciation_amortization := 0;
     FinancialRatioCalculator.interest_expense := 0;
     FinancialRatioCalculator.shares_outstanding := 0;
     FinancialRatioCalculator.total_assets := 0;
     FinancialRatioCalculator.current_assets := 0;
     FinancialRatioCalculator.total_liabilities := 0;
     FinancialRatioCalculator.current_liabilities := 0;
     FinancialRatioCalculator.total_equity := 0;
     FinancialRatioCalculator.cash := 0;
     FinancialRatioCalculator.inventory := 0;
     FinancialRatioCalculator.accounts_receivable := 0;
     FinancialRatioCalculator.operating_cash_flow := 0;
     FinancialRatioCalculator.capex := 0 |}.

(** No key of a statement dictionary holds a dictionary with a non-null
    ['value']. *)
Definition without_values
    (statement_data : option (gmap string FinancialRatioCalculator.value_data))
  : Prop :=
  forall d k v,
    statement_data = Some d -> d !! k <> Some (FinancialRatioCalculator.Dict (Val v)).

(** The line item the value-selection pass stores for a matching value. *)
Definition item_of (concept_name unit_key : string) (concept_data : concept)
    (value : SECValue) : SECService.line_item :=
  {| SECService.li_value := v_val value;
     SECService.li_unit := unit_key;
     SECService.li_period := v_end value;
     SECService.li_fiscal_year := v_fy value;
     SECService.li_fiscal_period := jget (v_fp value);
     SECService.li_filing_date := v_filed value;
     SECService.li_accession_number := v_accn value;
     SECService.li_label := jget_default (c_label concept_data) concept_name |}.

(** The trend point kept for a line item. *)
Definition point_of (item : SECService.line_item) : SECService.trend_point :=
  {| SECService.tp_value := SECService.li_value item;
     SECService.tp_unit := SECService.li_unit item;
     SECService.tp_label := SECService.li_label item |}.

(** The trend table of a statement. *)
Definition trends_of (t : SECService.statement_type) (d : SECService.trend_data)
  : SECService.trends :=
  match t with
  | SECService.income_statement => SECService.income_statement_trends d
  | SECService.balance_sheet => SECService.balance_sheet_trends d
  | SECService.cash_flow => SECService.cash_flow_trends d
  end.

(** The line item the value-selection pass stores for a concept name:
    that of the first matching value of the first unit that has one. *)
Definition selected (report_type period : string)
    (all_concepts : list (string * concept)) (concept_name : string)
  : option SECService.line_item :=
  match PyDict.lookup concept_name all_concepts with
  | Some concept_data =>
      match c_units concept_data with
      | Some u =>
          match SECService.first_match report_type period u with
          | Some (unit_key, value) =>
              Some (item_of concept_name unit_key concept_data value)
          | None => None
          end
      | None => None
      end
  | None => None
  end.

(** A computation sends at most [n] requests, and announces nothing. *)
Definition at_most_requests {A} (n : nat) (m : Http.M A) : Prop :=
  forall tr, exists requests,
    snd (m tr) = (tr ++ requests)%list /\
    Forall is_request requests /\ length requests <= n.

(** Number of requests among the events of a run. *)
Definition requests_of (events : Http.trace) : nat :=
  length (List.filter (fun e => match e with Http.Get _ => true | _ => false end)
                      events).

(** The guarded blocks of [_calculate_ratios] in the order of the code:
    guard, key, label and value of each. *)
Definition ratio_blocks (v : FinancialRatioCalculator.values)
  : list (bool * string * string * result float) :=
  let gt0 := PyFloat.gt0 in
  let ne0 := PyFloat.ne0 in
  let percent := FinancialRatioCalculator.percent in
  let revenue := FinancialRatioCalculator.revenue v in
  let net_income := FinancialRatioCalculator.net_income v in
  let operating_income := FinancialRatioCalculator.operating_income v in
  let total_equity := FinancialRatioCalculator.total_equity v in
  let total_assets := FinancialRatioCalculator.total_assets v in
  let total_liabilities := FinancialRatioCalculator.total_liabilities v in
  let current_assets := FinancialRatioCalculator.current_assets v in
  let current_liabilities := FinancialRatioCalculator.current_liabilities v in
  let inventory := FinancialRatioCalculator.inventory v in
  let depreciation_amortization :=
    FinancialRatioCalculator.depreciation_amortization v in
  let ebitda := (operating_income + depreciation_amortization)%float in
  let total_capitalization := (total_liabilities + total_equity)%float in
  let invested_capital := (total_assets - current_liabilities)%float in
  [ (gt0 revenue, "revenue", "Revenue", Ok revenue);
    (gt0 revenue && gt0 (FinancialRatioCalculator.gross_profit v),
     "gross_profit_margin", "Gross Profit Margin",
     percent (FinancialRatioCalculator.gross_profit v) revenue);
    (gt0 revenue && ne0 operating_income, "operating_margin", "Operating Margin",
     percent operating_income revenue);
    (gt0 revenue && ne0 net_income, "net_margin", "Net Margin",
     percent net_income revenue);
    (gt0 revenue && ne0 ebitda, "ebitda_margin", "EBITDA Margin",
     percent ebitda revenue);
    (gt0 current_liabilities, "current_ratio", "Current Ratio",
     PyFloat.div current_assets current_liabilities);
    (gt0 current_liabilities, "quick_ratio", "Quick Ratio",
     PyFloat.div (current_assets - inventory)%float current_liabilities);
    (gt0 current_liabilities, "cash_ratio", "Cash Ratio",
     PyFloat.div (FinancialRatioCalculator.cash v) current_liabilities);
    (gt0 total_equity, "debt_to_equity", "Debt to Equity",
     PyFloat.div total_liabilities total_equity);
    (gt0 total_capitalization, "debt_to_total_capitalization",
     "Debt to Total Capitalization",
     PyFloat.div total_liabilities total_capitalization);
    (gt0 total_equity, "total_assets_to_equity", "Total Assets/Equity",
     PyFloat.div total_assets total_equity);
    (gt0 total_equity && ne0 net_income, "roe", "Return on Equity (ROE)",
     percent net_income total_equity);
    (gt0 total_assets && ne0 net_income, "roa", "Return on Assets (ROA)",
     percent net_income total_assets);
    (gt0 invested_capital && ne0 net_income, "roic",
     "Return on Invested Capital (ROIC)", percent net_income invested_capital);
    (gt0 (FinancialRatioCalculator.interest_expense v), "interest_coverage",
     "Interest Coverage Ratio",
     PyFloat.div operating_income (FinancialRatioCalculator.interest_expense v));
    (gt0 inventory, "inventory_turnover", "Inventory Turnover",
     PyFloat.div (FinancialRatioCalculator.cost_of_goods_sold v) inventory);
    (gt0 revenue, "receivables_ratio", "Receivables Ratio",
     PyFloat.div (FinancialRatioCalculator.accounts_receivable v) revenue);
    (ne0 net_income, "operating_cash_flow_to_net_income",
     "Operating Cash Flow/Net Income",
     PyFloat.div (FinancialRatioCalculator.operating_cash_flow v) net_income);
    (gt0 depreciation_amortization, "capex_to_depreciation", "Capex/Depreciation",
     PyFloat.div (FinancialRatioCalculator.capex v) depreciation_amortization);
    (gt0 total_equity, "book_value", "Book Value",
     PyFloat.div total_equity 1000000);
    (gt0 total_equity, "tangible_book_value", "Tangible Book Value",
     PyFloat.div total_equity 1000000);
    (gt0 total_assets, "net_working_capital_ratio", "Net Working Capital Ratio",
     PyFloat.div (current_assets - current_liabilities)%float total_assets);
    (gt0 (FinancialRatioCalculator.shares_outstanding v) && ne0 net_income,
     "earnings_per_share", "Earnings Per Share",
     PyFloat.div net_income (FinancialRatioCalculator.shares_outstanding v)) ].

(** The blocks run one after the other. *)
Fixpoint run_blocks (blocks : list (bool * string * string * result float))
    (r : FinancialRatioCalculator.ratios) : result FinancialRatioCalculator.ratios :=
  match blocks with
  | [] => Ok r
  | (guard, key, label, value) :: rest =>
      rbind (FinancialRatioCalculator.block guard key label value r) (run_blocks rest)
  end.

(** The keys [_calculate_ratios] may write, in the order of the code. *)
Definition ratio_keys : list string :=
  [ "revenue"; "gross_profit_margin"; "operating_margin"; "net_margin";
    "ebitda_margin"; "current_ratio"; "quick_ratio"; "cash_ratio";
    "debt_to_equity"; "debt_to_total_capitalization"; "total_assets_to_equity";
    "roe"; "roa"; "roic"; "interest_coverage"; "inventory_turnover";
    "receivables_ratio"; "operating_cash_flow_to_net_income";
    "capex_to_depreciation"; "book_value"; "tangible_book_value";
    "net_working_capital_ratio"; "earnings_per_share" ].

(** ['concept_data'] as the company-concept branch builds it from a value. *)
Definition concept_value_of (tagged : string * SECValue) : SECService.concept_value :=
  {| SECService.cv_value := v_val (snd tagged);
     SECService.cv_unit := fst tagged;
     SECService.cv_period := v_end (snd tagged);
     SECService.cv_fiscal_year := v_fy (snd tagged);
     SECService.cv_fiscal_period := jget (v_fp (snd tagged));
     SECService.cv_form := v_form (snd tagged);
     SECService.cv_filing_date := v_filed (snd tagged);
     SECService.cv_accession_number := v_accn (snd tagged) |}.

(** The values of a units dictionary with their unit, in document order. *)
Definition tagged_values (u : units) : list (string * SECValue) :=
  flat_map (fun '(unit_key, values) => map (pair unit_key) values) u.

(** The events a run adds to a trace hold the announcement of a tier. *)
Definition announces {A} (t : Http.tier) (m : Http.M A) (tr : Http.trace) : Prop :=
  exists events, snd (m tr) = (tr ++ events)%list /\ In (Http.Announce t) events.

End Spec.

(** ** Sample inputs *)

Module Examples.

Import Schema.

Definition labelled (label : string) : concept :=
  {| c_label := Val label; c_description := Absent; c_units := None |}.

(** Concepts as they reach the classifier. *)
Definition sample_concepts : list (string * concept) :=
  [ ("us-gaap.Revenues", labelled "Revenues");
    ("us-gaap.StockIssuedCosts", labelled "Stock issuance costs");
    ("us-gaap.InventoryChange", labelled "Decrease in Inventory");
    ("us-gaap.OciNet", labelled "Other Comprehensive Income, Net of Tax");
    ("dei.DocumentType", labelled "Document Type") ].

Definition annual (value_end : string) (val : option pynum) : SECValue :=
  {| v_end := Some value_end; v_val := val; v_accn := Some "0000320193-23-000106";
     v_fy := Some 2023%Z; v_fp := Val "FY"; v_form := Some "10-K";
     v_filed := Some "2023-11-03" |}.

(** A concept whose first value for the period is [null]. *)
Definition null_first : concept :=
  {| c_label := Val "Revenues"; c_description := Absent;
     c_units := Some [("USD", [ annual "2023-09-30" None;
                                annual "2023-09-30" (Some (PInt 383285000000)) ])] |}.

Definition null_first_facts : facts :=
  [("us-gaap", Some [("Revenues", OConcept null_first)])].

Definition xbrl_element (name text : string) : Xml.element :=
  {| Xml.tag := XBRLParser.xbrl_namespace ++ name;
     Xml.text := Some text;
     Xml.attrib := ∅ |}.

Definition document_of (found : list Xml.element) : Xml.document :=
  {| Xml.find_contexts := []; Xml.find_xbrl := found;
     Xml.find_xsd_elements := []; Xml.find_labels := [] |}.

(** An instance whose elements of the instance namespace parse: the
    concept [measure] occurs twice. *)
Definition two_measures : Xml.document :=
  document_of
    [ xbrl_element "identifier" "0000320193";
      xbrl_element "measure" "iso4217:USD";
      xbrl_element "measure" "xbrli:shares" ].

(** An instance with a value that looks numeric once points and dashes are
    taken out. *)
Definition dotted_value : Xml.document :=
  document_of
    [ xbrl_element "identifier" "0000320193";
      xbrl_element "measure" "1.2.3" ].

(** An instance with the date of a context period. *)
Definition dated_context : Xml.document :=
  document_of
    [ xbrl_element "identifier" "0000320193";
      xbrl_element "instant" "2023-09-30" ].

(** A host that answers every request with the same instance document. *)
Definition serves (root : Xml.document) : Http.host :=
  fun _ _ =>
    Some {| Http.status_code := 200; Http.text := "";
            Http.json := None; Http.xml := Some root |}.

Definition not_found : Http.response :=
  {| Http.status_code := 404; Http.text := ""; Http.json := None; Http.xml := None |}.



Definition revenue_facts : facts :=
  [("us-gaap",
    Some [("Revenues",
           OConcept
             {| c_label := Val "Revenues"; c_description := Absent;
                c_units := Some [("USD", [annual "2023-09-30"
                                            (Some (PInt 383285000000))])] |})])].

Definition facts_document (f : facts) : Http.response :=
  {| Http.status_code := 200; Http.text := "";
     Http.json := Some (JObject {| d_facts := Some f; d_filings := None;
                                   d_units := None; d_other := ["cik"; "entityName"] |});
     Http.xml := None |}.

(** A host that knows the company facts of company 1, has a company-facts
    document without any fact for company 3, and answers 404 to every other
    request: company 2 is unknown to it. *)
Definition facts_host : Http.host :=
  fun _ url =>
    if String.eqb url "https://data.sec.gov/api/xbrl/companyfacts/CIK0000000001.json"
    then Some (facts_document revenue_facts)
    else if String.eqb url "https://data.sec.gov/api/xbrl/companyfacts/CIK0000000003.json"
    then Some (facts_document [])
    else Some not_found.

(** Extracted values of the end-to-end ratio example; every other key is 0. *)
Definition example_values : FinancialRatioCalculator.values :=
  {| FinancialRatioCalculator.revenue := 1000;
     FinancialRatioCalculator.gross_profit := 400;
     FinancialRatioCalculator.operating_income := 0;
     FinancialRatioCalculator.net_income := 90;
     FinancialRatioCalculator.cost_of_goods_sold := 0;
     FinancialRatioCalculator.depreciation_amortization := 0;
     FinancialRatioCalculator.interest_expense := 0;
     FinancialRatioCalculator.shares_outstanding := 10;
     FinancialRatioCalculator.total_assets := 0;
     FinancialRatioCalculator.current_assets := 200;
     FinancialRatioCalculator.total_liabilities := 300;
     FinancialRatioCalculator.current_liabilities := 100;
     FinancialRatioCalculator.total_equity := 500;
     FinancialRatioCalculator.cash := 0;
     FinancialRatioCalculator.inventory := 0;
     FinancialRatioCalculator.accounts_receivable := 0;
     FinancialRatioCalculator.operating_cash_flow := 0;
     FinancialRatioCalculator.capex := 0 |}.

(** The same company without current liabilities on record. *)
Definition no_current_liabilities : FinancialRatioCalculator.values :=
  {| FinancialRatioCalculator.revenue := 1000;
     FinancialRatioCalculator.gross_profit := 400;
     FinancialRatioCalculator.operating_income := 150;
     FinancialRatioCalculator.net_income := 90;
     FinancialRatioCalculator.cost_of_goods_sold := 600;
     FinancialRatioCalculator.depreciation_amortization := 20;
     FinancialRatioCalculator.interest_expense := 5;
     FinancialRatioCalculator.shares_outstanding := 10;
     FinancialRatioCalculator.total_assets := 800;
     FinancialRatioCalculator.current_assets := 200;
     FinancialRatioCalculator.total_liabilities := 300;
     FinancialRatioCalculator.current_liabilities := 0;
     FinancialRatioCalculator.total_equity := 500;
     FinancialRatioCalculator.cash := 50;
     FinancialRatioCalculator.inventory := 30;
     FinancialRatioCalculator.accounts_receivable := 40;
     FinancialRatioCalculator.operating_cash_flow := 120;
     FinancialRatioCalculator.capex := 25 |}.





Definition listed (cik : Z) (ticker title : string) : SECService.company_info :=
  {| SECService.ci_cik_str := Some cik; SECService.ci_ticker := ticker;
     SECService.ci_title := title; SECService.ci_sic := "";
     SECService.ci_sicDescription := "" |}.

(** A tickers file with twelve companies whose name holds "corp". *)
Definition tickers_file : list (string * SECService.company_info) :=
  [ ("0", listed 320193 "AAPL" "Apple Inc.");
    ("1", listed 789019 "MSFT" "MICROSOFT CORP");
    ("2", listed 1045810 "NVDA" "NVIDIA CORP");
    ("3", listed 34088 "XOM" "EXXON MOBIL CORP");
    ("4", listed 1341439 "ORCL" "ORACLE CORP");
    ("5", listed 93410 "CVX" "CHEVRON CORP");
    ("6", listed 50863 "INTC" "INTEL CORP");
    ("7", listed 909832 "COST" "COSTCO WHOLESALE CORP /NEW");
    ("8", listed 70858 "BAC" "BANK OF AMERICA CORP /DE/");
    ("9", listed 1467373 "ACN" "Accenture plc");
    ("10", listed 64803 "CVS" "CVS HEALTH Corp");
    ("11", listed 1800 "ABT" "ABBOTT LABORATORIES");
    ("12", listed 4962 "AXP" "AMERICAN EXPRESS CO");
    ("13", listed 27419 "TGT" "TARGET CORP");
    ("14", listed 1090727 "UPS" "UNITED PARCEL SERVICE INC");
    ("15", listed 936468 "LMT" "LOCKHEED MARTIN CORP");
    ("16", listed 1133421 "NOC" "NORTHROP GRUMMAN CORP /DE/");
    ("17", listed 1108524 "CRM" "Salesforce, Inc.");
    ("18", listed 20286 "CINF" "CINCINNATI FINANCIAL CORP");
    ("19", listed 858877 "CSCO" "CISCO SYSTEMS, INC.") ].

(** A host that answers every request with an empty body and status 200. *)
Definition plain_host : Http.host :=
  fun _ _ =>
    Some {| Http.status_code := 200; Http.text := ""; Http.json := None;
            Http.xml := None |}.

(** A fact of an instance whose text is kept as it is. *)
Definition text_fact (raw : string) : XBRLParser.fact_entry :=
  {| XBRLParser.value := XBRLParser.TextValue raw; XBRLParser.context := None;
     XBRLParser.unit_ref := None; XBRLParser.decimals := None;
     XBRLParser.raw_value := raw |}.

Definition sample_facts : XBRLParser.facts_dict :=
  [ ("NetIncomeLoss", text_fact "n/a");
    ("IncreaseDecreaseInInventories", text_fact "n/a");
    ("CashAndCashEquivalentsAtEndOfPeriod", text_fact "n/a");
    ("EntityRegistrantName", text_fact "Apple Inc.") ].

Definition annual_reports : recent :=
  {| r_accessionNumber := ["0000320193-24-000010"; "0000320193-23-000106"];
     r_form := ["10-Q"; "10-K"];
     r_filingDate := ["2024-02-02"; "2023-11-03"];
     r_reportDate := ["2023-12-30"; "2023-09-30"] |}.

(** A host for company 320193 without a company-facts document: its
    submissions list one annual report, and it serves the facts of that
    filing. *)
Definition submissions_host : Http.host :=
  fun _ url =>
    if String.eqb url "https://data.sec.gov/submissions/CIK0000320193.json"
    then Some {| Http.status_code := 200; Http.text := "";
                 Http.json := Some (JObject {| d_facts := None;
                                               d_filings := Some annual_reports;
                                               d_units := None;
                                               d_other := ["cik"; "name"] |});
                 Http.xml := None |}
    else if String.eqb url
      "https://data.sec.gov/api/xbrl/facts/0000320193-23-000106.json"
    then Some (facts_document revenue_facts)
    else Some not_found.

(** Statements whose revenue is an integer too large for a float. *)
Definition overflowing : FinancialRatioCalculator.statements :=
  {| FinancialRatioCalculator.st_income_statement :=
       Some {[ "us-gaap.Revenues" :=
                 FinancialRatioCalculator.Dict (Val (PInt (10 ^ 400))) ]};
     FinancialRatioCalculator.st_balance_sheet := None;
     FinancialRatioCalculator.st_cash_flow := None |}.

(** Statements whose members hold no value. *)
Definition valueless : FinancialRatioCalculator.statements :=
  {| FinancialRatioCalculator.st_income_statement :=
       Some {[ "us-gaap.Revenues" := FinancialRatioCalculator.Dict Null;
               "us-gaap.GrossProfit" := FinancialRatioCalculator.NotADict ]};
     FinancialRatioCalculator.st_balance_sheet := Some ∅;
     FinancialRatioCalculator.st_cash_flow := None |}.

(** A peer group: a company given by periods, one of which cannot be
    calculated, and a company given by its statements. *)
Definition sample_peer_group : list (string * FinancialRatioCalculator.company_data) :=
  [ ("AAPL",
     {| FinancialRatioCalculator.cd_company_name := Val "Apple Inc.";
        FinancialRatioCalculator.cd_periods :=
          Some [("2022", valueless); ("2023", overflowing)];
        FinancialRatioCalculator.cd_statements := valueless |});
    ("MSFT",
     {| FinancialRatioCalculator.cd_company_name := Absent;
        FinancialRatioCalculator.cd_periods := None;
        FinancialRatioCalculator.cd_statements := overflowing |}) ].

Definition reported (value : Z) (unit_key label : string) : SECService.line_item :=
  {| SECService.li_value := Some (PInt value); SECService.li_unit := unit_key;
     SECService.li_period := Some "2023-09-30"; SECService.li_fiscal_year := Some 2023%Z;
     SECService.li_fiscal_period := Some "FY"; SECService.li_filing_date := None;
     SECService.li_accession_number := None; SECService.li_label := Some label |}.

Definition income_only (s : SECService.statement) : SECService.bundle :=
  SECService.BData
    {| SECService.fd_income_statement := s; SECService.fd_balance_sheet := [];
       SECService.fd_cash_flow := []; SECService.fd_filings := None;
       SECService.fd_matching_filing := None; SECService.fd_concept_data := None;
       SECService.fd_available_keys := None; SECService.fd_error := false |}.

(** Two years of income statements. *)
Definition two_years : list (string * SECService.bundle) :=
  [ ("2022", income_only [("us-gaap.Revenues", reported 394328000000 "USD" "Revenues")]);
    ("2023", income_only [("us-gaap.Revenues", reported 383285000000 "USD" "Revenues");
                          ("us-gaap.NetIncomeLoss", reported 96995000000 "USD" "Net income")]) ].

End Examples.

(** * Properties *)

(** ** Strings and dictionaries *)

Lemma append_cons (c : ascii) (a b : string) :
  String c a ++ b = String c (a ++ b).
Proof. reflexivity. Qed.

Lemma prefix_app (k s : string) :
  String.prefix k s = true <-> exists post, s = k ++ post.
Proof.
  revert s; induction k as [|c k IH]; intros s.
  - split; [intros _; exists s; reflexivity | intros _; destruct s; reflexivity].
  - destruct s as [|d s]; simpl.
    + split; [discriminate | intros [post H]; discriminate].
    + destruct (Ascii.ascii_dec c d) as [->|Hne].
      * rewrite IH. split; intros [post H]; exists post.
        -- rewrite append_cons. congruence.
        -- rewrite append_cons in H. congruence.
      * split; [discriminate | intros [post H]].
        rewrite append_cons in H. congruence.
Qed.

(** [contains k s] holds exactly when [k] is a substring of [s]. *)
Lemma contains_substring (k s : string) :
  PyStr.contains k s = true <-> exists pre post, s = pre ++ k ++ post.
Proof.
  induction s as [|d s IH]; cbn [PyStr.contains].
  - rewrite orb_false_r, prefix_app. split.
    + intros [post H]. exists "", post. exact H.
    + intros [pre [post H]]. destruct pre; [exists post; exact H | discriminate].
  - rewrite orb_true_iff, prefix_app, IH. split.
    + intros [[post H] | [pre [post H]]].
      * exists "", post. exact H.
      * exists (String d pre), post. rewrite append_cons. congruence.
    + intros [pre [post H]]. destruct pre as [|c pre].
      * left. exists post. exact H.
      * right. exists pre, post. rewrite append_cons in H. congruence.
Qed.

Lemma lookup_set {V} (k k' : string) (v : V) (d : list (string * V)) :
  PyDict.lookup k' (PyDict.set k v d) =
  if String.eqb k' k then Some v else PyDict.lookup k' d.
Proof.
  induction d as [|[k0 v0] d IH]; simpl.
  - reflexivity.
  - destruct (String.eqb_spec k k0) as [->|Hne]; simpl.
    + destruct (String.eqb_spec k' k0); reflexivity.
    + destruct (String.eqb_spec k' k0) as [->|Hne'].
      * destruct (String.eqb_spec k0 k); [congruence | reflexivity].
      * exact IH.
Qed.

Lemma keys_set_in {V} (k k' : string) (v : V) (d : list (string * V)) :
  In k' (PyDict.keys (PyDict.set k v d)) <-> k' = k \/ In k' (PyDict.keys d).
Proof.
  unfold PyDict.keys. induction d as [|[k0 v0] d IH]; simpl.
  - intuition.
  - destruct (String.eqb_spec k k0) as [->|Hne]; simpl.
    + intuition.
    + rewrite IH. intuition.
Qed.

Lemma keys_set_nodup {V} (k : string) (v : V) (d : list (string * V)) :
  List.NoDup (PyDict.keys d) -> List.NoDup (PyDict.keys (PyDict.set k v d)).
Proof.
  unfold PyDict.keys. induction d as [|[k0 v0] d IH]; simpl; intros Hnd.
  - constructor; [intros [] | constructor].
  - inversion Hnd as [|? ? Hnin Hnd']; subst.
    destruct (String.eqb_spec k k0) as [->|Hne]; simpl.
    + constructor; assumption.
    + constructor; [|apply IH; assumption].
      intros Hin. apply (keys_set_in k k0 v d) in Hin.
      destruct Hin as [-> | Hin]; [congruence | exact (Hnin Hin)].
Qed.

(** ** Period matching *)

Section PeriodMatcher.

Import Schema SECService.

Lemma truthy_nonempty (s : string) : PyStr.truthy s = true <-> s <> "".
Proof. destruct s; simpl; split; congruence. Qed.

Lemma form_matches_iff (report_type : string) (value : SECValue) :
  form_matches report_type value = true <-> v_form value = Some report_type.
Proof.
  unfold form_matches. destruct (v_form value) as [f|].
  - destruct (String.eqb_spec f report_type); split; congruence.
  - split; discriminate.
Qed.

Lemma end_matches_iff (period : string) (value : SECValue) :
  end_matches period value = true <->
  exists value_end,
    v_end value = Some value_end /\ value_end <> "" /\
    Spec.substring period value_end.
Proof.
  unfold end_matches, Spec.substring. destruct (v_end value) as [e|].
  - rewrite andb_true_iff, truthy_nonempty, contains_substring. split.
    + intros [Hne Hsub]. exists e. auto.
    + intros (e' & Heq & Hne & Hsub). injection Heq as <-. auto.
  - split; [discriminate | intros (e' & Heq & _); discriminate].
Qed.

Lemma fp_matches_iff (value : SECValue) :
  fp_matches value = true <-> Spec.fiscal_period_listed value.
Proof.
  unfold fp_matches, Spec.fiscal_period_listed.
  destruct (jget_default (v_fp value) "") as [fp|].
  - simpl. rewrite !orb_true_iff, !String.eqb_eq. split.
    + intros H. exists fp. split; [reflexivity|].
      intuition (subst; auto; discriminate).
    + intros (fp' & Heq & Hin). injection Heq as <-.
      intuition (subst; auto).
  - split; [discriminate | intros (fp' & Heq & _); discriminate].
Qed.

Lemma period_match_iff (report_type period : string) (value : SECValue) :
  period_match report_type period value = true <->
  Spec.period_conditions report_type period value.
Proof.
  unfold period_match, Spec.period_conditions.
  rewrite !andb_true_iff, form_matches_iff, end_matches_iff, fp_matches_iff.
  tauto.
Qed.

Lemma has_value_in_period_iff (report_type period : string) (value : SECValue) :
  has_value_in_period report_type period value = true <->
  Spec.period_conditions report_type period value /\ v_val value <> None.
Proof.
  unfold has_value_in_period. fold (period_match report_type period value).
  rewrite andb_true_iff, period_match_iff.
  destruct (v_val value); intuition congruence.
Qed.

(** For a non-empty period string the concept-selection pass retains a
    value exactly under the four stated conditions: a date that contains a
    non-empty period is itself non-empty. *)
Lemma concept_selection_as_stated (report_type period : string) (value : SECValue) :
  period <> "" ->
  (has_value_in_period report_type period value = true <->
   Spec.stated_match report_type period value).
Proof.
  intros Hperiod. rewrite has_value_in_period_iff.
  unfold Spec.period_conditions, Spec.stated_match. split.
  - intros [(Hform & (value_end & Hend & _ & Hsub) & Hfp) Hval]. eauto 8.
  - intros (Hform & (value_end & Hend & Hsub) & Hfp & Hval).
    split; [|exact Hval]. split; [exact Hform|]. split; [|exact Hfp].
    exists value_end. split; [exact Hend|]. split; [|exact Hsub].
    intros ->. destruct Hsub as (pre & post & Heq).
    destruct pre; [|discriminate]. destruct period; [congruence | discriminate].
Qed.

(** C2 at its failing input: the annual report of 2023 lists, for one
    concept and unit, a value that is [null] and then a value that is not.
    The null value meets the conditions on form, end date and fiscal period
    but not the stated predicate.  The concept-selection pass does not count
    it and selects the concept for the second value; the value-selection
    pass retains it, and the stored line item holds [None]. *)
Theorem null_value_retained_by_value_selection :
  let null_value := Examples.annual "2023-09-30" None in
  let reported := Examples.annual "2023-09-30" (Some (PInt 383285000000)) in
  Spec.period_conditions "10-K" "2023" null_value /\
  ~ Spec.stated_match "10-K" "2023" null_value /\
  has_value_in_period "10-K" "2023" null_value = false /\
  has_reported_value "10-K" "2023" [("USD", [null_value; reported])] = true /\
  period_match "10-K" "2023" null_value = true /\
  first_match "10-K" "2023" [("USD", [null_value; reported])]
  = Some ("USD", null_value) /\
  option_map li_value
    (PyDict.lookup "us-gaap.Revenues"
       (fd_income_statement (extract_facts Examples.null_first_facts "10-K" "2023")))
  = Some None.
Proof.
  cbv zeta. split; [|split; [|repeat split; reflexivity]].
  - apply period_match_iff. reflexivity.
  - intros (_ & _ & _ & Hval). exact (Hval eq_refl).
Qed.

End PeriodMatcher.

(** ** Concept classifier *)

Section Classifier.

Import SECService.




Lemma names_append (t b : statement_type) (n name : string) (c : categorized) :
  In name (names b (append t n c)) <-> In name (names b c) \/ (t = b /\ n = name).
Proof.
  destruct t, b; simpl; rewrite ?in_app_iff; simpl;
    intuition (try discriminate; auto).
Qed.

Lemma categorized_from (facts : list (string * Schema.concept)) (acc : categorized)
    (b : statement_type) (name : string) :
  In name
     (names b
        (fold_left
           (fun categorized '(concept_name, concept_data) =>
              match categorize (description concept_name concept_data) with
              | Some t => append t concept_name categorized
              | None => categorized
              end)
           facts acc))
  <-> In name (names b acc) \/
      exists concept_data,
        In (name, concept_data) facts /\
        categorize (description name concept_data) = Some b.
Proof.
  revert acc. induction facts as [|[n cd] facts IH]; intros acc; simpl.
  - split; [auto | intros [H | (cd & [] & _)]; exact H].
  - rewrite IH. destruct (categorize (description n cd)) as [t|] eqn:Hcat.
    + rewrite names_append. split.
      * intros [[H | [-> ->]] | (cd' & Hin & Hc)]; eauto 6.
      * intros [H | (cd' & [Heq | Hin] & Hc)]; eauto 6.
        injection Heq as -> ->. left. right. split; congruence.
    + split.
      * intros [H | (cd' & Hin & Hc)]; eauto 6.
      * intros [H | (cd' & [Heq | Hin] & Hc)]; eauto 6.
        injection Heq as -> ->. congruence.
Qed.

(** A concept name is listed under a statement exactly when one of its
    entries classifies there. *)
Lemma categorized_names (facts : list (string * Schema.concept))
    (b : statement_type) (name : string) :
  In name (names b (_categorize_concepts_by_statement facts)) <->
  exists concept_data,
    In (name, concept_data) facts /\
    categorize (description name concept_data) = Some b.
Proof.
  unfold _categorize_concepts_by_statement. rewrite categorized_from.
  destruct b; simpl; intuition.
Qed.

Lemma keys_functional {V} (d : list (string * V)) (k : string) (v v' : V) :
  List.NoDup (PyDict.keys d) -> In (k, v) d -> In (k, v') d -> v = v'.
Proof.
  unfold PyDict.keys. induction d as [|[k0 v0] d IH]; simpl; intros Hnd Hin Hin'.
  - destruct Hin.
  - inversion Hnd as [|? ? Hnin Hnd']; subst.
    destruct Hin as [Heq | Hin], Hin' as [Heq' | Hin'].
    + congruence.
    + injection Heq as -> ->. exfalso. apply Hnin.
      apply in_map_iff. exists (k, v'). auto.
    + injection Heq' as -> ->. exfalso. apply Hnin.
      apply in_map_iff. exists (k, v). auto.
    + eauto.
Qed.



(** C4. A concept whose lower-cased description holds "increase" or
    "decrease" is listed under cash_flow whatever its scores, and one of the
    remaining concepts whose description holds "comprehensive income" under
    balance_sheet.  "Decrease in Inventory" goes to cash_flow although
    "inventory" is a balance-sheet keyword that occurs in it. *)
Theorem classifier_short_circuit
    (facts : list (string * Schema.concept))
    (concept_name : string) (concept_data : Schema.concept) :
  List.NoDup (PyDict.keys facts) ->
  In (concept_name, concept_data) facts ->
  let d := description concept_name concept_data in
  (PyStr.contains "increase" d = true \/ PyStr.contains "decrease" d = true ->
   forall b,
     In concept_name (names b (_categorize_concepts_by_statement facts)) <->
     b = cash_flow) /\
  (PyStr.contains "increase" d = false ->
   PyStr.contains "decrease" d = false ->
   PyStr.contains "comprehensive income" d = true ->
   forall b,
     In concept_name (names b (_categorize_concepts_by_statement facts)) <->
     b = balance_sheet) /\
  (let example := description "us-gaap.InventoryChange"
                              (Examples.labelled "Decrease in Inventory") in
   categorize example = Some cash_flow /\
   In "inventory" (statement_keywords balance_sheet) /\
   PyStr.contains "inventory" example = true /\
   scores example cash_flow <= scores example balance_sheet).
Proof.
  intros Hnd Hin d.
  assert (Hnames : forall b,
             In concept_name (names b (_categorize_concepts_by_statement facts)) <->
             categorize d = Some b).
  { intros b. rewrite categorized_names. split.
    - intros (cd & Hin' & Hcat).
      rewrite <- (keys_functional facts concept_name concept_data cd Hnd Hin Hin')
        in Hcat.
      exact Hcat.
    - intros Hcat. exists concept_data. auto. }
  split; [|split].
  - intros Hkw b. rewrite Hnames. unfold categorize. cbn [existsb].
    change (PyStr.lower "increase") with "increase".
    change (PyStr.lower "decrease") with "decrease".
    replace (PyStr.contains "increase" d || (PyStr.contains "decrease" d || false))
      with true
      by (destruct Hkw as [-> | ->]; [reflexivity | rewrite !orb_true_r; reflexivity]).
    split; congruence.
  - intros Hinc Hdec Hcomp b. rewrite Hnames. unfold categorize. cbn [existsb].
    change (PyStr.lower "increase") with "increase".
    change (PyStr.lower "decrease") with "decrease".
    rewrite Hinc, Hdec, Hcomp. cbn [orb]. split; congruence.
  - vm_compute. repeat split; auto 10.
Qed.

Lemma classifier_short_circuit_witness :
  In "us-gaap.InventoryChange"
     (names cash_flow (_categorize_concepts_by_statement Examples.sample_concepts)) /\
  In "us-gaap.OciNet"
     (names balance_sheet (_categorize_concepts_by_statement Examples.sample_concepts)).
Proof.
  assert (Hnd : List.NoDup (PyDict.keys Examples.sample_concepts)).
  { apply (NoDup_count_occ' string_dec). intros x Hx. simpl in Hx.
    repeat (destruct Hx as [<- | Hx]; [reflexivity|]). destruct Hx. }
  split.
  - apply (proj1 (classifier_short_circuit Examples.sample_concepts
                    "us-gaap.InventoryChange"
                    (Examples.labelled "Decrease in Inventory")
                    Hnd ltac:(simpl; auto 10))).
    + right. reflexivity.
    + reflexivity.
  - apply (proj1 (proj2 (classifier_short_circuit Examples.sample_concepts
                    "us-gaap.OciNet"
                    (Examples.labelled "Other Comprehensive Income, Net of Tax")
                    Hnd ltac:(simpl; auto 10)))); reflexivity.
Defined.

End Classifier.

(** ** Ratio calculator *)

Section Ratios.

Import FinancialRatioCalculator.

Lemma zero_spec : Prim2SF 0 = S754_zero false.
Proof. reflexivity. Qed.

(** A float above zero is not equal to zero. *)
Lemma gt0_not_eq0 (x : float) : PyFloat.gt0 x = true -> PyFloat.eq0 x = false.
Proof.
  unfold PyFloat.gt0, PyFloat.eq0.
  rewrite FloatAxioms.ltb_spec, FloatAxioms.eqb_spec, zero_spec.
  destruct (Prim2SF x) as [[|]|[|]| |[|] m e]; cbv; congruence.
Qed.

(** A float equal to zero is not above zero. *)
Lemma eq0_not_gt0 (x : float) : PyFloat.eq0 x = true -> PyFloat.gt0 x = false.
Proof.
  intros H. destruct (PyFloat.gt0 x) eqn:Hgt; [|reflexivity].
  apply gt0_not_eq0 in Hgt. congruence.
Qed.

Lemma ne0_not_eq0 (x : float) : PyFloat.ne0 x = true -> PyFloat.eq0 x = false.
Proof. unfold PyFloat.ne0. destruct (PyFloat.eq0 x); simpl; congruence. Qed.

Lemma div_ok (x y : float) :
  PyFloat.eq0 y = false -> exists q, PyFloat.div x y = Ok q.
Proof. intros H. unfold PyFloat.div. rewrite H. eauto. Qed.

Lemma percent_ok (x y : float) :
  PyFloat.eq0 y = false -> exists q, percent x y = Ok q.
Proof. intros H. unfold percent, PyFloat.div. rewrite H. simpl. eauto. Qed.

(** A block whose guard protects its computation does not raise, and
    leaves alone every key it does not write. *)
Lemma block_preserves (guard : bool) (key label : string) (value : result float)
    (r : ratios) (ks : list string) :
  (guard = true -> ~ In key ks) ->
  (guard = true -> exists x, value = Ok x) ->
  exists r', block guard key label value r = Ok r' /\
             forall k, In k ks -> PyDict.lookup k r' = PyDict.lookup k r.
Proof.
  intros Hkey Hval. unfold block. destruct guard.
  - destruct (Hval eq_refl) as [x ->]. simpl. eexists. split; [reflexivity|].
    intros k Hk. rewrite lookup_set.
    destruct (String.eqb_spec k key) as [->|]; [|reflexivity].
    exfalso. exact (Hkey eq_refl Hk).
  - exists r. auto.
Qed.

Ltac guarded_value :=
  let Hg := fresh "Hg" in
  intros Hg;
  try (apply andb_true_iff in Hg; destruct Hg as [Hg _]);
  first
    [ eexists; reflexivity
    | apply div_ok;
      first [apply gt0_not_eq0; exact Hg | apply ne0_not_eq0; exact Hg]
    | apply percent_ok;
      first [apply gt0_not_eq0; exact Hg | apply ne0_not_eq0; exact Hg]
    | apply div_ok; reflexivity ].

(** One block of the chain: [keys] tells why the block writes none of the
    keys [ks], which so far have no entry. *)
Ltac step_block ks keys :=
  match goal with
  | Hinv : forall k, In k ks -> PyDict.lookup k ?r0 = None
    |- exists r, rbind (block ?g ?key ?lab ?val ?r0) _ = Ok r /\ _ =>
      let r' := fresh "r" in
      let Heq := fresh "Heq" in
      let Hr := fresh "Hr" in
      destruct (block_preserves g key lab val r0 ks) as (r' & Heq & Hr);
      [ keys
      | guarded_value
      | rewrite Heq; cbn [rbind];
        assert (forall k, In k ks -> PyDict.lookup k r' = None)
          by (intros k Hk; rewrite (Hr k Hk); apply Hinv; exact Hk);
        clear Heq Hr Hinv ]
  end.

Ltac last_block ks keys :=
  match goal with
  | Hinv : forall k, In k ks -> PyDict.lookup k ?r0 = None
    |- exists r, block ?g ?key ?lab ?val ?r0 = Ok r /\ _ =>
      let r' := fresh "r" in
      let Heq := fresh "Heq" in
      let Hr := fresh "Hr" in
      destruct (block_preserves g key lab val r0 ks) as (r' & Heq & Hr);
      [ keys
      | guarded_value
      | exists r'; split; [exact Heq|];
        intros k Hk; rewrite (Hr k Hk); apply Hinv; exact Hk ]
  end.

(** Every division of the calculation is protected by its guard: the
    calculation raises for no extracted value set. *)
Lemma calculate_ratios_total (v : values) : exists r, _calculate_ratios v = Ok r.
Proof.
  cut (exists r, _calculate_ratios v = Ok r /\
                 forall k, In k [] -> PyDict.lookup k r = None).
  { intros (r & Heq & _). exists r. exact Heq. }
  unfold _calculate_ratios.
  assert (Hinv : forall k, In k [] ->
                           PyDict.lookup k (@nil (string * ratio_result)) = None)
    by reflexivity.
  repeat step_block (@nil string) ltac:(intros _ []).
  last_block (@nil string) ltac:(intros _ []).
Qed.

(** C6. With [current_liabilities == 0] the calculation raises nothing and
    its result has no entry for current_ratio, quick_ratio or cash_ratio. *)
Theorem liquidity_ratios_absent (v : values) :
  PyFloat.eq0 (current_liabilities v) = true ->
  exists r,
    _calculate_ratios v = Ok r /\
    PyDict.lookup "current_ratio" r = None /\
    PyDict.lookup "quick_ratio" r = None /\
    PyDict.lookup "cash_ratio" r = None.
Proof.
  intros Hzero. apply eq0_not_gt0 in Hzero.
  cut (exists r, _calculate_ratios v = Ok r /\
                 forall k, In k ["current_ratio"; "quick_ratio"; "cash_ratio"] ->
                           PyDict.lookup k r = None).
  { intros (r & Heq & Hr). exists r. simpl in Hr. auto 10. }
  unfold _calculate_ratios.
  assert (Hinv : forall k, In k ["current_ratio"; "quick_ratio"; "cash_ratio"] ->
                           PyDict.lookup k (@nil (string * ratio_result)) = None)
    by reflexivity.
  repeat step_block ["current_ratio"; "quick_ratio"; "cash_ratio"]
    ltac:(first [ rewrite Hzero; discriminate
                | intros _; simpl; intuition discriminate ]).
  last_block ["current_ratio"; "quick_ratio"; "cash_ratio"]
    ltac:(intros _; simpl; intuition discriminate).
Qed.

Lemma liquidity_ratios_absent_witness :
  exists r,
    _calculate_ratios Examples.no_current_liabilities = Ok r /\
    PyDict.lookup "current_ratio" r = None /\
    PyDict.lookup "quick_ratio" r = None /\
    PyDict.lookup "cash_ratio" r = None.
Proof.
  apply (liquidity_ratios_absent Examples.no_current_liabilities). reflexivity.
Defined.

#[local] Set Warnings "-inexact-float".

(** C5. The end-to-end example: gross_profit_margin is 40.0 and reads
    "40.00%", current_ratio is 2.0, debt_to_equity 0.6, roe 18.0, and
    earnings_per_share is 9.0 and reads "$9.00". *)
Theorem ratio_example :
  exists r,
    _calculate_ratios Examples.example_values = Ok r /\
    PyDict.lookup "gross_profit_margin" r =
      Some {| value := 40; label := "Gross Profit Margin"; formatted := "40.00%" |} /\
    option_map value (PyDict.lookup "current_ratio" r) = Some 2%float /\
    option_map value (PyDict.lookup "debt_to_equity" r) = Some 0.6%float /\
    option_map value (PyDict.lookup "roe" r) = Some 18%float /\
    PyDict.lookup "earnings_per_share" r =
      Some {| value := 9; label := "Earnings Per Share"; formatted := "$9.00" |}.
Proof.
  eexists. split.
  - vm_compute. reflexivity.
  - vm_compute. repeat split; reflexivity.
Qed.

Lemma find_value_none (statement_data : gmap string value_data)
    (keywords : list string) :
  (forall k, In k keywords ->
             forall v, statement_data !! k <> Some (Dict (Val v))) ->
  _find_value_by_keywords statement_data keywords = Ok 0%float.
Proof.
  induction keywords as [|k ks IH]; intros Hnone; simpl.
  - reflexivity.
  - assert (Hk := Hnone k (or_introl eq_refl)).
    destruct (statement_data !! k) as [[[| |v]|]|];
      try (apply IH; intros k' Hk'; apply Hnone; right; exact Hk').
    exfalso. exact (Hk v eq_refl).
Qed.






End Ratios.

(** ** XBRL instance parsing *)

Section Instance.

Import XBRLParser.

Lemma parse_fact_entry (contexts : gmap (option string) context_info)
    (acc facts : facts_dict) (fact : Xml.element) :
  parse_fact contexts acc fact = Ok facts ->
  facts = match Spec.entry_of contexts fact with
          | Some (concept, entry) => PyDict.set concept entry acc
          | None => acc
          end.
Proof.
  unfold parse_fact, Spec.entry_of.
  destruct (PyStr.startswith xbrl_namespace (Xml.tag fact)); [|congruence].
  destruct (Xml.text fact) as [value|]; [|congruence].
  destruct (PyStr.strip_nonempty value); [|congruence].
  destruct (coerce value) as [v|e]; simpl; congruence.
Qed.

(** The element that raises is one that would have been stored. *)
Lemma parse_fact_raises (contexts : gmap (option string) context_info)
    (acc : facts_dict) (fact : Xml.element) (e : exception) :
  parse_fact contexts acc fact = Raise e <->
  PyStr.startswith xbrl_namespace (Xml.tag fact) = true /\
  exists value,
    Xml.text fact = Some value /\ PyStr.strip_nonempty value = true /\
    coerce value = Raise e.
Proof.
  unfold parse_fact.
  destruct (PyStr.startswith xbrl_namespace (Xml.tag fact)).
  - destruct (Xml.text fact) as [value|].
    + destruct (PyStr.strip_nonempty value) eqn:Hs.
      * destruct (coerce value) as [v|e'] eqn:Hc; simpl.
        -- split; [discriminate|]. intros (_ & v' & Heq & _ & Hr).
           injection Heq as <-. congruence.
        -- split.
           ++ intros Heq. injection Heq as ->. split; [reflexivity|].
              exists value. auto.
           ++ intros (_ & v' & Heq & _ & Hr). injection Heq as <-.
              rewrite Hc in Hr. injection Hr as ->. reflexivity.
      * split; [discriminate|]. intros (_ & v' & Heq & Hs' & _).
        injection Heq as <-. congruence.
    + split; [discriminate|]. intros (_ & v' & Heq & _). discriminate.
  - split; [discriminate|]. intros (Hf & _). discriminate.
Qed.

Lemma parse_facts_nodup (contexts : gmap (option string) context_info)
    (found : list Xml.element) (acc facts : facts_dict) :
  List.NoDup (PyDict.keys acc) ->
  parse_facts contexts acc found = Ok facts ->
  List.NoDup (PyDict.keys facts).
Proof.
  revert acc. induction found as [|fact rest IH]; intros acc Hnd; simpl.
  - intros Heq. injection Heq as <-. exact Hnd.
  - destruct (parse_fact contexts acc fact) as [acc'|e] eqn:Hfact; simpl;
      [|discriminate].
    apply parse_fact_entry in Hfact. apply IH. subst acc'.
    destruct (Spec.entry_of contexts fact) as [[concept entry]|];
      [apply keys_set_nodup|]; exact Hnd.
Qed.

Lemma parse_facts_lookup (contexts : gmap (option string) context_info)
    (found : list Xml.element) (acc facts : facts_dict)
    (concept : string) (entry : fact_entry) :
  parse_facts contexts acc found = Ok facts ->
  PyDict.lookup concept facts = Some entry <->
  Spec.last_for contexts concept found entry \/
  (PyDict.lookup concept acc = Some entry /\
   forall fact, In fact found ->
                forall entry', Spec.entry_of contexts fact <> Some (concept, entry')).
Proof.
  revert acc. induction found as [|fact rest IH]; intros acc; simpl.
  - intros Heq. injection Heq as <-. split.
    + intros H. right. split; [exact H | intros ? []].
    + intros [(pre & f & post & Heq & _) | [H _]]; [|exact H].
      destruct pre; discriminate.
  - destruct (parse_fact contexts acc fact) as [acc'|e] eqn:Hfact; simpl;
      [|discriminate].
    apply parse_fact_entry in Hfact. intros Hrest. rewrite (IH _ Hrest).
    split.
    + intros [(pre & f & post & -> & Hf & Hlater) | [Hacc Hnone]].
      * left. exists (fact :: pre), f, post. auto.
      * subst acc'.
        destruct (Spec.entry_of contexts fact) as [[c e]|] eqn:Hentry.
        -- rewrite lookup_set in Hacc.
           destruct (String.eqb_spec concept c) as [->|Hne].
           ++ injection Hacc as <-. left. exists [], fact, rest. auto.
           ++ right. split; [exact Hacc|].
              intros f [<- | Hin] entry'; [congruence | auto].
        -- right. split; [exact Hacc|].
           intros f [<- | Hin] entry'; [congruence | auto].
    + intros [(pre & f & post & Heq & Hf & Hlater) | [Hacc Hnone]].
      * destruct pre as [|f0 pre]; simpl in Heq; injection Heq as <- ->.
        -- right. subst acc'. rewrite Hf, lookup_set, String.eqb_refl. auto.
        -- left. exists pre, f, post. auto.
      * right. split; [|intros f Hin; apply Hnone; right; exact Hin].
        subst acc'.
        destruct (Spec.entry_of contexts fact) as [[c e]|] eqn:Hentry;
          [|exact Hacc].
        rewrite lookup_set. destruct (String.eqb_spec concept c) as [->|Hne];
          [|exact Hacc].
        exfalso. exact (Hnone fact (or_introl eq_refl) e Hentry).
Qed.

(** The loop over the facts keeps no concept name twice, and for each
    concept the entry of the last element that leaves one. *)
Lemma loop_keeps_last_fact (contexts : gmap (option string) context_info)
    (found : list Xml.element) (facts : facts_dict) :
  parse_facts contexts [] found = Ok facts ->
  List.NoDup (PyDict.keys facts) /\
  forall concept entry,
    PyDict.lookup concept facts = Some entry <->
    Spec.last_for contexts concept found entry.
Proof.
  intros Hparse. split.
  - apply (parse_facts_nodup _ _ [] _ (List.NoDup_nil _) Hparse).
  - intros concept entry. rewrite (parse_facts_lookup _ _ _ _ concept entry Hparse).
    split; [intros [H | [H _]]; [exact H | discriminate] | auto].
Qed.

(** The query for the facts is made without a prefix map: it raises for
    every root, before the loop is entered, and the parse ends in its
    handler. *)
Lemma parse_root_empty (root : Xml.document) : parse_root root = None.
Proof. reflexivity. Qed.


(** C10 at its failing input: an instance with three elements of the
    instance namespace, two of them for the concept [measure].  The loop
    over the facts would keep two entries, the one of [measure] from the
    last element; the query that feeds the loop raises for want of the
    prefix map that the query for the contexts is given, and
    [parse_xbrl_instance] returns the empty dictionary: no entry is
    retained for [measure]. *)
Theorem duplicate_concept_is_lost :
  let found := Xml.find_xbrl Examples.two_measures in
  let contexts := parse_contexts (Xml.find_contexts Examples.two_measures) in
  (exists facts,
      parse_facts contexts [] found = Ok facts /\
      length facts = 2 /\
      option_map raw_value (PyDict.lookup "measure" facts) = Some "xbrli:shares" /\
      Spec.last_for contexts "measure" found
        {| value := TextValue "xbrli:shares"; context := None; unit_ref := None;
           decimals := None; raw_value := "xbrli:shares" |}) /\
  Xml.findall (Some namespaces) "xbrl" found = Ok found /\
  Xml.findall None "xbrl" found = Raise SyntaxError /\
  parse_root Examples.two_measures = None /\
  fst (parse_xbrl_instance (Examples.serves Examples.two_measures)
         "https://www.sec.gov/Archives/edgar/data/320193/000032019323000106/0000320193-23-000106.xml"
         [])
  = None.
Proof.
  cbv zeta. split; [|repeat split; reflexivity].
  destruct (parse_facts (parse_contexts (Xml.find_contexts Examples.two_measures)) []
              (Xml.find_xbrl Examples.two_measures)) as [facts|e] eqn:Hparse;
    [|discriminate Hparse].
  exists facts. split; [reflexivity|].
  destruct (loop_keeps_last_fact _ _ _ Hparse) as [_ Hlast].
  assert (Hfor : Spec.last_for
                   (parse_contexts (Xml.find_contexts Examples.two_measures))
                   "measure" (Xml.find_xbrl Examples.two_measures)
                   {| value := TextValue "xbrli:shares"; context := None;
                      unit_ref := None; decimals := None;
                      raw_value := "xbrli:shares" |}).
  { exists [ Examples.xbrl_element "identifier" "0000320193";
             Examples.xbrl_element "measure" "iso4217:USD" ],
           (Examples.xbrl_element "measure" "xbrli:shares"), [].
    split; [reflexivity|]. split; [reflexivity | intros ? []]. }
  split; [|split; [|exact Hfor]].
  - injection Hparse as <-. reflexivity.
  - rewrite (proj2 (Hlast _ _) Hfor). reflexivity.
Qed.

Lemma other_character_remains (value : string) :
  Spec.has_other_character value ->
  PyStr.all_digits (PyStr.remove_char "-" (PyStr.remove_char "." value)) = false.
Proof.
  intros (pre & c & post & -> & Hdigit & Hpoint & Hdash).
  induction pre as [|d pre IH].
  - change ("" ++ String c post) with (String c post). cbn [PyStr.remove_char].
    destruct (Ascii.eqb_spec "." c) as [Heq|_]; [congruence|].
    cbn [PyStr.remove_char].
    destruct (Ascii.eqb_spec "-" c) as [Heq|_]; [congruence|].
    cbn [PyStr.all_digits]. rewrite Hdigit. reflexivity.
  - rewrite append_cons. cbn [PyStr.remove_char].
    destruct (Ascii.eqb "." d); [exact IH|].
    cbn [PyStr.remove_char].
    destruct (Ascii.eqb "-" d); [exact IH|].
    cbn [PyStr.all_digits]. rewrite IH. apply andb_false_r.
Qed.

(** A text with any other character than digits, points and dashes is
    kept as it is. *)
Lemma coerce_keeps_text (value : string) :
  Spec.has_other_character value -> coerce value = Ok (TextValue value).
Proof.
  intros H. unfold coerce, PyStr.isdigit.
  rewrite (other_character_remains value H), andb_false_r. reflexivity.
Qed.

(** The parse of a root is lost exactly when some element of the instance
    namespace with non-blank text has a text that [float] rejects. *)
Lemma parse_facts_raises (contexts : gmap (option string) context_info)
    (found : list Xml.element) (acc : facts_dict) :
  (exists e, parse_facts contexts acc found = Raise e) <->
  Exists (fun fact =>
            PyStr.startswith xbrl_namespace (Xml.tag fact) = true /\
            exists value,
              Xml.text fact = Some value /\ PyStr.strip_nonempty value = true /\
              exists e, coerce value = Raise e)
         found.
Proof.
  revert acc. induction found as [|fact rest IH]; intros acc; simpl.
  - split; [intros [e H]; discriminate | intros H; inversion H].
  - rewrite Exists_cons.
    destruct (parse_fact contexts acc fact) as [acc'|e] eqn:Hfact; simpl.
    + rewrite IH. split; [auto|]. intros [(Hns & value & Ht & Hs & e & Hc) | H];
        [|exact H].
      exfalso.
      assert (Hr : parse_fact contexts acc fact = Raise e)
        by (apply parse_fact_raises; eauto 6).
      congruence.
    + split; [|eauto]. intros _. left.
      apply parse_fact_raises in Hfact.
      destruct Hfact as (Hns & value & Ht & Hs & Hc). eauto 8.
Qed.

(** C9 at its failing inputs.  "1.2.3" and "--5" pass the digit test once
    points and dashes are removed, [float] rejects them, and the handler of
    [parse_xbrl_instance] answers with the empty dictionary: no fact of the
    document is returned.  The date of a context period does the same. *)
Theorem malformed_number_empties_parse :
  coerce "1.2.3" = Raise ValueError /\
  coerce "--5" = Raise ValueError /\
  coerce "2023-09-30" = Raise ValueError /\
  parse_root Examples.dotted_value = None /\
  parse_root Examples.dated_context = None /\
  fst (parse_xbrl_instance (Examples.serves Examples.dotted_value)
         "https://www.sec.gov/Archives/edgar/data/320193/000032019323000106/0000320193-23-000106.xml"
         [])
  = None.
Proof. repeat split; reflexivity. Qed.

End Instance.

(** ** Statement resolution *)

Section Resolver.

Import SECService.

Lemma requests_only_ret {A} (a : A) : Spec.requests_only (Http.ret a).
Proof. intros tr. exists []. rewrite app_nil_r. split; [reflexivity | constructor]. Qed.

Lemma requests_only_get (net : Http.host) (url : string) :
  Spec.requests_only (Http.get net url).
Proof.
  intros tr. exists [Http.Get url]. split; [reflexivity|].
  constructor; [exact I | constructor].
Qed.

Lemma requests_only_bind {A B} (m : Http.M A) (k : A -> Http.M B) :
  Spec.requests_only m -> (forall a, Spec.requests_only (k a)) ->
  Spec.requests_only (Http.bind m k).
Proof.
  intros Hm Hk tr. unfold Http.bind.
  destruct (Hm tr) as (r1 & Heq1 & Hr1). destruct (m tr) as [a tr1].
  simpl in Heq1. subst tr1.
  destruct (Hk a (tr ++ r1)%list) as (r2 & Heq2 & Hr2).
  exists (r1 ++ r2)%list. rewrite Heq2, app_assoc. split; [reflexivity|].
  apply Forall_app. auto.
Qed.

Ltac requests :=
  repeat first
    [ apply requests_only_ret
    | apply requests_only_get
    | assumption
    | apply requests_only_bind; [|intros ?]
    | match goal with
      | |- Spec.requests_only (match ?x with _ => _ end) => destruct x
      end ].

Lemma requests_only_fetch_root (net : Http.host) (url : string) :
  Spec.requests_only (XBRLParser.fetch_root net url).
Proof. unfold XBRLParser.fetch_root. requests. Qed.

Lemma requests_only_xbrl (net : Http.host) (cik accession_number : string) :
  Spec.requests_only (XBRLParser.get_financial_statements_xbrl net cik accession_number).
Proof.
  pose proof (requests_only_fetch_root net) as Hroot.
  unfold XBRLParser.get_financial_statements_xbrl, XBRLParser.get_xbrl_files,
    XBRLParser.parse_xbrl_instance, XBRLParser.parse_xbrl_schema,
    XBRLParser.parse_xbrl_labels.
  requests; apply Hroot.
Qed.

Lemma requests_only_first_document (net : Http.host) (urls : list string) :
  Spec.requests_only (first_document net urls).
Proof. induction urls as [|url rest IH]; simpl; requests. Qed.

Lemma requests_only_tier1 (net : Http.host) (cik report_type period : string) :
  Spec.requests_only (get_financial_statements_xbrl net cik report_type period).
Proof.
  pose proof (requests_only_first_document net) as Hdoc.
  pose proof (requests_only_xbrl net) as Hxbrl.
  unfold get_financial_statements_xbrl, get_company_filings.
  requests; first [apply Hdoc | apply Hxbrl].
Qed.

(** Whatever the XBRL tier returns, if it is not the empty dictionary the
    resolver returns it and does nothing more. *)
Lemma tier1_result_returned (net : Http.host) (depth : nat)
    (cik report_type period : string) (tr : Http.trace)
    (r : XBRLParser.xbrl_result) :
  let tier1 :=
    get_financial_statements_xbrl net cik report_type period
      (tr ++ [Http.Announce Http.Tier1])%list in
  fst tier1 = Some r ->
  get_financial_statements net depth cik report_type period tr
  = (BXbrl r, snd tier1).
Proof.
  intros tier1 Hr.
  unfold get_financial_statements, Http.bind, Http.announce.
  fold tier1. destruct tier1 as [x tr1]. simpl in Hr. subst x. reflexivity.
Qed.



(** Extraction never returns the empty dictionary. *)
Lemma extract_nonempty (net : Http.host) (depth : nat) (d : Schema.data)
    (report_type period : string) (tr : Http.trace) :
  nonempty (fst (_extract_financial_data net depth d report_type period tr)) = true.
Proof.
  destruct depth; simpl;
    repeat match goal with
           | |- context [match ?x with _ => _ end] =>
               lazymatch x with
               | Http.bind _ _ _ => fail
               | _ => destruct x
               end
           end;
    try reflexivity;
    unfold Http.bind;
    match goal with
    | |- context [_get_filing_financial_data ?n ?e ?a ?r ?p ?t] =>
        destruct (_get_filing_financial_data n e a r p t) as [filing_data tr']
    end;
    destruct (nonempty filing_data) eqn:Hne; simpl; auto.
Qed.

(** C8, as stated, fails: company 1 resolves from its company facts,
    company 2 gets nothing from any tier, and the aggregate holds the entry
    of company 1 only. *)
Lemma peer_group_omits_failed_company :
  let result :=
    fst (get_peer_group_analysis Examples.facts_host 1 ["1"; "2"] "10-K" "2023" []) in
  (exists fd,
      PyDict.lookup "1" result = Some (BData fd) /\ fd_income_statement fd <> []) /\
  fst (get_financial_statements_xbrl Examples.facts_host "2" "10-K" "2023" []) = None /\
  fst (get_reported_concepts_from_filing Examples.facts_host "2" "10-K" "2023" [])
  = None /\
  fst (company_facts_fallback Examples.facts_host 1 "10-K" "2023"
         (endpoints (PyStr.zfill 10 "2")) [])
  = BEmpty /\
  PyDict.lookup "2" result = None /\
  PyDict.keys result = ["1"].
Proof.
  vm_compute. split; [|repeat split; reflexivity].
  eexists. split; [reflexivity | discriminate].
Qed.

(** C8, amended.  In a peer-group call over two distinct companies the
    batch returns an aggregate in which the entry of a company is present
    exactly when its own resolution returned a non-empty dictionary,
    whatever its statements hold, and is left out when the resolver returned
    the empty dictionary; the entries present are the dictionaries the
    resolver returned. *)
Theorem peer_group_entries (net : Http.host) (depth : nat)
    (a b report_type period : string) (tr : Http.trace) :
  a <> b ->
  let first := get_financial_statements net depth a report_type period tr in
  let second := get_financial_statements net depth b report_type period (snd first) in
  let result := get_peer_group_analysis net depth [a; b] report_type period tr in
  snd result = snd second /\
  PyDict.lookup a (fst result) =
    (if nonempty (fst first) then Some (fst first) else None) /\
  PyDict.lookup b (fst result) =
    (if nonempty (fst second) then Some (fst second) else None) /\
  PyDict.keys (fst result) =
    ((if nonempty (fst first) then [a] else []) ++
     (if nonempty (fst second) then [b] else []))%list.
Proof.
  intros Hab first second result.
  unfold result, get_peer_group_analysis. cbn [peer_group_loop].
  unfold Http.bind, Http.ret. fold first. destruct first as [ra tr1].
  cbn [fst snd] in *. fold second. destruct second as [rb tr2].
  cbn [fst snd].
  destruct (nonempty ra), (nonempty rb);
    cbn [PyDict.set PyDict.lookup PyDict.keys map fst app];
    repeat match goal with
           | |- context [String.eqb ?x ?y] =>
               destruct (String.eqb_spec x y); try congruence;
               cbn [PyDict.set PyDict.lookup PyDict.keys map fst app]
           end;
    auto.
Qed.

Lemma peer_group_entries_witness :
  PyDict.keys
    (fst (get_peer_group_analysis Examples.facts_host 1 ["1"; "2"] "10-K" "2023" []))
  = ["1"] /\
  PyDict.keys
    (fst (get_peer_group_analysis Examples.facts_host 1 ["2"; "3"] "10-K" "2023" []))
  = ["3"] /\
  exists fd,
    PyDict.lookup "3"
      (fst (get_peer_group_analysis Examples.facts_host 1 ["1"; "3"] "10-K" "2023" []))
    = Some (BData fd) /\
    fd_income_statement fd = [] /\ fd_balance_sheet fd = [] /\ fd_cash_flow fd = [].
Proof.
  split; [|split].
  - rewrite (proj2 (proj2 (proj2
      (peer_group_entries Examples.facts_host 1 "1" "2" "10-K" "2023" []
         ltac:(discriminate))))).
    reflexivity.
  - rewrite (proj2 (proj2 (proj2
      (peer_group_entries Examples.facts_host 1 "2" "3" "10-K" "2023" []
         ltac:(discriminate))))).
    reflexivity.
  - rewrite (proj1 (proj2 (proj2
      (peer_group_entries Examples.facts_host 1 "1" "3" "10-K" "2023" []
         ltac:(discriminate))))).
    vm_compute. eexists. split; [reflexivity|]. repeat split; reflexivity.
Defined.

End Resolver.

(** ** Company search *)

Section CompanySearch.

Import SECService.

Lemma in_firstn {A} (n : nat) (l : list A) (x : A) : In x (firstn n l) -> In x l.
Proof.
  intros H. rewrite <- (List.firstn_skipn n l). apply in_or_app. left. exact H.
Qed.

Lemma search_loop_from (query_lower : string)
    (companies_data : list (string * company_info)) (results : list company) :
  length results < 10 ->
  search_loop query_lower companies_data results
  = firstn 10
      (results ++
       map search_result
           (List.filter (search_hit query_lower) (map snd companies_data)))%list.
Proof.
  revert results. induction companies_data as [|[key info] rest IH];
    intros results Hlen; cbn [search_loop map snd List.filter].
  - rewrite app_nil_r. symmetry. apply List.firstn_all2. lia.
  - destruct (search_hit query_lower info); cbn [map].
    + destruct (Nat.leb_spec 10 (length (results ++ [search_result info])))
        as [Hfull|Hroom].
      * assert (Hsplit : forall tail,
                   (results ++ search_result info :: tail
                    = (results ++ [search_result info]) ++ tail)%list)
          by (intros tail; rewrite <- app_assoc; reflexivity).
        rewrite (Hsplit (map search_result
                           (List.filter (search_hit query_lower) (map snd rest)))),
          List.firstn_app.
        rewrite List.firstn_all2 by (rewrite length_app; simpl; lia).
        replace (10 - length (results ++ [search_result info])) with 0.
        -- rewrite app_nil_r. reflexivity.
        -- rewrite length_app in *. simpl in *. lia.
      * rewrite (IH _ Hroom), <- app_assoc. reflexivity.
    + destruct (Nat.leb_spec 10 (length results)); [lia|]. apply IH. exact Hlen.
Qed.

(** X1. A search returns at most ten companies; each of them has the query,
    lower-cased, in its lower-cased ticker or name; and when the tickers
    file is obtained they are the first ten matches of the file, in file
    order. *)
Theorem search_returns_first_ten_matches (net : Http.host)
    (company_tickers : Http.response -> option (list (string * company_info)))
    (query : string) (tr : Http.trace) :
  let results := fst (search_companies net company_tickers query tr) in
  length results <= 10 /\
  (forall result,
      In result results ->
      Spec.substring (PyStr.lower query) (PyStr.lower (co_ticker result)) \/
      Spec.substring (PyStr.lower query) (PyStr.lower (co_company_name result))) /\
  (forall response companies_data,
      net tr "https://www.sec.gov/files/company_tickers.json" = Some response ->
      Http.status_ok response = true ->
      company_tickers response = Some companies_data ->
      results =
        firstn 10 (map search_result
                       (List.filter (search_hit (PyStr.lower query))
                                    (map snd companies_data)))).
Proof.
  intros results.
  assert (Hshape : results = [] \/
                   exists companies_data : list (string * company_info),
                     results =
                       firstn 10 (map search_result
                                      (List.filter (search_hit (PyStr.lower query))
                                                   (map snd companies_data)))).
  { unfold results, search_companies, Http.bind, Http.get, Http.ret.
    destruct (net tr _) as [response|]; [|left; reflexivity].
    destruct (Http.status_ok response); [|left; reflexivity].
    destruct (company_tickers response) as [companies_data|]; [|left; reflexivity].
    right. exists companies_data. cbn [fst].
    rewrite search_loop_from by (simpl; lia). reflexivity. }
  split; [|split].
  - destruct Hshape as [-> | (companies_data & ->)]; [simpl; lia|].
    rewrite List.length_firstn. lia.
  - intros result Hin.
    destruct Hshape as [Heq | (companies_data & Heq)]; rewrite Heq in Hin;
      [destruct Hin|].
    apply in_firstn in Hin. apply in_map_iff in Hin.
    destruct Hin as (info & <- & Hin). apply filter_In in Hin.
    destruct Hin as [_ Hhit]. unfold search_hit in Hhit.
    apply orb_true_iff in Hhit. rewrite !contains_substring in Hhit. exact Hhit.
  - intros response companies_data Hnet Hstatus Htickers.
    unfold results, search_companies, Http.bind, Http.get, Http.ret.
    rewrite Hnet, Hstatus, Htickers. cbn [fst].
    rewrite search_loop_from by (simpl; lia). reflexivity.
Qed.

Lemma search_returns_first_ten_matches_witness :
  map co_ticker
      (fst (search_companies Examples.plain_host
              (fun _ => Some Examples.tickers_file) "Corp" []))
  = ["MSFT"; "NVDA"; "XOM"; "ORCL"; "CVX"; "INTC"; "COST"; "BAC"; "CVS"; "TGT"].
Proof.
  rewrite (proj2 (proj2 (search_returns_first_ten_matches Examples.plain_host
                            (fun _ => Some Examples.tickers_file) "Corp" []))
             _ Examples.tickers_file eq_refl eq_refl eq_refl).
  reflexivity.
Defined.

End CompanySearch.

(** ** Statements of an XBRL instance *)

Section XbrlCategories.

Import XBRLParser.

Lemma bucket_assign_same (c : category) (concept k : string) (data : fact_entry)
    (d : categorized) :
  PyDict.lookup concept (bucket c (assign c k data d)) =
  if String.eqb concept k then Some data else PyDict.lookup concept (bucket c d).
Proof. destruct c; cbn; apply lookup_set. Qed.

Lemma bucket_assign_other (c c' : category) (k : string) (data : fact_entry)
    (d : categorized) :
  c <> c' -> bucket c (assign c' k data d) = bucket c d.
Proof. destruct c, c'; intros Hne; try reflexivity; congruence. Qed.

Lemma lookup_not_key {V} (k : string) (d : list (string * V)) :
  ~ In k (PyDict.keys d) -> PyDict.lookup k d = None.
Proof.
  unfold PyDict.keys. induction d as [|[k0 v0] d IH]; simpl; intros Hnin.
  - reflexivity.
  - destruct (String.eqb_spec k k0) as [->|Hne]; [tauto | apply IH; tauto].
Qed.

Lemma category_eq_dec (c c' : category) : {c = c'} + {c <> c'}.
Proof. decide equality. Defined.

Lemma categorize_from (facts : facts_dict) (d : categorized) (c : category)
    (concept : string) :
  List.NoDup (PyDict.keys facts) ->
  PyDict.lookup concept
    (bucket c (fold_left
                 (fun d '(concept, data) => assign (category_of concept) concept data d)
                 facts d)) =
  match PyDict.lookup concept facts with
  | Some data =>
      if category_eq_dec (category_of concept) c then Some data
      else PyDict.lookup concept (bucket c d)
  | None => PyDict.lookup concept (bucket c d)
  end.
Proof.
  revert d. induction facts as [|[k v] facts IH]; intros d Hnd.
  - reflexivity.
  - unfold PyDict.keys in Hnd; simpl in Hnd.
    inversion Hnd as [|? ? Hnin Hnd']; subst.
    cbn [fold_left PyDict.lookup]. rewrite (IH _ Hnd').
    destruct (String.eqb_spec concept k) as [->|Hne].
    + rewrite (lookup_not_key k facts Hnin).
      destruct (category_eq_dec (category_of k) c) as [<-|Hc].
      * rewrite bucket_assign_same, String.eqb_refl. reflexivity.
      * rewrite bucket_assign_other by congruence. reflexivity.
    + assert (Hsame : PyDict.lookup concept (bucket c (assign (category_of k) k v d)) =
                      PyDict.lookup concept (bucket c d)).
      { destruct (category_eq_dec c (category_of k)) as [->|Hc].
        - rewrite bucket_assign_same.
          destruct (String.eqb_spec concept k); [congruence | reflexivity].
        - rewrite bucket_assign_other by exact Hc. reflexivity. }
      rewrite Hsame. reflexivity.
Qed.

Lemma categorize_lookup (facts : facts_dict) (c : category)
    (concept : string) (data : fact_entry) :
  List.NoDup (PyDict.keys facts) ->
  (PyDict.lookup concept (bucket c (categorize_financial_data facts)) = Some data <->
   PyDict.lookup concept facts = Some data /\ category_of concept = c).
Proof.
  intros Hnd. unfold categorize_financial_data.
  rewrite (categorize_from facts _ c concept Hnd).
  destruct (PyDict.lookup concept facts) as [data'|].
  - destruct (category_eq_dec (category_of concept) c) as [Hc|Hc].
    + split; [intros H; split; [exact H | exact Hc] | intros [H _]; exact H].
    + destruct c; cbn; split; try discriminate; intros [_ H]; contradiction.
  - destruct c; cbn; split; try discriminate; intros [H _]; discriminate.
Qed.

(** X2. Categorising the facts of an instance files every fact under exactly
    one of the four statements: a concept is found in a bucket, with its
    entry, exactly when the facts hold that entry for it and the bucket is
    the category of the concept's name. *)
Theorem categorize_files_each_fact_once (facts : facts_dict) (c : category)
    (concept : string) (data : fact_entry) :
  List.NoDup (PyDict.keys facts) ->
  (PyDict.lookup concept (bucket c (categorize_financial_data facts)) = Some data <->
   PyDict.lookup concept facts = Some data /\ category_of concept = c).
Proof. apply categorize_lookup. Qed.

(** X3. A concept whose lower-cased name contains [cashandcashequivalents]
    is filed under the cash flow statement only when the name also contains
    [increase] or [decrease]; otherwise it goes to the income statement or
    the balance sheet, so the cash-flow patterns that mention cash and cash
    equivalents never select a concept. *)
Theorem cash_equivalents_are_not_cash_flow (concept : string) :
  Spec.substring "cashandcashequivalents" (PyStr.lower concept) ->
  (category_of concept = cash_flow <->
   Spec.substring "increase" (PyStr.lower concept) \/
   Spec.substring "decrease" (PyStr.lower concept)) /\
  category_of concept <> other.
Proof.
  intros Hsub. apply contains_substring in Hsub.
  unfold category_of, Spec.substring. cbn [PyStr.contains_any existsb].
  rewrite <- !contains_substring.
  destruct (PyStr.contains "increase" (PyStr.lower concept)) eqn:Hi.
  { cbn. split; [split; auto | discriminate]. }
  destruct (PyStr.contains "decrease" (PyStr.lower concept)) eqn:Hd.
  { cbn. split; [split; auto | discriminate]. }
  cbn [orb categories List.find snd].
  match goal with
  | |- context [if ?b then Some (income_statement, ?l) else _] =>
      destruct b
  end.
  { split; [split; [discriminate | intros [H|H]; discriminate] | discriminate]. }
  match goal with
  | |- context [if ?b then Some (balance_sheet, ?l) else _] =>
      assert (Hb : b = true)
  end.
  { apply existsb_exists. exists "CashAndCashEquivalents".
    split; [simpl; tauto | exact Hsub]. }
  rewrite Hb.
  split; [split; [discriminate | intros [H|H]; discriminate] | discriminate].
Qed.

Lemma cash_equivalents_are_not_cash_flow_witness :
  XBRLParser.category_of "CashAndCashEquivalentsAtEndOfPeriod" <> cash_flow /\
  XBRLParser.category_of "CashAndCashEquivalentsAtEndOfPeriod" <> other.
Proof.
  assert (Hsub : Spec.substring "cashandcashequivalents"
                   (PyStr.lower "CashAndCashEquivalentsAtEndOfPeriod"))
    by (exists "", "atendofperiod"; reflexivity).
  destruct (cash_equivalents_are_not_cash_flow _ Hsub) as [Hcash Hother].
  split; [|exact Hother].
  intros Hc. apply Hcash in Hc. revert Hc. unfold Spec.substring.
  rewrite <- !contains_substring. vm_compute. intros [H | H]; discriminate H.
Defined.

Lemma categorize_files_each_fact_once_witness :
  PyDict.lookup "IncreaseDecreaseInInventories"
    (cat_cash_flow (categorize_financial_data Examples.sample_facts))
  = Some (Examples.text_fact "n/a") /\
  PyDict.lookup "IncreaseDecreaseInInventories"
    (cat_other (categorize_financial_data Examples.sample_facts))
  = None.
Proof.
  assert (Hnd : List.NoDup (PyDict.keys Examples.sample_facts)).
  { repeat (constructor; [simpl; intuition discriminate|]). constructor. }
  split.
  - apply (categorize_files_each_fact_once Examples.sample_facts cash_flow
             "IncreaseDecreaseInInventories" _ Hnd).
    split; reflexivity.
  - destruct (PyDict.lookup "IncreaseDecreaseInInventories"
                (cat_other (categorize_financial_data Examples.sample_facts)))
      as [data|] eqn:Hl; [|reflexivity].
    apply (categorize_files_each_fact_once Examples.sample_facts other
             "IncreaseDecreaseInInventories" data Hnd) in Hl.
    destruct Hl as [_ Hc]. discriminate Hc.
Defined.

Lemma set_new_length {V} (k : string) (v : V) (d : list (string * V)) :
  ~ In k (PyDict.keys d) -> length (PyDict.set k v d) = S (length d).
Proof.
  unfold PyDict.keys. induction d as [|[k0 v0] d IH]; simpl; intros Hnin.
  - reflexivity.
  - destruct (String.eqb_spec k k0) as [->|Hne]; [tauto|].
    simpl. rewrite IH; tauto.
Qed.

Lemma bucket_assign_keys (c c' : category) (k k' : string) (data : fact_entry)
    (d : categorized) :
  In k' (PyDict.keys (bucket c (assign c' k data d))) ->
  k' = k \/ In k' (PyDict.keys (bucket c d)).
Proof.
  destruct c, c'; cbn; try tauto; intros H; apply keys_set_in in H; exact H.
Qed.

Lemma categorize_sizes_from (facts : facts_dict) (d : categorized) :
  List.NoDup (PyDict.keys facts) ->
  (forall k c, In k (PyDict.keys facts) -> ~ In k (PyDict.keys (bucket c d))) ->
  let d' := fold_left
              (fun d '(concept, data) => assign (category_of concept) concept data d)
              facts d in
  length (cat_income_statement d') + length (cat_balance_sheet d') +
  length (cat_cash_flow d') + length (cat_other d') =
  length (cat_income_statement d) + length (cat_balance_sheet d) +
  length (cat_cash_flow d) + length (cat_other d) + length facts.
Proof.
  revert d. induction facts as [|[k v] facts IH]; intros d Hnd Hfresh.
  - simpl. lia.
  - unfold PyDict.keys in Hnd; simpl in Hnd.
    inversion Hnd as [|? ? Hnin Hnd']; subst.
    cbn [fold_left]. cbv zeta in IH |- *. rewrite IH; [|exact Hnd'|].
    + assert (Hk : forall c, ~ In k (PyDict.keys (bucket c d)))
        by (intros c; apply Hfresh; left; reflexivity).
      pose proof (Hk income_statement) as H1. pose proof (Hk balance_sheet) as H2.
      pose proof (Hk cash_flow) as H3. pose proof (Hk other) as H4.
      cbn [bucket] in H1, H2, H3, H4.
      destruct (category_of k); cbn [assign cat_income_statement cat_balance_sheet
                                      cat_cash_flow cat_other];
        rewrite set_new_length by assumption; simpl; lia.
    + intros k' c Hin Hin'. apply bucket_assign_keys in Hin'.
      destruct Hin' as [-> | Hin'].
      * exact (Hnin Hin).
      * apply (Hfresh k' c); [right; exact Hin | exact Hin'].
Qed.

(** X4. Categorising loses and repeats no fact: the sizes of the four
    statements add up to the number of facts, the figure that
    [get_financial_statements_xbrl] reports as [total_facts] beside them. *)
Theorem categories_account_for_every_fact (facts : facts_dict) :
  List.NoDup (PyDict.keys facts) ->
  length (cat_income_statement (categorize_financial_data facts)) +
  length (cat_balance_sheet (categorize_financial_data facts)) +
  length (cat_cash_flow (categorize_financial_data facts)) +
  length (cat_other (categorize_financial_data facts))
  = length facts.
Proof.
  intros Hnd.
  pose proof (categorize_sizes_from facts
                {| cat_income_statement := []; cat_balance_sheet := [];
                   cat_cash_flow := []; cat_other := [] |} Hnd) as Hsizes.
  cbv zeta in Hsizes. unfold categorize_financial_data.
  rewrite Hsizes; [reflexivity|]. intros k c _. destruct c; intros [].
Qed.

Lemma categories_account_for_every_fact_witness :
  length (cat_income_statement (categorize_financial_data Examples.sample_facts)) +
  length (cat_balance_sheet (categorize_financial_data Examples.sample_facts)) +
  length (cat_cash_flow (categorize_financial_data Examples.sample_facts)) +
  length (cat_other (categorize_financial_data Examples.sample_facts))
  = 4.
Proof.
  apply (categories_account_for_every_fact Examples.sample_facts).
  repeat (constructor; [simpl; intuition discriminate|]). constructor.
Defined.

End XbrlCategories.

(** ** Resolution beyond the XBRL tier *)

Section FilingTier.

Import Schema SECService.

(** Where a concept is expected, the members of a concept are strings,
    [null] or a units dictionary: none of them is collected, and the first
    one without a [get] ends the loop. *)
Lemma collect_members (report_type period category : string)
    (concepts : list (string * concept_obj)) (reported : list (string * concept)) :
  (forall name obj, In (name, obj) concepts -> forall c, obj <> OConcept c) ->
  collect_category report_type period category concepts reported = Ok reported \/
  exists e, collect_category report_type period category concepts reported = Raise e.
Proof.
  induction concepts as [|[name obj] rest IH]; intros Hobj; simpl.
  - left. reflexivity.
  - destruct obj as [c|u|s|]; simpl.
    + destruct (Hobj name (OConcept c) (or_introl eq_refl) c eq_refl).
    + destruct (PyDict.mem "units" u); simpl; [right; eauto|].
      apply IH. intros n o Hin. apply (Hobj n o). right. exact Hin.
    + right. eauto.
    + right. eauto.
Qed.

Lemma members_no_concept (c : concept) (name : string) (obj : concept_obj) :
  In (name, obj) (members c) -> forall c', obj <> OConcept c'.
Proof.
  unfold members. intros Hin c' ->.
  repeat (apply in_app_or in Hin; destruct Hin as [Hin|Hin]);
    repeat match type of Hin with
           | In _ (match ?x with _ => _ end) => destruct x
           end;
    simpl in Hin; intuition congruence.
Qed.

Lemma collect_reported_concepts (report_type period : string)
    (reported_concepts : list (string * concept)) :
  let f := map (fun '(name, c) => (name, Some (members c))) reported_concepts in
  collect_reported report_type period f [] = Ok [] \/
  exists e, collect_reported report_type period f [] = Raise e.
Proof.
  induction reported_concepts as [|[name c] rest IH]; simpl.
  - left. reflexivity.
  - destruct (collect_members report_type period name (members c) []
                (members_no_concept c)) as [-> | [e ->]]; simpl.
    + exact IH.
    + right. eauto.
Qed.

Lemma extract_reported_concepts (report_type period : string)
    (reported_concepts : list (string * concept)) :
  let f := map (fun '(name, c) => (name, Some (members c))) reported_concepts in
  extract_facts f report_type period = initial_financial_data \/
  extract_facts f report_type period = with_error initial_financial_data.
Proof.
  cbv zeta. unfold extract_facts.
  destruct (collect_reported_concepts report_type period reported_concepts)
    as [-> | [e ->]]; [left | right]; reflexivity.
Qed.

Ltac requests :=
  repeat first
    [ apply requests_only_ret
    | apply requests_only_get
    | assumption
    | apply requests_only_bind; [|intros ?]
    | match goal with
      | |- Spec.requests_only (match ?x with _ => _ end) => destruct x
      | |- Spec.requests_only (if ?x then _ else _) => destruct x
      end ].

Lemma requests_only_tier2 (net : Http.host) (cik report_type period : string) :
  Spec.requests_only (get_reported_concepts_from_filing net cik report_type period).
Proof. unfold get_reported_concepts_from_filing. requests. Qed.

Lemma requests_only_extract (net : Http.host) (depth : nat) (d : data)
    (report_type period : string) :
  Spec.requests_only (_extract_financial_data net depth d report_type period).
Proof.
  revert d. induction depth as [|depth IH]; intros d; simpl;
    unfold _get_filing_financial_data; requests; apply IH.
Qed.

Lemma requests_only_fallback (net : Http.host) (depth : nat)
    (report_type period : string) (urls : list string) :
  Spec.requests_only (company_facts_fallback net depth report_type period urls).
Proof.
  pose proof (requests_only_extract net depth) as Hextract.
  induction urls as [|url rest IH]; simpl; requests; apply Hextract.
Qed.

(** The resolver after an empty answer of the XBRL tier. *)
Lemma resolver_after_tier1 (net : Http.host) (depth : nat)
    (cik report_type period : string) (tr : Http.trace) :
  let tier1 :=
    get_financial_statements_xbrl net cik report_type period
      (tr ++ [Http.Announce Http.Tier1])%list in
  let tier2 :=
    get_reported_concepts_from_filing net cik report_type period
      (snd tier1 ++ [Http.Announce Http.Tier2])%list in
  fst tier1 = None ->
  get_financial_statements net depth cik report_type period tr =
  match fst tier2 with
  | Some ((_ :: _) as reported_concepts, _) =>
      (BData (extract_facts
                (map (fun '(name, c) => (name, Some (members c))) reported_concepts)
                report_type period), snd tier2)
  | _ =>
      company_facts_fallback net depth report_type period
        (endpoints (PyStr.zfill 10 cik)) (snd tier2 ++ [Http.Announce Http.Tier3])%list
  end.
Proof.
  intros tier1 tier2 H1.
  unfold get_financial_statements, Http.bind, Http.announce.
  fold tier1. destruct tier1 as [x tr1]. cbn [fst snd] in *. subst x.
  fold tier2. destruct tier2 as [[[[|first rest] target]|] tr2]; cbn [fst snd];
    try reflexivity.
  destruct depth; reflexivity.
Qed.

(** X5. When the XBRL tier returns the empty dictionary and the filing tier
    finds reported concepts, the resolver hands them to the extraction as
    if they were taxonomies.  The extraction then collects no concept: the
    resolver returns a dictionary whose three statements are empty, with an
    ['error'] member when a member of a concept had no [get], and it does
    not go on to the company-facts tier. *)
Theorem filing_tier_yields_no_statements (net : Http.host) (depth : nat)
    (cik report_type period : string) (tr : Http.trace)
    (reported_concepts : list (string * concept)) (target : target_filing) :
  let tier1 :=
    get_financial_statements_xbrl net cik report_type period
      (tr ++ [Http.Announce Http.Tier1])%list in
  let tier2 :=
    get_reported_concepts_from_filing net cik report_type period
      (snd tier1 ++ [Http.Announce Http.Tier2])%list in
  let run := get_financial_statements net depth cik report_type period tr in
  fst tier1 = None ->
  fst tier2 = Some (reported_concepts, target) ->
  reported_concepts <> [] ->
  (fst run = BData initial_financial_data \/
   fst run = BData (with_error initial_financial_data)) /\
  snd run = snd tier2 /\
  ~ In (Http.Announce Http.Tier3) (skipn (length tr) (snd run)).
Proof.
  intros tier1 tier2 run H1 H2 Hne.
  destruct (requests_only_tier1 net cik report_type period
              (tr ++ [Http.Announce Http.Tier1])%list) as (requests1 & Htr1 & Hreq1).
  destruct (requests_only_tier2 net cik report_type period
              (snd tier1 ++ [Http.Announce Http.Tier2])%list)
    as (requests2 & Htr2 & Hreq2).
  fold tier1 in Htr1. fold tier2 in Htr2.
  assert (Hrun : run = (BData (extract_facts
                                 (map (fun '(name, c) => (name, Some (members c)))
                                      reported_concepts)
                                 report_type period), snd tier2)).
  { unfold run. rewrite (resolver_after_tier1 net depth cik report_type period tr H1).
    fold tier1 tier2. rewrite H2.
    destruct reported_concepts as [|first rest]; [congruence | reflexivity]. }
  rewrite Hrun. cbn [fst snd]. split; [|split; [reflexivity|]].
  - destruct (extract_reported_concepts report_type period reported_concepts)
      as [-> | ->]; auto.
  - rewrite Htr2, Htr1, <- !app_assoc, skipn_app, skipn_all, Nat.sub_diag.
    cbn [skipn app]. intros [Heq | Hin]; [discriminate|].
    apply in_app_or in Hin. destruct Hin as [Hin | [Heq | Hin]]; [|discriminate|].
    + exact (proj1 (List.Forall_forall _ _) Hreq1 _ Hin).
    + exact (proj1 (List.Forall_forall _ _) Hreq2 _ Hin).
Qed.

Lemma filing_tier_yields_no_statements_witness :
  exists reported_concepts target,
    fst (get_reported_concepts_from_filing Examples.submissions_host "320193" "10-K" "2023"
           (snd (get_financial_statements_xbrl Examples.submissions_host "320193" "10-K"
                   "2023" ([] ++ [Http.Announce Http.Tier1])%list)
            ++ [Http.Announce Http.Tier2])%list)
    = Some (reported_concepts, target) /\
    PyDict.keys reported_concepts = ["us-gaap.Revenues"] /\
    fst (get_financial_statements Examples.submissions_host 1 "320193" "10-K" "2023" [])
    = BData (with_error initial_financial_data).
Proof.
  destruct (fst (get_reported_concepts_from_filing Examples.submissions_host "320193"
                   "10-K" "2023"
                   (snd (get_financial_statements_xbrl Examples.submissions_host "320193"
                           "10-K" "2023" ([] ++ [Http.Announce Http.Tier1])%list)
                    ++ [Http.Announce Http.Tier2])%list))
    as [[reported_concepts target]|] eqn:H2; [|vm_compute in H2; discriminate].
  exists reported_concepts, target. split; [reflexivity|].
  assert (Hkeys : PyDict.keys reported_concepts = ["us-gaap.Revenues"])
    by (vm_compute in H2; injection H2 as <- _; reflexivity).
  split; [exact Hkeys|].
  destruct (filing_tier_yields_no_statements Examples.submissions_host 1 "320193"
              "10-K" "2023" [] reported_concepts target eq_refl H2)
    as ([Hrun | Hrun] & _).
  - intros ->. discriminate Hkeys.
  - vm_compute in Hrun. discriminate Hrun.
  - exact Hrun.
Defined.

(** X6. A dictionary of the resolver with a line item in one of its three
    statements comes from the company-facts tier: the result of the XBRL
    tier keeps its statements under ['financial_statements'], and the
    filing tier yields none. *)
Theorem statements_come_from_company_facts (net : Http.host) (depth : nat)
    (cik report_type period : string) (tr : Http.trace) :
  has_statement_data
    (fst (get_financial_statements net depth cik report_type period tr)) = true ->
  Spec.announces Http.Tier3
    (get_financial_statements net depth cik report_type period) tr.
Proof.
  unfold Spec.announces.
  destruct (requests_only_tier1 net cik report_type period
              (tr ++ [Http.Announce Http.Tier1])%list) as (requests1 & Htr1 & Hreq1).
  pose proof (tier1_result_returned net depth cik report_type period tr) as Hfirst.
  pose proof (resolver_after_tier1 net depth cik report_type period tr) as Hsecond.
  cbv zeta in Hfirst, Hsecond.
  destruct (fst (get_financial_statements_xbrl net cik report_type period
                   (tr ++ [Http.Announce Http.Tier1])%list)) as [r|] eqn:H1.
  { rewrite (Hfirst r eq_refl). discriminate. }
  clear Hfirst. rewrite (Hsecond eq_refl). clear Hsecond.
  destruct (requests_only_tier2 net cik report_type period
              (snd (get_financial_statements_xbrl net cik report_type period
                      (tr ++ [Http.Announce Http.Tier1])%list)
               ++ [Http.Announce Http.Tier2])%list) as (requests2 & Htr2 & Hreq2).
  assert (Hthird :
    exists events,
      snd (company_facts_fallback net depth report_type period
             (endpoints (PyStr.zfill 10 cik))
             (snd (get_reported_concepts_from_filing net cik report_type period
                     (snd (get_financial_statements_xbrl net cik report_type period
                             (tr ++ [Http.Announce Http.Tier1])%list)
                      ++ [Http.Announce Http.Tier2])%list)
              ++ [Http.Announce Http.Tier3])%list)
      = (tr ++ events)%list /\ In (Http.Announce Http.Tier3) events).
  { destruct (requests_only_fallback net depth report_type period
                (endpoints (PyStr.zfill 10 cik))
                (snd (get_reported_concepts_from_filing net cik report_type period
                        (snd (get_financial_statements_xbrl net cik report_type period
                                (tr ++ [Http.Announce Http.Tier1])%list)
                         ++ [Http.Announce Http.Tier2])%list)
                 ++ [Http.Announce Http.Tier3])%list) as (requests3 & Htr3 & _).
    rewrite Htr3, Htr2, Htr1. 
    exists ([Http.Announce Http.Tier1] ++ requests1 ++ [Http.Announce Http.Tier2]
            ++ requests2 ++ [Http.Announce Http.Tier3] ++ requests3)%list.
    split; [rewrite <- !app_assoc; reflexivity|].
    rewrite !in_app_iff. simpl. tauto. }
  destruct (fst (get_reported_concepts_from_filing net cik report_type period
                   (snd (get_financial_statements_xbrl net cik report_type period
                           (tr ++ [Http.Announce Http.Tier1])%list)
                    ++ [Http.Announce Http.Tier2])%list))
    as [[[|first rest] target]|]; intros Hdata; try exact Hthird.
  exfalso. cbn [fst] in Hdata.
  destruct (extract_reported_concepts report_type period (first :: rest))
    as [Heq | Heq]; cbv zeta in Heq; rewrite Heq in Hdata; discriminate.
Qed.


Lemma statements_come_from_company_facts_witness :
  Spec.announces Http.Tier3
    (get_financial_statements Examples.facts_host 1 "1" "10-K" "2023") [].
Proof.
  apply (statements_come_from_company_facts Examples.facts_host 1 "1" "10-K" "2023" []).
  reflexivity.
Defined.

Lemma lookup_some_key {V} (k : string) (v : V) (d : list (string * V)) :
  PyDict.lookup k d = Some v -> In k (PyDict.keys d).
Proof.
  unfold PyDict.keys. induction d as [|[k0 v0] d IH]; simpl; [discriminate|].
  destruct (String.eqb_spec k k0) as [->|Hne]; auto.
Qed.

(** The loop over the periods keeps a year only with statement data, under
    a period it was asked for. *)
Lemma years_loop_keeps (net : Http.host) (depth : nat) (cik report_type : string)
    (periods : list string) (historical_data : list (string * bundle))
    (available_periods seen : list string) (tr : Http.trace) :
  (forall year year_data,
      PyDict.lookup year historical_data = Some year_data ->
      In year seen /\ has_statement_data year_data = true) ->
  (forall year, In year available_periods <-> In year (PyDict.keys historical_data)) ->
  let result :=
    fst (years_loop net depth cik report_type periods historical_data
           available_periods tr) in
  (forall year year_data,
      PyDict.lookup year (fst result) = Some year_data ->
      In year (seen ++ periods)%list /\ has_statement_data year_data = true) /\
  (forall year, In year (snd result) <-> In year (PyDict.keys (fst result))).
Proof.
  revert historical_data available_periods seen tr.
  induction periods as [|period rest IH];
    intros historical_data available_periods seen tr Hkept Hyears; cbn [years_loop].
  - cbn. rewrite app_nil_r. auto.
  - unfold Http.bind.
    destruct (get_financial_statements net depth cik report_type period tr)
      as [year_data tr1].
    destruct (has_statement_data year_data) eqn:Hdata.
    + specialize (IH (PyDict.set period year_data historical_data)
                     (available_periods ++ [period])%list (seen ++ [period])%list tr1).
      cbv zeta in IH |- *. rewrite <- app_assoc in IH. apply IH.
      * intros year d. rewrite lookup_set.
        destruct (String.eqb_spec year period) as [->|Hne].
        -- intros Heq. injection Heq as <-. rewrite in_app_iff. simpl. auto.
        -- intros Hl. destruct (Hkept year d Hl). rewrite in_app_iff. auto.
      * intros year. rewrite keys_set_in, in_app_iff, Hyears. simpl. intuition.
    + specialize (IH historical_data available_periods (seen ++ [period])%list tr1).
      cbv zeta in IH |- *. rewrite <- app_assoc in IH. apply IH.
      * intros year d Hl. destruct (Hkept year d Hl). rewrite in_app_iff. auto.
      * exact Hyears.
Qed.

(** X7. When the multi-year collection returns a summary, it holds at least
    one year; every year it holds is one of the periods asked for and
    carries a dictionary with a line item in one of its three statements
    (so never a result of the XBRL tier); and the available years are the
    years it holds. *)
Theorem multiple_years_keep_statement_data (net : Http.host) (depth : nat)
    (cik report_type : string) (periods : list string) (tr : Http.trace)
    (summary : trend_summary) :
  fst (get_financial_statements_multiple_years net depth cik report_type periods tr)
  = Some summary ->
  historical_data summary <> [] /\
  (forall year year_data,
      PyDict.lookup year (historical_data summary) = Some year_data ->
      In year periods /\
      has_statement_data year_data = true /\
      exists fd, year_data = BData fd) /\
  (forall year,
      In year (available_years summary) <->
      In year (PyDict.keys (historical_data summary))) /\
  trend_analysis summary = _prepare_trend_analysis (historical_data summary).
Proof.
  unfold get_financial_statements_multiple_years, Http.bind.
  pose proof (years_loop_keeps net depth cik report_type periods [] [] [] tr) as Hloop.
  cbv zeta in Hloop.
  destruct (years_loop net depth cik report_type periods [] [] tr)
    as [[kept available] tr1].
  cbn [fst snd] in Hloop.
  destruct Hloop as [Hkept Hyears]; [discriminate | reflexivity |].
  destruct kept as [|entry kept]; [discriminate|].
  intros Heq. injection Heq as <-.
  cbn [SECService.historical_data available_years trend_analysis].
  split; [discriminate|]. split; [|split; [exact Hyears | reflexivity]].
  intros year year_data Hl. destruct (Hkept year year_data Hl) as [Hin Hdata].
  split; [exact Hin|]. split; [exact Hdata|].
  destruct year_data as [|r|fd|latest]; try discriminate. eauto.
Qed.

Lemma multiple_years_keep_statement_data_witness :
  exists summary,
    fst (get_financial_statements_multiple_years Examples.facts_host 1 "1" "10-K"
           ["2022"; "2023"] [])
    = Some summary /\
    historical_data summary <> [] /\
    available_years summary = ["2023"].
Proof.
  destruct (fst (get_financial_statements_multiple_years Examples.facts_host 1 "1"
                   "10-K" ["2022"; "2023"] [])) as [summary|] eqn:Hrun;
    [|vm_compute in Hrun; discriminate].
  exists summary. split; [reflexivity|].
  destruct (multiple_years_keep_statement_data _ _ _ _ _ _ summary Hrun)
    as (Hne & _).
  split; [exact Hne|].
  vm_compute in Hrun. injection Hrun as <-. reflexivity.
Defined.

End FilingTier.

(** ** The XBRL tier *)

Section XbrlTier.

Import Schema SECService.



End XbrlTier.

Section Trends.

Import Schema SECService.

(** The point of a concept for a year in a trend table. *)
Lemma add_point_cell (concept_name year : string) (point : trend_point)
    (table : trends) (c y : string) :
  match PyDict.lookup c (add_point concept_name year point table) with
  | Some row => PyDict.lookup y row
  | None => None
  end =
  if String.eqb c concept_name && String.eqb y year then Some point
  else match PyDict.lookup c table with
       | Some row => PyDict.lookup y row
       | None => None
       end.
Proof.
  unfold add_point. rewrite lookup_set.
  destruct (String.eqb_spec c concept_name) as [->|Hne]; [|reflexivity].
  rewrite lookup_set. cbn [andb].
  destruct (String.eqb y year); [reflexivity|].
  destruct (PyDict.lookup concept_name table); reflexivity.
Qed.

Lemma statement_points (year : string) (items : statement) (table : trends)
    (c y : string) :
  List.NoDup (PyDict.keys items) ->
  match PyDict.lookup c
          (fold_left
             (fun table '(concept_name, concept_data) =>
                add_point concept_name year
                  {| tp_value := li_value concept_data;
                     tp_unit := li_unit concept_data;
                     tp_label := li_label concept_data |}
                  table)
             items table) with
  | Some row => PyDict.lookup y row
  | None => None
  end =
  match (if String.eqb y year then PyDict.lookup c items else None) with
  | Some item => Some (Spec.point_of item)
  | None => match PyDict.lookup c table with
            | Some row => PyDict.lookup y row
            | None => None
            end
  end.
Proof.
  revert table. induction items as [|[k item] items IH]; intros table Hnd.
  - cbn. destruct (String.eqb y year); reflexivity.
  - unfold PyDict.keys in Hnd; simpl in Hnd.
    inversion Hnd as [|? ? Hnin Hnd']; subst.
    cbn [fold_left PyDict.lookup]. rewrite (IH _ Hnd'), add_point_cell.
    destruct (String.eqb y year) eqn:Hy; cbn [andb].
    + destruct (String.eqb_spec c k) as [->|Hne].
      * rewrite (lookup_not_key k items Hnin). reflexivity.
      * reflexivity.
    + rewrite andb_false_r. reflexivity.
Qed.

Lemma history_points (t : statement_type) (history : list (string * bundle))
    (table : trends) (c y : string) :
  List.NoDup (PyDict.keys history) ->
  (forall year fd, In (year, BData fd) history ->
                   List.NoDup (PyDict.keys (fd_statement t fd))) ->
  match PyDict.lookup c
          (fold_left
             (fun table '(year, year_data) =>
                match year_data with
                | BData fd =>
                    fold_left
                      (fun table '(concept_name, concept_data) =>
                         add_point concept_name year
                           {| tp_value := li_value concept_data;
                              tp_unit := li_unit concept_data;
                              tp_label := li_label concept_data |}
                           table)
                      (fd_statement t fd) table
                | _ => table
                end)
             history table) with
  | Some row => PyDict.lookup y row
  | None => None
  end =
  match (match PyDict.lookup y history with
         | Some (BData fd) => PyDict.lookup c (fd_statement t fd)
         | _ => None
         end) with
  | Some item => Some (Spec.point_of item)
  | None => match PyDict.lookup c table with
            | Some row => PyDict.lookup y row
            | None => None
            end
  end.
Proof.
  revert table. induction history as [|[year year_data] history IH];
    intros table Hnd Hitems.
  - reflexivity.
  - unfold PyDict.keys in Hnd; simpl in Hnd.
    inversion Hnd as [|? ? Hnin Hnd']; subst.
    cbn [fold_left PyDict.lookup].
    rewrite (IH _ Hnd') by (intros y0 fd Hin; apply (Hitems y0 fd); right; exact Hin).
    destruct (String.eqb_spec y year) as [->|Hne].
    + rewrite (lookup_not_key year history Hnin).
      destruct year_data as [|r|fd|latest]; try reflexivity.
      rewrite statement_points by (apply (Hitems year fd); left; reflexivity).
      rewrite String.eqb_refl. reflexivity.
    + destruct (match PyDict.lookup y history with
                | Some (BData fd) => PyDict.lookup c (fd_statement t fd)
                | _ => None
                end) as [item|]; [reflexivity|].
      destruct year_data as [|r|fd|latest]; try reflexivity.
      rewrite statement_points by (apply (Hitems year fd); left; reflexivity).
      destruct (String.eqb_spec y year); [congruence | reflexivity].
Qed.

(** X8. In the trend tables, the point of a concept for a year is the
    value, unit and label of the line item the statement of that year holds
    for the concept, and there is a point exactly when there is such a line
    item. *)
Theorem trend_points_are_line_items (history : list (string * bundle))
    (t : statement_type) (concept_name year : string) (point : trend_point) :
  List.NoDup (PyDict.keys history) ->
  (forall year fd, In (year, BData fd) history ->
                   List.NoDup (PyDict.keys (fd_statement t fd))) ->
  (exists row,
      PyDict.lookup concept_name (Spec.trends_of t (_prepare_trend_analysis history))
      = Some row /\
      PyDict.lookup year row = Some point) <->
  (exists fd item,
      PyDict.lookup year history = Some (BData fd) /\
      PyDict.lookup concept_name (fd_statement t fd) = Some item /\
      point = Spec.point_of item).
Proof.
  intros Hnd Hitems.
  assert (Htable : Spec.trends_of t (_prepare_trend_analysis history) =
                   statement_trends t history) by (destruct t; reflexivity).
  rewrite Htable. clear Htable.
  pose proof (history_points t history [] concept_name year Hnd Hitems) as Hcell.
  fold (statement_trends t history) in Hcell. cbn [PyDict.lookup] in Hcell.
  split.
  - intros (row & Hrow & Hpoint). rewrite Hrow, Hpoint in Hcell.
    destruct (PyDict.lookup year history) as [[|r|fd|latest]|]; try discriminate.
    destruct (PyDict.lookup concept_name (fd_statement t fd)) as [item|] eqn:Hitem;
      [|discriminate].
    exists fd, item. split; [reflexivity|]. split; [exact Hitem | congruence].
  - intros (fd & item & Hyear & Hitem & ->). rewrite Hyear, Hitem in Hcell.
    destruct (PyDict.lookup concept_name (statement_trends t history)) as [row|];
      [|discriminate].
    exists row. auto.
Qed.

Lemma trend_points_are_line_items_witness :
  exists row,
    PyDict.lookup "us-gaap.Revenues"
      (Spec.trends_of income_statement (_prepare_trend_analysis Examples.two_years))
    = Some row /\
    PyDict.lookup "2023" row
    = Some {| tp_value := Some (PInt 383285000000); tp_unit := "USD";
              tp_label := Some "Revenues" |}.
Proof.
  apply (proj2 (trend_points_are_line_items Examples.two_years income_statement
                  "us-gaap.Revenues" "2023" _
                  ltac:(repeat (constructor; [simpl; intuition discriminate|]);
                        constructor)
                  ltac:(intros year fd [H | [H | []]]; injection H as _ <-;
                        repeat (constructor; [simpl; intuition discriminate|]);
                        constructor))).
  eexists. eexists. split; [reflexivity|]. split; reflexivity.
Defined.

End Trends.

(** ** Ratios of a company and of a peer group *)

Section RatioService.

Import FinancialRatioCalculator.

Lemma quality_by_count (n : nat) :
  n <= 18 ->
  exists share,
    PyFloat.int_div (Z.of_nat n) 18 = Ok share /\
    PrimFloat.ltb 0.5 share = (10 <=? n)%nat.
Proof.
  intros Hn.
  do 19 (destruct n as [|n]; [eexists; split; vm_compute; reflexivity|]).
  lia.
Qed.

Lemma filter_length_le {A} (f : A -> bool) (l : list A) :
  length (List.filter f l) <= length l.
Proof. induction l as [|x l IH]; simpl; [|destruct (f x); simpl]; lia. Qed.

Lemma data_quality_never_raises (v : values) :
  exists quality, _assess_data_quality v = Ok quality.
Proof.
  unfold _assess_data_quality.
  pose proof (filter_length_le PyFloat.gt0 (values_list v)) as Hle.
  change (length (values_list v)) with 18 in *.
  destruct (quality_by_count _ Hle) as (share & Hshare & _).
  change (Z.of_nat 18) with 18%Z. rewrite Hshare. cbn [rbind]. eauto.
Qed.

(** X9. The data-quality assessment never raises; it counts the extracted
    values above zero among the eighteen, and scores "Good" exactly when at
    least ten of them are above zero: nine of eighteen are not more than
    half. *)
Theorem data_quality_threshold (v : values) :
  exists quality,
    _assess_data_quality v = Ok quality /\
    total_values quality = 18 /\
    non_zero_values quality = length (List.filter PyFloat.gt0 (values_list v)) /\
    non_zero_values quality <= 18 /\
    quality_score quality = if (10 <=? non_zero_values quality)%nat then "Good" else "Poor".
Proof.
  unfold _assess_data_quality.
  pose proof (filter_length_le PyFloat.gt0 (values_list v)) as Hle.
  change (length (values_list v)) with 18 in *.
  destruct (quality_by_count _ Hle) as (share & Hshare & Hscore).
  change (Z.of_nat 18) with 18%Z. rewrite Hshare. cbn [rbind].
  eexists. split; [reflexivity|]. cbn [total_values non_zero_values quality_score].
  rewrite Hscore. auto.
Qed.

Lemma find_value_raises (statement_data : gmap string value_data)
    (keywords : list string) (e : exception) :
  _find_value_by_keywords statement_data keywords = Raise e -> e = OverflowError.
Proof.
  induction keywords as [|k ks IH]; simpl; [discriminate|].
  destruct (statement_data !! k) as [[[| |[z|f]]|]|]; try exact IH.
  - unfold PyFloat.of_num, PyFloat.of_int.
    destruct (is_infinity (PyFloat.nearest_int z)); congruence.
  - discriminate.
Qed.

Lemma extract_key_values_raises
    (income_statement balance_sheet cash_flow : gmap string value_data)
    (e : exception) :
  _extract_key_values income_statement balance_sheet cash_flow = Raise e ->
  e = OverflowError.
Proof.
  unfold _extract_key_values.
  repeat match goal with
         | |- rbind ?m _ = Raise _ -> _ =>
             let H := fresh "H" in
             destruct m eqn:H; cbn [rbind];
             [|intros Heq; injection Heq as <-; exact (find_value_raises _ _ _ H)]
         end.
  discriminate.
Qed.

Lemma block_length (guard : bool) (key label : string) (value : result float)
    (r r' : ratios) :
  block guard key label value r = Ok r' -> length r' <= S (length r).
Proof.
  unfold block. destruct guard.
  - destruct value as [x|e]; cbn [rbind]; [|discriminate].
    intros Heq. injection Heq as <-. clear.
    induction r as [|[k0 v0] r IH]; simpl; [lia|].
    destruct (String.eqb key k0); simpl; lia.
  - intros Heq. injection Heq as <-. lia.
Qed.

Lemma calculate_ratios_length (v : values) (r : ratios) :
  _calculate_ratios v = Ok r -> length r <= 23.
Proof.
  unfold _calculate_ratios. cbv zeta. intros H.
  repeat match type of H with
         | rbind (block ?g ?k ?l ?val ?r0) _ = Ok _ =>
             let r' := fresh "r" in
             let Hb := fresh "Hb" in
             destruct (block g k l val r0) as [r'|e] eqn:Hb;
             [cbn [rbind] in H; apply block_length in Hb | discriminate]
         end.
  apply block_length in H. simpl in *. lia.
Qed.

(** X10. Calculating the ratios of one company fails exactly when the
    extraction of a key value raises, which only the conversion of an
    integer too large for a float does; neither the ratios nor the quality
    assessment raise.  Otherwise the result holds the extracted values,
    their ratios, the number of ratios, which is at most 23, and the
    assessment of the extracted values. *)
Theorem single_company_result (financial_data : statements) :
  let get (member : option (gmap string value_data)) :=
    match member with Some d => d | None => ∅ end in
  let extracted :=
    _extract_key_values (get (st_income_statement financial_data))
                        (get (st_balance_sheet financial_data))
                        (get (st_cash_flow financial_data)) in
  match calculate_single_company_ratios financial_data with
  | Failed e => extracted = Raise e /\ e = OverflowError
  | Calculated calculated_ratios raw_values total_ratios_calculated quality =>
      extracted = Ok raw_values /\
      _calculate_ratios raw_values = Ok calculated_ratios /\
      total_ratios_calculated = length calculated_ratios /\
      total_ratios_calculated <= 23 /\
      _assess_data_quality raw_values = Ok quality
  end.
Proof.
  intros get extracted. subst extracted get.
  unfold calculate_single_company_ratios. cbv beta zeta.
  destruct (_extract_key_values _ _ _) as [raw|e] eqn:Hextract; cbn [rbind].
  - destruct (calculate_ratios_total raw) as [r Hr].
    destruct (data_quality_never_raises raw) as [q Hq].
    rewrite Hr, Hq. cbn [rbind].
    split; [reflexivity|]. split; [exact Hr|]. split; [reflexivity|].
    split; [exact (calculate_ratios_length raw r Hr) | exact Hq].
  - split; [reflexivity|]. exact (extract_key_values_raises _ _ _ e Hextract).
Qed.

Lemma without_values_get
    (member : option (gmap string value_data)) (k : string) (v : pynum) :
  Spec.without_values member ->
  match member with Some d => d | None => ∅ end !! k <> Some (Dict (Val v)).
Proof.
  intros Hnone. destruct member as [d|].
  - exact (Hnone d k v eq_refl).
  - rewrite lookup_empty. discriminate.
Qed.

Lemma no_values_result (financial_data : statements) :
  Spec.without_values (st_income_statement financial_data) ->
  Spec.without_values (st_balance_sheet financial_data) ->
  Spec.without_values (st_cash_flow financial_data) ->
  calculate_single_company_ratios financial_data =
  Calculated [] Spec.no_values 0
    {| completeness := 0; non_zero_values := 0; total_values := 18;
       quality_score := "Poor" |}.
Proof.
  intros Hincome Hbalance Hflow.
  unfold calculate_single_company_ratios, _extract_key_values. cbv beta zeta.
  repeat (rewrite find_value_none
            by (intros k _ v; apply without_values_get; assumption);
          cbn [rbind]).
  vm_compute. reflexivity.
Qed.

(** X11. When no key of the three statements holds a dictionary with a
    non-null ['value'], every extracted value is 0.0: no ratio is calculated,
    and the data quality is "Poor" with a completeness of 0.0. *)
Theorem no_values_no_ratios (financial_data : statements) :
  Spec.without_values (st_income_statement financial_data) ->
  Spec.without_values (st_balance_sheet financial_data) ->
  Spec.without_values (st_cash_flow financial_data) ->
  calculate_single_company_ratios financial_data =
  Calculated [] Spec.no_values 0
    {| completeness := 0; non_zero_values := 0; total_values := 18;
       quality_score := "Poor" |}.
Proof. apply no_values_result. Qed.

Lemma no_values_no_ratios_witness :
  calculate_single_company_ratios Examples.valueless =
  Calculated [] Spec.no_values 0
    {| completeness := 0; non_zero_values := 0; total_values := 18;
       quality_score := "Poor" |}.
Proof.
  apply (no_values_no_ratios Examples.valueless).
  - intros d k v Heq. injection Heq as <-.
    destruct (String.eqb_spec k "us-gaap.Revenues") as [->|Hr];
      [vm_compute; discriminate|].
    destruct (String.eqb_spec k "us-gaap.GrossProfit") as [->|Hg];
      [vm_compute; discriminate|].
    unfold Examples.valueless. cbn [st_income_statement].
    rewrite lookup_insert_ne by congruence.
    rewrite lookup_singleton_ne by congruence. discriminate.
  - intros d k v Heq. injection Heq as <-. rewrite lookup_empty. discriminate.
  - intros d k v Heq. discriminate Heq.
Defined.

(** X12. Handed to the calculator as they are, the dictionary of the XBRL
    tier, the dictionary that holds only a matching filing, and the
    dictionary the filing tier leads to have no value the calculator reads:
    their result has no ratio. *)
Theorem other_tiers_give_no_ratios :
  (forall r, calculate_single_company_ratios (of_bundle (SECService.BXbrl r)) =
             Calculated [] Spec.no_values 0
               {| completeness := 0; non_zero_values := 0; total_values := 18;
                  quality_score := "Poor" |}) /\
  (forall latest_filing,
      calculate_single_company_ratios (of_bundle (SECService.BMatching latest_filing)) =
      Calculated [] Spec.no_values 0
        {| completeness := 0; non_zero_values := 0; total_values := 18;
           quality_score := "Poor" |}) /\
  (forall fd,
      SECService.has_statement_data (SECService.BData fd) = false ->
      calculate_single_company_ratios (of_bundle (SECService.BData fd)) =
      Calculated [] Spec.no_values 0
        {| completeness := 0; non_zero_values := 0; total_values := 18;
           quality_score := "Poor" |}).
Proof.
  split; [|split].
  - intros r. apply no_values_result; intros d k v Heq; discriminate Heq.
  - intros latest. apply no_values_result; intros d k v Heq; discriminate Heq.
  - intros fd Hdata. cbn in Hdata.
    destruct (SECService.fd_income_statement fd) eqn:H1; [|discriminate].
    destruct (SECService.fd_balance_sheet fd) eqn:H2; [|discriminate].
    destruct (SECService.fd_cash_flow fd) eqn:H3; [|discriminate].
    apply no_values_result; cbn [of_bundle st_income_statement st_balance_sheet
                                  st_cash_flow];
      rewrite ?H1, ?H2, ?H3; intros d k v Heq; injection Heq as <-;
      cbn; rewrite lookup_empty; discriminate.
Qed.

Lemma set_new_keys {V} (k : string) (v : V) (d : list (string * V)) :
  ~ In k (PyDict.keys d) -> PyDict.keys (PyDict.set k v d) = (PyDict.keys d ++ [k])%list.
Proof.
  unfold PyDict.keys. induction d as [|[k0 v0] d IH]; simpl; intros Hnin.
  - reflexivity.
  - destruct (String.eqb_spec k k0) as [->|Hne]; [tauto|].
    simpl. rewrite IH; tauto.
Qed.

(** The entry [calculate_peer_group_ratios] stores for a company. *)
Lemma peer_ratios_keys (peer_group_data : list (string * company_data))
    (acc : list (string * peer_entry)) :
  let result :=
    fold_left
      (fun peer_ratios '(ticker, company_data) =>
         let company_name := jget_default (cd_company_name company_data) ticker in
         match cd_periods company_data with
         | Some periods =>
             let period_ratios :=
               fold_left
                 (fun period_ratios '(period, period_data) =>
                    PyDict.set period (calculate_single_company_ratios period_data)
                               period_ratios)
                 periods [] in
             PyDict.set ticker (WithPeriods company_name period_ratios) peer_ratios
         | None =>
             PyDict.set ticker
               (WithRatios company_name
                  (calculate_single_company_ratios (cd_statements company_data)))
               peer_ratios
         end)
      peer_group_data acc in
  (forall ticker,
      In ticker (PyDict.keys result) <->
      In ticker (PyDict.keys acc) \/ In ticker (PyDict.keys peer_group_data)) /\
  (List.NoDup (PyDict.keys acc ++ PyDict.keys peer_group_data) ->
   PyDict.keys result = (PyDict.keys acc ++ PyDict.keys peer_group_data)%list).
Proof.
  revert acc. induction peer_group_data as [|[ticker cd] rest IH]; intros acc.
  - cbn. rewrite app_nil_r. split; [tauto | reflexivity].
  - cbn [fold_left]. cbv zeta in IH |- *.
    match goal with
    | |- context [fold_left ?f rest ?a] =>
        assert (Hkeys : forall k, In k (PyDict.keys a) <->
                                  k = ticker \/ In k (PyDict.keys acc))
          by (intros k; destruct (cd_periods cd); apply keys_set_in);
        assert (Hnew : ~ In ticker (PyDict.keys acc) ->
                       PyDict.keys a = (PyDict.keys acc ++ [ticker])%list)
          by (intros Hnin; destruct (cd_periods cd); apply set_new_keys; exact Hnin);
        destruct (IH a) as [IHin IHkeys]
    end.
    split.
    + intros k. rewrite IHin, Hkeys. unfold PyDict.keys. simpl. intuition congruence.
    + intros Hnd. unfold PyDict.keys at 2 in Hnd. simpl in Hnd.
      assert (Hnin : ~ In ticker (PyDict.keys acc)).
      { apply NoDup_remove_2 in Hnd. rewrite in_app_iff in Hnd. tauto. }
      rewrite IHkeys; rewrite (Hnew Hnin), <- app_assoc.
      * reflexivity.
      * exact Hnd.
Qed.

(** X13. The peer-group calculation stores an entry for every company it is
    given, in the order given, and its summary counts every one of them as a
    company with data: an error of a calculation lies inside the entry, not
    among its keys. *)
Theorem peer_summary_counts_every_company
    (peer_group_data : list (string * company_data)) :
  List.NoDup (PyDict.keys peer_group_data) ->
  let result := calculate_peer_group_ratios peer_group_data in
  PyDict.keys (peer_ratios result) = PyDict.keys peer_group_data /\
  total_companies result = length peer_group_data /\
  companies_with_data result = total_companies result.
Proof.
  intros Hnd result.
  destruct (peer_ratios_keys peer_group_data []) as [_ Hkeys].
  cbv zeta in Hkeys. specialize (Hkeys Hnd). cbn [app PyDict.keys map] in Hkeys.
  assert (Hlen : total_companies result = length peer_group_data).
  { unfold result, calculate_peer_group_ratios. cbn [total_companies].
    rewrite <- (length_map fst), <- (length_map fst peer_group_data).
    unfold PyDict.keys in Hkeys. rewrite Hkeys. reflexivity. }
  split; [exact Hkeys|]. split; [exact Hlen|].
  unfold result, calculate_peer_group_ratios.
  cbn [companies_with_data total_companies].
  rewrite forallb_filter_id
    by (apply forallb_forall; intros c _; destruct c; reflexivity).
  apply length_map.
Qed.

Lemma peer_summary_counts_every_company_witness :
  let result := calculate_peer_group_ratios Examples.sample_peer_group in
  companies_with_data result = 2 /\
  PyDict.lookup "MSFT" (peer_ratios result)
  = Some (WithRatios (Some "MSFT") (Failed OverflowError)).
Proof.
  assert (Hnd : List.NoDup (PyDict.keys Examples.sample_peer_group)).
  { repeat (constructor; [simpl; intuition discriminate|]). constructor. }
  destruct (peer_summary_counts_every_company Examples.sample_peer_group Hnd)
    as (_ & Htotal & Hdata).
  cbv zeta. rewrite Hdata, Htotal. split; [reflexivity|].
  vm_compute. reflexivity.
Defined.

End RatioService.

(** ** Extraction from company facts *)

Section Extraction.

Import Schema SECService.

Lemma lookup_in {V} (k : string) (v : V) (d : list (string * V)) :
  List.NoDup (PyDict.keys d) -> (PyDict.lookup k d = Some v <-> In (k, v) d).
Proof.
  unfold PyDict.keys. induction d as [|[k0 v0] d IH]; simpl; intros Hnd.
  - split; [discriminate | tauto].
  - inversion Hnd as [|? ? Hnin Hnd']; subst.
    destruct (String.eqb_spec k k0) as [->|Hne].
    + split.
      * intros Heq. injection Heq as <-. auto.
      * intros [Heq | Hin]; [congruence|].
        exfalso. apply Hnin. apply in_map_iff. exists (k0, v). auto.
    + rewrite (IH Hnd'). split; [auto | intros [Heq | Hin]; [congruence | exact Hin]].
Qed.

(** Every concept the first pass collects reports a value for the period,
    and no name is collected twice. *)
Lemma collect_concept_reported (report_type period category concept_name : string)
    (obj : concept_obj) (reported reported' : list (string * concept)) :
  collect_concept report_type period category concept_name obj reported = Ok reported' ->
  (List.NoDup (PyDict.keys reported) -> List.NoDup (PyDict.keys reported')) /\
  ((forall name cd, PyDict.lookup name reported = Some cd ->
                    exists u, c_units cd = Some u /\
                              has_reported_value report_type period u = true) ->
   forall name cd, PyDict.lookup name reported' = Some cd ->
                   exists u, c_units cd = Some u /\
                             has_reported_value report_type period u = true).
Proof.
  unfold collect_concept. destruct obj as [c|u|s|]; try discriminate.
  - destruct (c_units c) as [u|] eqn:Hu;
      [destruct (has_reported_value report_type period u) eqn:Hv|];
      intros Heq; injection Heq as <-; try (split; auto; fail).
    split; [apply keys_set_nodup|].
    intros Hrep name cd. rewrite lookup_set.
    destruct (String.eqb name (category ++ "." ++ concept_name)); [|apply Hrep].
    intros Heq. injection Heq as <-. eauto.
  - destruct (PyDict.mem "units" u); [discriminate|].
    intros Heq. injection Heq as <-. auto.
Qed.

Lemma collect_category_reported (report_type period category : string)
    (concepts : list (string * concept_obj))
    (reported reported' : list (string * concept)) :
  collect_category report_type period category concepts reported = Ok reported' ->
  (List.NoDup (PyDict.keys reported) -> List.NoDup (PyDict.keys reported')) /\
  ((forall name cd, PyDict.lookup name reported = Some cd ->
                    exists u, c_units cd = Some u /\
                              has_reported_value report_type period u = true) ->
   forall name cd, PyDict.lookup name reported' = Some cd ->
                   exists u, c_units cd = Some u /\
                             has_reported_value report_type period u = true).
Proof.
  revert reported. induction concepts as [|[concept_name obj] rest IH];
    intros reported; simpl.
  - intros Heq. injection Heq as <-. auto.
  - destruct (collect_concept report_type period category concept_name obj reported)
      as [mid|e] eqn:Hone; simpl; [|discriminate].
    intros Hrest. destruct (collect_concept_reported _ _ _ _ _ _ _ Hone) as [Hn1 Hr1].
    destruct (IH _ Hrest) as [Hn2 Hr2].
    split; [intros H; apply Hn2, Hn1, H | intros H; apply Hr2, Hr1, H].
Qed.

Lemma collect_reported_reported (report_type period : string) (f : facts)
    (reported reported' : list (string * concept)) :
  collect_reported report_type period f reported = Ok reported' ->
  (List.NoDup (PyDict.keys reported) -> List.NoDup (PyDict.keys reported')) /\
  ((forall name cd, PyDict.lookup name reported = Some cd ->
                    exists u, c_units cd = Some u /\
                              has_reported_value report_type period u = true) ->
   forall name cd, PyDict.lookup name reported' = Some cd ->
                   exists u, c_units cd = Some u /\
                             has_reported_value report_type period u = true).
Proof.
  revert reported. induction f as [|[category [concepts|]] rest IH];
    intros reported; simpl.
  - intros Heq. injection Heq as <-. auto.
  - destruct (collect_category report_type period category concepts reported)
      as [mid|e] eqn:Hone; simpl; [|discriminate].
    intros Hrest. destruct (collect_category_reported _ _ _ _ _ _ Hone) as [Hn1 Hr1].
    destruct (IH _ Hrest) as [Hn2 Hr2].
    split; [intros H; apply Hn2, Hn1, H | intros H; apply Hr2, Hr1, H].
  - apply IH.
Qed.

(** A unit with a value reported for the period has a first match. *)
Lemma first_match_reported (report_type period : string) (u : units) :
  has_reported_value report_type period u = true ->
  exists unit_key value, first_match report_type period u = Some (unit_key, value).
Proof.
  unfold has_reported_value. induction u as [|[unit_key values] rest IH]; simpl.
  - discriminate.
  - destruct (List.find (period_match report_type period) values) as [value|] eqn:Hfind.
    + eauto.
    + intros H. apply orb_true_iff in H. destruct H as [H | H]; [|exact (IH H)].
      exfalso. apply existsb_exists in H. destruct H as (value & Hin & Hv).
      apply (find_none _ _ Hfind) in Hin.
      unfold has_value_in_period in Hv. fold (period_match report_type period value) in Hv.
      rewrite Hin in Hv. discriminate.
Qed.

Lemma first_match_matches (report_type period : string) (u : units)
    (unit_key : string) (value : SECValue) :
  first_match report_type period u = Some (unit_key, value) ->
  period_match report_type period value = true.
Proof.
  induction u as [|[k values] rest IH]; simpl; [discriminate|].
  destruct (List.find (period_match report_type period) values) as [v|] eqn:Hfind.
  - intros Heq. injection Heq as _ <-. exact (proj2 (find_some _ _ Hfind)).
  - exact IH.
Qed.

Lemma fd_statement_set_same (t : statement_type) (name : string)
    (item : line_item) (fd : financial_data) :
  fd_statement t (set_item t name item fd) = PyDict.set name item (fd_statement t fd).
Proof. destruct t; reflexivity. Qed.

Lemma fd_statement_set_other (t t' : statement_type) (name : string)
    (item : line_item) (fd : financial_data) :
  t <> t' -> fd_statement t' (set_item t name item fd) = fd_statement t' fd.
Proof. destruct t, t'; intros Hne; try reflexivity; congruence. Qed.

Lemma extract_concept_selected (report_type period : string)
    (all_concepts : list (string * concept)) (t : statement_type)
    (fd : financial_data) (concept_name : string) :
  extract_concept report_type period all_concepts t fd concept_name =
  match Spec.selected report_type period all_concepts concept_name with
  | Some item => set_item t concept_name item fd
  | None => fd
  end.
Proof.
  unfold extract_concept, Spec.selected.
  destruct (PyDict.lookup concept_name all_concepts) as [cd|]; [|reflexivity].
  destruct (c_units cd) as [u|]; [|reflexivity].
  destruct (first_match report_type period u) as [[unit_key value]|]; reflexivity.
Qed.

(** The loop over the names of one statement leaves the other statements
    alone and stores, under each of its names, the selected line item. *)
Lemma extract_names_other (report_type period : string)
    (all_concepts : list (string * concept)) (t t' : statement_type)
    (concept_names : list string) (fd : financial_data) :
  t <> t' ->
  fd_statement t'
    (fold_left (extract_concept report_type period all_concepts t) concept_names fd)
  = fd_statement t' fd.
Proof.
  intros Hne. revert fd. induction concept_names as [|n ns IH]; intros fd; simpl.
  - reflexivity.
  - rewrite IH, extract_concept_selected.
    destruct (Spec.selected report_type period all_concepts n); [|reflexivity].
    apply fd_statement_set_other. exact Hne.
Qed.

Lemma extract_names_lookup (report_type period : string)
    (all_concepts : list (string * concept)) (t : statement_type)
    (concept_names : list string) (fd : financial_data) (name : string)
    (item : line_item) :
  PyDict.lookup name
    (fd_statement t
       (fold_left (extract_concept report_type period all_concepts t) concept_names fd))
  = Some item <->
  (In name concept_names /\
   Spec.selected report_type period all_concepts name = Some item) \/
  (PyDict.lookup name (fd_statement t fd) = Some item /\
   (In name concept_names ->
    Spec.selected report_type period all_concepts name = None)).
Proof.
  revert fd. induction concept_names as [|n ns IH]; intros fd; simpl.
  - split; [intros H; right; split; [exact H | tauto] | intros [[[] _] | [H _]]; exact H].
  - rewrite IH, extract_concept_selected. clear IH.
    assert (Hstep :
      PyDict.lookup name
        (fd_statement t
           match Spec.selected report_type period all_concepts n with
           | Some item0 => set_item t n item0 fd
           | None => fd
           end) =
      if String.eqb name n
      then match Spec.selected report_type period all_concepts n with
           | Some item0 => Some item0
           | None => PyDict.lookup name (fd_statement t fd)
           end
      else PyDict.lookup name (fd_statement t fd)).
    { destruct (Spec.selected report_type period all_concepts n) as [item0|].
      - rewrite fd_statement_set_same, lookup_set. reflexivity.
      - destruct (String.eqb name n); reflexivity. }
    rewrite Hstep. clear Hstep.
    destruct (String.eqb_spec name n) as [->|Hne].
    + destruct (Spec.selected report_type period all_concepts n) as [item0|] eqn:Hsel.
      * split.
        -- intros [[_ H] | [H _]]; left; split; auto; congruence.
        -- intros [[_ H] | [_ H]]; [|specialize (H (or_introl eq_refl)); discriminate].
           destruct (in_dec string_dec n ns) as [Hin | Hnin].
           ++ left. auto.
           ++ right. split; [congruence | tauto].
      * split.
        -- intros [[_ H] | [H _]]; [discriminate|]. right. auto.
        -- intros [[_ H] | [H _]]; [discriminate|]. right. auto.
    + split.
      * intros [[Hin H] | [H Hn]]; [left; auto | right; split; [exact H|]].
        intros [Heq | Hin]; [congruence | auto].
      * intros [[[Heq | Hin] H] | [H Hn]]; [congruence | left; auto | right; auto].
Qed.

Lemma selected_period (report_type period : string)
    (all_concepts : list (string * concept)) (name : string) (item : line_item) :
  Spec.selected report_type period all_concepts name = Some item ->
  exists value_end,
    li_period item = Some value_end /\ value_end <> "" /\
    Spec.substring period value_end.
Proof.
  unfold Spec.selected.
  destruct (PyDict.lookup name all_concepts) as [cd|]; [|discriminate].
  destruct (c_units cd) as [u|]; [|discriminate].
  destruct (first_match report_type period u) as [[unit_key value]|] eqn:Hfirst;
    [|discriminate].
  intros Heq. injection Heq as <-. cbn [Spec.item_of li_period].
  apply first_match_matches, period_match_iff in Hfirst.
  destruct Hfirst as (_ & (value_end & Hend & Hne & Hsub) & _). eauto.
Qed.

Lemma extracted_statement (f : facts) (report_type period : string)
    (all_concepts : list (string * concept)) (t : statement_type)
    (name : string) (item : line_item) :
  collect_reported report_type period f [] = Ok all_concepts ->
  PyDict.lookup name (fd_statement t (extract_facts f report_type period)) = Some item <->
  In name (names t (_categorize_concepts_by_statement all_concepts)) /\
  Spec.selected report_type period all_concepts name = Some item.
Proof.
  intros Hall. unfold extract_facts. rewrite Hall.
  cbn [fold_left statement_types].
  destruct t.
  - rewrite !extract_names_other by discriminate.
    rewrite extract_names_lookup. cbn. intuition discriminate.
  - rewrite extract_names_other by discriminate.
    rewrite extract_names_lookup, extract_names_other by discriminate.
    cbn. intuition discriminate.
  - rewrite extract_names_lookup, !extract_names_other by discriminate.
    cbn. intuition discriminate.
Qed.

(** X14. The statements the extraction builds from company facts hold, for
    each concept the first pass collected and the classifier assigned to the
    statement, the line item of the first value that matches the period in
    the first unit that has one, and nothing else; every such concept has a
    line item; and the period of a line item is a non-empty end date that
    contains the requested period. *)
Theorem extraction_stores_selected_items (f : facts) (report_type period : string)
    (t : statement_type) (name : string) :
  (forall item,
      PyDict.lookup name (fd_statement t (extract_facts f report_type period))
      = Some item <->
      exists all_concepts concept_data,
        collect_reported report_type period f [] = Ok all_concepts /\
        PyDict.lookup name all_concepts = Some concept_data /\
        categorize (description name concept_data) = Some t /\
        Spec.selected report_type period all_concepts name = Some item) /\
  (forall all_concepts concept_data,
      collect_reported report_type period f [] = Ok all_concepts ->
      PyDict.lookup name all_concepts = Some concept_data ->
      exists item,
        Spec.selected report_type period all_concepts name = Some item) /\
  (forall item,
      PyDict.lookup name (fd_statement t (extract_facts f report_type period))
      = Some item ->
      exists value_end,
        li_period item = Some value_end /\ value_end <> "" /\
        Spec.substring period value_end).
Proof.
  assert (Hiff : forall item,
      PyDict.lookup name (fd_statement t (extract_facts f report_type period))
      = Some item <->
      exists all_concepts concept_data,
        collect_reported report_type period f [] = Ok all_concepts /\
        PyDict.lookup name all_concepts = Some concept_data /\
        categorize (description name concept_data) = Some t /\
        Spec.selected report_type period all_concepts name = Some item).
  { intros item.
    destruct (collect_reported report_type period f []) as [all_concepts|e] eqn:Hall.
    - rewrite (extracted_statement f report_type period all_concepts t name item Hall).
      rewrite categorized_names.
      destruct (collect_reported_reported _ _ _ _ _ Hall) as [Hnd _].
      specialize (Hnd (List.NoDup_nil _)).
      split.
      + intros [(cd & Hin & Hcat) Hsel]. exists all_concepts, cd.
        rewrite (lookup_in name cd all_concepts Hnd). auto.
      + intros (all' & cd & Heq & Hl & Hcat & Hsel). injection Heq as <-.
        split; [|exact Hsel]. exists cd.
        rewrite <- (lookup_in name cd all_concepts Hnd). auto.
    - unfold extract_facts. rewrite Hall. split.
      + destruct t; discriminate.
      + intros (all' & cd & Heq & _). discriminate. }
  split; [exact Hiff|]. split.
  - intros all_concepts cd Hall Hl.
    destruct (collect_reported_reported _ _ _ _ _ Hall) as [_ Hrep].
    destruct (Hrep ltac:(discriminate) name cd Hl) as (u & Hu & Hv).
    destruct (first_match_reported _ _ _ Hv) as (unit_key & value & Hfirst).
    unfold Spec.selected. rewrite Hl, Hu, Hfirst. eauto.
  - intros item Hl. apply Hiff in Hl.
    destruct Hl as (all_concepts & cd & _ & _ & _ & Hsel).
    exact (selected_period _ _ _ _ _ Hsel).
Qed.

Lemma extraction_stores_selected_items_witness :
  exists item,
    PyDict.lookup "us-gaap.Revenues"
      (fd_statement income_statement
         (extract_facts Examples.revenue_facts "10-K" "2023"))
    = Some item /\
    li_value item = Some (PInt 383285000000) /\
    li_period item = Some "2023-09-30".
Proof.
  eexists. split.
  - apply (proj1 (extraction_stores_selected_items Examples.revenue_facts "10-K" "2023"
                    income_statement "us-gaap.Revenues")).
    eexists. eexists. split; [reflexivity|]. split; [reflexivity|].
    split; reflexivity.
  - split; reflexivity.
Defined.

End Extraction.

(** ** Choice of a filing *)

Section Filings.

Import Schema SECService.

Lemma find_target_from (report_type period : string) (r : recent) (i : nat)
    (forms : list string) (target : target_filing) :
  find_target report_type period r i forms = Some target <->
  exists k filing_date,
    nth_error forms k = Some report_type /\
    nth_error (r_filingDate r) (i + k) = Some filing_date /\
    filing_date <> "" /\
    Spec.substring period filing_date /\
    (forall j d, j < k ->
                 nth_error forms j = Some report_type ->
                 nth_error (r_filingDate r) (i + j) = Some d ->
                 d = "" \/ ~ Spec.substring period d) /\
    target = {| tf_accession_number := nth_error (r_accessionNumber r) (i + k);
                tf_filing_date := filing_date;
                tf_form := report_type |}.
Proof.
  revert i. induction forms as [|form rest IH]; intros i; cbn [find_target].
  - split; [discriminate | intros (k & d & Hk & _); destruct k; discriminate].
  - assert (Hrest :
      find_target report_type period r (S i) rest = Some target <->
      exists k filing_date,
        nth_error (form :: rest) (S k) = Some report_type /\
        nth_error (r_filingDate r) (i + S k) = Some filing_date /\
        filing_date <> "" /\
        Spec.substring period filing_date /\
        (forall j d, j < k ->
                     nth_error (form :: rest) (S j) = Some report_type ->
                     nth_error (r_filingDate r) (i + S j) = Some d ->
                     d = "" \/ ~ Spec.substring period d) /\
        target = {| tf_accession_number := nth_error (r_accessionNumber r) (i + S k);
                    tf_filing_date := filing_date;
                    tf_form := report_type |}).
    { rewrite IH. cbn [nth_error].
      split; intros (k & d & H); exists k, d;
        replace (i + S k) with (S i + k) in * by lia.
      - destruct H as (H1 & H2 & H3 & H4 & H5 & H6).
        repeat split; auto. intros j d' Hj Hf Hd.
        replace (i + S j) with (S i + j) in Hd by lia. exact (H5 j d' Hj Hf Hd).
      - destruct H as (H1 & H2 & H3 & H4 & H5 & H6).
        repeat split; auto. intros j d' Hj Hf Hd. apply (H5 j d' Hj Hf).
        replace (i + S j) with (S i + j) by lia. exact Hd. }
    assert (Hskip :
      (forall d, form = report_type -> nth_error (r_filingDate r) (i + 0) = Some d ->
                 d = "" \/ ~ Spec.substring period d) ->
      find_target report_type period r (S i) rest = Some target <->
      exists k filing_date,
        nth_error (form :: rest) k = Some report_type /\
        nth_error (r_filingDate r) (i + k) = Some filing_date /\
        filing_date <> "" /\
        Spec.substring period filing_date /\
        (forall j d, j < k ->
                     nth_error (form :: rest) j = Some report_type ->
                     nth_error (r_filingDate r) (i + j) = Some d ->
                     d = "" \/ ~ Spec.substring period d) /\
        target = {| tf_accession_number := nth_error (r_accessionNumber r) (i + k);
                    tf_filing_date := filing_date;
                    tf_form := report_type |}).
    { intros Hmiss. rewrite Hrest. split.
      - intros (k & d & H1 & H2 & H3 & H4 & H5 & H6). exists (S k), d.
        repeat split; auto. intros [|j] d' Hj Hf Hd.
        + cbn [nth_error] in Hf. injection Hf as Hf. exact (Hmiss d' Hf Hd).
        + apply (H5 j d'); [lia | exact Hf | exact Hd].
      - intros ([|k] & d & H1 & H2 & H3 & H4 & H5 & H6).
        + cbn [nth_error] in H1. injection H1 as H1.
          destruct (Hmiss d H1 H2); tauto.
        + exists k, d. repeat split; auto. intros j d' Hj. apply H5. lia. }
    unfold item_or_none. rewrite Nat.add_0_r in Hskip.
    destruct (String.eqb_spec form report_type) as [->|Hne].
    + destruct (nth_error (r_filingDate r) i) as [filing_date|] eqn:Hdate.
      * destruct (PyStr.truthy filing_date && PyStr.contains period filing_date)
          eqn:Hhit.
        -- apply andb_true_iff in Hhit. destruct Hhit as [Ht Hc].
           apply truthy_nonempty in Ht. apply contains_substring in Hc.
           split.
           ++ intros Heq. injection Heq as <-. exists 0, filing_date.
              rewrite !Nat.add_0_r. repeat split; auto. intros j d Hj. lia.
           ++ intros ([|k] & d & H1 & H2 & H3 & H4 & H5 & H6).
              ** rewrite Nat.add_0_r in H2, H6. subst target. congruence.
              ** destruct (H5 0 filing_date ltac:(lia) eq_refl) as [He | Hn].
                 --- rewrite Nat.add_0_r. exact Hdate.
                 --- contradiction.
                 --- destruct (Hn Hc).
        -- apply Hskip. intros d _ Hd. injection Hd as <-.
           apply andb_false_iff in Hhit. destruct Hhit as [Ht | Hc].
           ++ left. destruct filing_date; [reflexivity | discriminate].
           ++ right. intros Hsub. apply contains_substring in Hsub. congruence.
      * apply Hskip. intros d _ Hd. discriminate.
    + apply Hskip. intros d Heq. contradiction.
Qed.

(** X15. The filing tier settles on the first filing, in the order of the
    submissions, whose form is the report type and whose filing date, at the
    same position, is non-empty and contains the period; its accession
    number is the one at that position, if there is one. *)
Theorem find_target_first_match (report_type period : string) (r : recent)
    (target : target_filing) :
  find_target report_type period r 0 (r_form r) = Some target <->
  exists i filing_date,
    nth_error (r_form r) i = Some report_type /\
    nth_error (r_filingDate r) i = Some filing_date /\
    filing_date <> "" /\
    Spec.substring period filing_date /\
    (forall j d, j < i ->
                 nth_error (r_form r) j = Some report_type ->
                 nth_error (r_filingDate r) j = Some d ->
                 d = "" \/ ~ Spec.substring period d) /\
    target = {| tf_accession_number := nth_error (r_accessionNumber r) i;
                tf_filing_date := filing_date;
                tf_form := report_type |}.
Proof. apply (find_target_from report_type period r 0). Qed.

Lemma find_target_first_match_witness :
  find_target "10-K" "2023" Examples.annual_reports 0 (r_form Examples.annual_reports)
  = Some {| tf_accession_number := Some "0000320193-23-000106";
            tf_filing_date := "2023-11-03"; tf_form := "10-K" |}.
Proof.
  apply (proj2 (find_target_first_match "10-K" "2023" Examples.annual_reports _)).
  exists 1, "2023-11-03".
  split; [reflexivity|]. split; [reflexivity|]. split; [discriminate|].
  split; [exists "", "-11-03"; reflexivity|]. split; [|reflexivity].
  intros [|j] d Hj Hform; [discriminate Hform | lia].
Defined.

Lemma matching_filings_from (report_type : string) (r : recent) (i : nat)
    (forms : list string) :
  match matching_filings report_type r i forms with
  | latest_filing :: _ =>
      exists k,
        nth_error forms k = Some report_type /\
        (forall j, j < k -> nth_error forms j <> Some report_type) /\
        latest_filing =
          {| fi_form := report_type;
             fi_filing_date := nth_error (r_filingDate r) (i + k);
             fi_accession_number := nth_error (r_accessionNumber r) (i + k);
             fi_index := i + k |}
  | [] => forall k, nth_error forms k <> Some report_type
  end.
Proof.
  revert i. induction forms as [|form rest IH]; intros i; cbn [matching_filings].
  - intros [|k]; discriminate.
  - destruct (String.eqb_spec form report_type) as [->|Hne].
    + exists 0. rewrite Nat.add_0_r. split; [reflexivity|].
      split; [intros j Hj; lia | reflexivity].
    + specialize (IH (S i)).
      destruct (matching_filings report_type r (S i) rest) as [|latest others].
      * intros [|k]; cbn [nth_error]; [congruence | apply IH].
      * destruct IH as (k & Hk & Hfirst & Heq). exists (S k).
        replace (i + S k) with (S i + k) by lia.
        split; [exact Hk|]. split; [|exact Heq].
        intros [|j] Hj; cbn [nth_error]; [congruence | apply Hfirst; lia].
Qed.

(** X16. In the submissions branch of the extraction, the filing taken as
    the latest one is the first filing of the submissions whose form is the
    report type, with the filing date and accession number at its position
    when the lists reach that far; the period plays no part in the choice.
    There is none exactly when no filing has that form. *)
Theorem latest_filing_is_first_of_form (report_type : string) (r : recent) :
  match matching_filings report_type r 0 (r_form r) with
  | latest_filing :: _ =>
      exists i,
        nth_error (r_form r) i = Some report_type /\
        (forall j, j < i -> nth_error (r_form r) j <> Some report_type) /\
        latest_filing =
          {| fi_form := report_type;
             fi_filing_date := nth_error (r_filingDate r) i;
             fi_accession_number := nth_error (r_accessionNumber r) i;
             fi_index := i |}
  | [] => forall i, nth_error (r_form r) i <> Some report_type
  end.
Proof. exact (matching_filings_from report_type r 0 (r_form r)). Qed.

End Filings.

(** ** Requests sent to the host *)

Section Requests.

Import Schema SECService.

Lemma at_most_ret {A} (n : nat) (a : A) : Spec.at_most_requests n (Http.ret a).
Proof.
  intros tr. exists []. rewrite app_nil_r.
  split; [reflexivity|]. split; [constructor | simpl; lia].
Qed.

Lemma at_most_weaken {A} (n n' : nat) (m : Http.M A) :
  n <= n' -> Spec.at_most_requests n m -> Spec.at_most_requests n' m.
Proof.
  intros Hle Hm tr. destruct (Hm tr) as (requests & Heq & Hreq & Hlen).
  exists requests. split; [exact Heq|]. split; [exact Hreq | lia].
Qed.

Lemma at_most_bind {A B} (n1 n2 : nat) (m : Http.M A) (k : A -> Http.M B) :
  Spec.at_most_requests n1 m -> (forall a, Spec.at_most_requests n2 (k a)) ->
  Spec.at_most_requests (n1 + n2) (Http.bind m k).
Proof.
  intros Hm Hk tr. unfold Http.bind.
  destruct (Hm tr) as (r1 & Heq1 & Hr1 & Hl1). destruct (m tr) as [a tr1].
  simpl in Heq1. subst tr1.
  destruct (Hk a (tr ++ r1)%list) as (r2 & Heq2 & Hr2 & Hl2).
  exists (r1 ++ r2)%list. rewrite Heq2, app_assoc, length_app.
  split; [reflexivity|]. split; [apply Forall_app; auto | lia].
Qed.

Lemma at_most_get_bind {B} (n : nat) (net : Http.host) (url : string)
    (k : option Http.response -> Http.M B) :
  (forall a, Spec.at_most_requests n (k a)) ->
  Spec.at_most_requests (S n) (Http.bind (Http.get net url) k).
Proof.
  intros Hk. apply (at_most_bind 1 n); [|exact Hk].
  intros tr. exists [Http.Get url]. split; [reflexivity|].
  split; [constructor; [exact I | constructor] | simpl; lia].
Qed.

Ltac bounded :=
  repeat first
    [ apply at_most_ret
    | assumption
    | apply at_most_get_bind; intros ?
    | match goal with
      | |- Spec.at_most_requests _ (match ?x with _ => _ end) => destruct x
      | |- Spec.at_most_requests _ (if ?x then _ else _) => destruct x
      end ].

Lemma at_most_fetch_root (net : Http.host) (url : string) :
  Spec.at_most_requests 1 (XBRLParser.fetch_root net url).
Proof. unfold XBRLParser.fetch_root. bounded. Qed.

Lemma at_most_parser (net : Http.host) (cik accession_number : string) :
  Spec.at_most_requests 4
    (XBRLParser.get_financial_statements_xbrl net cik accession_number).
Proof.
  pose proof (at_most_fetch_root net) as Hroot.
  unfold XBRLParser.get_financial_statements_xbrl.
  apply (at_most_bind 1 3); [unfold XBRLParser.get_xbrl_files; bounded|].
  intros files. destruct files as [|file files]; [bounded|].
  apply (at_most_bind 1 2).
  { destruct (PyDict.lookup "instance" (file :: files)); [|bounded].
    unfold XBRLParser.parse_xbrl_instance.
    apply (at_most_bind 1 0); [apply Hroot | intros ?; bounded]. }
  intros instance_data. apply (at_most_bind 1 1).
  { destruct (PyDict.lookup "schema" (file :: files)); [|bounded].
    unfold XBRLParser.parse_xbrl_schema.
    apply (at_most_bind 1 0); [apply Hroot | intros ?; bounded]. }
  intros schema_data. apply (at_most_bind 1 0).
  { destruct (PyDict.lookup "label" (file :: files)); [|bounded].
    unfold XBRLParser.parse_xbrl_labels.
    apply (at_most_bind 1 0); [apply Hroot | intros ?; bounded]. }
  intros labels. bounded.
Qed.

Lemma at_most_first_document (net : Http.host) (urls : list string) :
  Spec.at_most_requests (length urls) (first_document net urls).
Proof.
  induction urls as [|url rest IH]; cbn [first_document length]; [bounded|].
  apply at_most_get_bind. intros response.
  destruct response as [response|]; [|exact IH].
  destruct (Http.status_code response =? 200)%nat; [|exact IH].
  destruct (Http.json response); [bounded | exact IH].
Qed.

Lemma at_most_extract (net : Http.host) (depth : nat) (d : data)
    (report_type period : string) :
  Spec.at_most_requests depth (_extract_financial_data net depth d report_type period).
Proof.
  revert d. induction depth as [|depth IH]; intros d; simpl; [bounded|].
  destruct (d_facts d); [bounded|].
  destruct (d_filings d) as [recent_filings|]; [|bounded].
  destruct (matching_filings report_type recent_filings 0 (r_form recent_filings))
    as [|latest_filing others]; [bounded|].
  destruct (fi_accession_number latest_filing) as [accession_number|]; [|bounded].
  destruct (PyStr.truthy accession_number); [|bounded].
  apply (at_most_weaken (S depth + 0)); [lia|].
  apply (at_most_bind (S depth) 0); [|intros filing_data; bounded].
  unfold _get_filing_financial_data. apply at_most_get_bind. intros response.
  destruct response as [response|]; [|bounded].
  destruct (Http.status_code response =? 200)%nat; [|bounded].
  destruct (Http.json response) as [[items|filing_data]|]; try bounded.
  apply IH.
Qed.

Lemma at_most_fallback (net : Http.host) (depth : nat)
    (report_type period : string) (urls : list string) :
  Spec.at_most_requests (length urls + depth)
    (company_facts_fallback net depth report_type period urls).
Proof.
  induction urls as [|url rest IH]; cbn [company_facts_fallback length]; [bounded|].
  apply (at_most_get_bind (length rest + depth)). intros response.
  destruct response as [response|]; [|exact IH].
  destruct (Http.status_code response =? 200)%nat; [|exact IH].
  destruct (Http.json response) as [[items|d]|]; try exact IH.
  apply (at_most_weaken depth); [lia | apply at_most_extract].
Qed.

Lemma requests_are_bounded_parts (net : Http.host) (depth : nat)
    (cik report_type period : string) :
  Spec.at_most_requests 7 (get_financial_statements_xbrl net cik report_type period) /\
  Spec.at_most_requests 2
    (get_reported_concepts_from_filing net cik report_type period) /\
  Spec.at_most_requests (3 + depth)
    (company_facts_fallback net depth report_type period
       (endpoints (PyStr.zfill 10 cik))).
Proof.
  split; [|split].
  - pose proof (at_most_parser net cik) as Hparser.
    unfold get_financial_statements_xbrl, get_company_filings.
    apply (at_most_bind 3 4); [apply (at_most_first_document net (endpoints _))|].
    intros filings. bounded; apply Hparser.
  - unfold get_reported_concepts_from_filing. bounded.
  - apply (at_most_fallback net depth report_type period (endpoints _)).
Qed.

(** X17. Requests are bounded: the parser sends at most four for a filing
    (index, instance, schema, labels), the XBRL tier at most seven (three
    endpoints, then the parser), the filing tier at most two, the extraction
    one per re-entry, and the company-facts tier at most three and those of
    the extraction. *)
Theorem requests_are_bounded (net : Http.host) (depth : nat)
    (cik accession_number report_type period : string) (d : data) :
  Spec.at_most_requests 4
    (XBRLParser.get_financial_statements_xbrl net cik accession_number) /\
  Spec.at_most_requests 7 (get_financial_statements_xbrl net cik report_type period) /\
  Spec.at_most_requests 2
    (get_reported_concepts_from_filing net cik report_type period) /\
  Spec.at_most_requests depth
    (_extract_financial_data net depth d report_type period) /\
  Spec.at_most_requests (3 + depth)
    (company_facts_fallback net depth report_type period
       (endpoints (PyStr.zfill 10 cik))).
Proof.
  destruct (requests_are_bounded_parts net depth cik report_type period)
    as (Hfirst & Hsecond & Hthird).
  split; [apply at_most_parser|]. split; [exact Hfirst|]. split; [exact Hsecond|].
  split; [apply at_most_extract | exact Hthird].
Qed.

Lemma requests_of_app (a b : Http.trace) :
  Spec.requests_of (a ++ b)%list = Spec.requests_of a + Spec.requests_of b.
Proof. unfold Spec.requests_of. rewrite List.filter_app, length_app. reflexivity. Qed.

Lemma requests_of_le (events : Http.trace) :
  Spec.requests_of events <= length events.
Proof.
  unfold Spec.requests_of. induction events as [|e events IH]; simpl; [lia|].
  destruct e; simpl; lia.
Qed.

(** X18. Resolving one company and period begins with the announcement of
    the XBRL tier and sends at most twelve requests, and one more per
    re-entry of the extraction. *)
Theorem resolver_requests_bounded (net : Http.host) (depth : nat)
    (cik report_type period : string) (tr : Http.trace) :
  exists events,
    snd (get_financial_statements net depth cik report_type period tr)
    = (tr ++ Http.Announce Http.Tier1 :: events)%list /\
    Spec.requests_of events <= 12 + depth.
Proof.
  destruct (requests_are_bounded_parts net depth cik report_type period)
    as (Hfirst & Hsecond & Hthird).
  destruct (Hfirst (tr ++ [Http.Announce Http.Tier1])%list)
    as (requests1 & Htr1 & _ & Hlen1).
  pose proof (tier1_result_returned net depth cik report_type period tr) as Hreturned.
  pose proof (resolver_after_tier1 net depth cik report_type period tr) as Hafter.
  cbv zeta in Hreturned, Hafter.
  pose proof (requests_of_le requests1) as Hle1.
  destruct (fst (get_financial_statements_xbrl net cik report_type period
                   (tr ++ [Http.Announce Http.Tier1])%list)) as [r|] eqn:H1.
  { rewrite (Hreturned r eq_refl). cbn [snd]. exists requests1.
    rewrite Htr1, <- app_assoc. split; [reflexivity | lia]. }
  rewrite (Hafter eq_refl). clear Hreturned Hafter.
  destruct (Hsecond (snd (get_financial_statements_xbrl net cik report_type period
                            (tr ++ [Http.Announce Http.Tier1])%list)
                     ++ [Http.Announce Http.Tier2])%list)
    as (requests2 & Htr2 & _ & Hlen2).
  pose proof (requests_of_le requests2) as Hle2.
  destruct (Hthird (snd (get_reported_concepts_from_filing net cik report_type period
                           (snd (get_financial_statements_xbrl net cik report_type
                                   period (tr ++ [Http.Announce Http.Tier1])%list)
                            ++ [Http.Announce Http.Tier2])%list)
                    ++ [Http.Announce Http.Tier3])%list)
    as (requests3 & Htr3 & _ & Hlen3).
  pose proof (requests_of_le requests3) as Hle3.
  assert (Hshort :
    snd (get_reported_concepts_from_filing net cik report_type period
           (snd (get_financial_statements_xbrl net cik report_type period
                   (tr ++ [Http.Announce Http.Tier1])%list)
            ++ [Http.Announce Http.Tier2])%list)
    = (tr ++ Http.Announce Http.Tier1
          :: (requests1 ++ Http.Announce Http.Tier2 :: requests2))%list)
    by (rewrite Htr2, Htr1, <- !app_assoc; reflexivity).
  assert (Hlong :
    snd (company_facts_fallback net depth report_type period
           (endpoints (PyStr.zfill 10 cik))
           (snd (get_reported_concepts_from_filing net cik report_type period
                   (snd (get_financial_statements_xbrl net cik report_type period
                           (tr ++ [Http.Announce Http.Tier1])%list)
                    ++ [Http.Announce Http.Tier2])%list)
            ++ [Http.Announce Http.Tier3])%list)
    = (tr ++ Http.Announce Http.Tier1
          :: (requests1 ++ Http.Announce Http.Tier2
                :: (requests2 ++ Http.Announce Http.Tier3 :: requests3)))%list)
    by (rewrite Htr3, Htr2, Htr1, <- !app_assoc; reflexivity).
  assert (Hcount2 :
    Spec.requests_of (requests1 ++ Http.Announce Http.Tier2 :: requests2)%list
    <= 12 + depth).
  { rewrite requests_of_app.
    change (Spec.requests_of (Http.Announce Http.Tier2 :: requests2))
      with (Spec.requests_of requests2). lia. }
  assert (Hcount3 :
    Spec.requests_of (requests1 ++ Http.Announce Http.Tier2
                        :: (requests2 ++ Http.Announce Http.Tier3 :: requests3))%list
    <= 12 + depth).
  { rewrite requests_of_app.
    change (Spec.requests_of (Http.Announce Http.Tier2
                                :: (requests2 ++ Http.Announce Http.Tier3 :: requests3))%list)
      with (Spec.requests_of (requests2 ++ Http.Announce Http.Tier3 :: requests3)%list).
    rewrite requests_of_app.
    change (Spec.requests_of (Http.Announce Http.Tier3 :: requests3))
      with (Spec.requests_of requests3). lia. }
  destruct (fst (get_reported_concepts_from_filing net cik report_type period
                   (snd (get_financial_statements_xbrl net cik report_type period
                           (tr ++ [Http.Announce Http.Tier1])%list)
                    ++ [Http.Announce Http.Tier2])%list))
    as [[[|first rest] target]|]; cbn [snd]; eauto.
Qed.

End Requests.

(** ** The blocks of the ratio calculation *)

Section RatioBlocks.

Import FinancialRatioCalculator.

Lemma calculate_ratios_blocks (v : values) :
  _calculate_ratios v = Spec.run_blocks (Spec.ratio_blocks v) [].
Proof.
  unfold _calculate_ratios, Spec.ratio_blocks. cbv zeta. cbn [Spec.run_blocks].
  repeat match goal with
         | |- context [rbind (block ?g ?k ?l ?val ?r0) _] =>
             destruct (block g k l val r0); cbn [rbind]; [|reflexivity]
         end.
  reflexivity.
Qed.

Lemma ratio_blocks_keys (v : values) :
  map (fun b => snd (fst (fst b))) (Spec.ratio_blocks v) = Spec.ratio_keys.
Proof. reflexivity. Qed.

Lemma block_lookup (guard : bool) (key label : string) (value : result float)
    (r r' : ratios) (k : string) :
  block guard key label value r = Ok r' ->
  PyDict.lookup k r' =
  if guard && String.eqb k key
  then match value with
       | Ok x => Some (_create_ratio_result x label)
       | Raise _ => None
       end
  else PyDict.lookup k r.
Proof.
  unfold block. destruct guard; cbn [andb].
  - destruct value as [x|e]; cbn [rbind]; [|discriminate].
    intros Heq. injection Heq as <-. apply lookup_set.
  - intros Heq. injection Heq as <-. reflexivity.
Qed.

Lemma block_keys (guard : bool) (key label : string) (value : result float)
    (r r' : ratios) :
  block guard key label value r = Ok r' ->
  ~ In key (PyDict.keys r) ->
  PyDict.keys r' = (PyDict.keys r ++ if guard then [key] else [])%list.
Proof.
  unfold block. destruct guard.
  - destruct value as [x|e]; cbn [rbind]; [|discriminate].
    intros Heq Hnin. injection Heq as <-. apply set_new_keys. exact Hnin.
  - intros Heq _. injection Heq as <-. rewrite app_nil_r. reflexivity.
Qed.

(** Blocks with distinct keys do not interfere: each key is filed under
    its own guard, in the order of the blocks. *)
Lemma run_blocks_result (blocks : list (bool * string * string * result float))
    (r0 r : ratios) :
  List.NoDup (map (fun b => snd (fst (fst b))) blocks) ->
  (forall b, In b blocks -> ~ In (snd (fst (fst b))) (PyDict.keys r0)) ->
  Spec.run_blocks blocks r0 = Ok r ->
  PyDict.keys r =
    (PyDict.keys r0 ++
     map (fun b => snd (fst (fst b)))
         (List.filter (fun b => fst (fst (fst b))) blocks))%list /\
  forall guard key label value,
    In (guard, key, label, value) blocks ->
    PyDict.lookup key r =
    if guard
    then match value with
         | Ok x => Some (_create_ratio_result x label)
         | Raise _ => None
         end
    else None.
Proof.
  revert r0. induction blocks as [|[[[g k] l] val] rest IH]; intros r0 Hnd Hfresh.
  - cbn. intros Heq. injection Heq as <-. rewrite app_nil_r.
    split; [reflexivity | intros ? ? ? ? []].
  - cbn [Spec.run_blocks map fst snd] in *.
    inversion Hnd as [|? ? Hnin Hnd']; subst.
    destruct (block g k l val r0) as [r1|e] eqn:Hblock; cbn [rbind]; [|discriminate].
    intros Hrest.
    assert (Hk0 : ~ In k (PyDict.keys r0))
      by exact (Hfresh (g, k, l, val) (or_introl eq_refl)).
    pose proof (block_keys _ _ _ _ _ _ Hblock Hk0) as Hkeys1.
    destruct (IH r1 Hnd') as [Hkeys Hlookup]; [|exact Hrest|].
    { intros b Hb Hin. rewrite Hkeys1, in_app_iff in Hin.
      destruct Hin as [Hin | Hin].
      - exact (Hfresh b (or_intror Hb) Hin).
      - destruct g; [|destruct Hin]. destruct Hin as [Heq | []].
        apply Hnin. rewrite Heq. apply in_map_iff. exists b. auto. }
    split.
    + rewrite Hkeys, Hkeys1, <- app_assoc. cbn [List.filter fst snd].
      destruct g; reflexivity.
    + intros guard key label value [Heq | Hin].
      * injection Heq as <- <- <- <-.
        assert (Hlater : PyDict.lookup k r = PyDict.lookup k r1).
        { clear - Hrest Hnin. revert r1 Hrest.
          induction rest as [|[[[g' k'] l'] val'] rest IHr]; intros r1; cbn.
          - intros Heq. injection Heq as <-. reflexivity.
          - destruct (block g' k' l' val' r1) as [r2|e] eqn:Hb; cbn [rbind];
              [|discriminate].
            intros Hrest. rewrite (IHr ltac:(cbn in Hnin; tauto) r2 Hrest).
            rewrite (block_lookup _ _ _ _ _ _ k Hb).
            destruct (String.eqb_spec k k') as [->|Hne].
            + exfalso. apply Hnin. left. reflexivity.
            + rewrite andb_false_r. reflexivity. }
        rewrite Hlater, (block_lookup _ _ _ _ _ _ k Hblock), String.eqb_refl, andb_true_r.
        destruct g; [reflexivity|]. apply lookup_not_key. exact Hk0.
      * exact (Hlookup guard key label value Hin).
Qed.

Lemma ratio_blocks_guarded (v : values) (guard : bool) (key label : string)
    (value : result float) :
  In (guard, key, label, value) (Spec.ratio_blocks v) ->
  guard = true -> exists x, value = Ok x.
Proof.
  unfold Spec.ratio_blocks. cbv zeta. intros Hin.
  repeat (destruct Hin as [Heq | Hin];
          [injection Heq as <- <- <- <-; intros Hg;
           try (apply andb_true_iff in Hg; destruct Hg as [Hg _]);
           first
             [ eexists; reflexivity
             | apply div_ok; apply gt0_not_eq0; exact Hg
             | apply div_ok; apply ne0_not_eq0; exact Hg
             | apply percent_ok; apply gt0_not_eq0; exact Hg
             | apply percent_ok; apply ne0_not_eq0; exact Hg
             | apply div_ok; reflexivity ]
          |]).
  destruct Hin.
Qed.

Lemma ratio_keys_nodup : List.NoDup Spec.ratio_keys.
Proof. apply NoDup_ListNoDup. apply (bool_decide_unpack _). vm_compute. exact I. Qed.

(** The result of the calculation, block by block. *)
Lemma calculate_ratios_result (v : values) :
  exists r,
    _calculate_ratios v = Ok r /\
    PyDict.keys r =
      map (fun b => snd (fst (fst b)))
          (List.filter (fun b => fst (fst (fst b))) (Spec.ratio_blocks v)) /\
    forall guard key label value,
      In (guard, key, label, value) (Spec.ratio_blocks v) ->
      if guard
      then exists x, value = Ok x /\
                     PyDict.lookup key r = Some (_create_ratio_result x label)
      else PyDict.lookup key r = None.
Proof.
  destruct (calculate_ratios_total v) as [r Hr]. exists r. split; [exact Hr|].
  rewrite calculate_ratios_blocks in Hr.
  destruct (run_blocks_result (Spec.ratio_blocks v) [] r) as [Hkeys Hlookup].
  - rewrite ratio_blocks_keys. exact ratio_keys_nodup.
  - intros b _ [].
  - exact Hr.
  - change (@PyDict.keys ratio_result []) with (@nil string) in Hkeys.
    rewrite app_nil_l in Hkeys.
    split; [exact Hkeys|].
    intros guard key label value Hin. specialize (Hlookup _ _ _ _ Hin).
    destruct guard; [|exact Hlookup].
    destruct (ratio_blocks_guarded v _ _ _ _ Hin eq_refl) as [x ->]. eauto.
Qed.

Lemma filter_keys {A} (key : A -> string) (guard : A -> bool) (present : string -> bool)
    (l : list A) :
  (forall a, In a l -> present (key a) = guard a) ->
  map key (List.filter guard l) = List.filter present (map key l).
Proof.
  induction l as [|a l IH]; intros Hsame; simpl; [reflexivity|].
  rewrite (Hsame a (or_introl eq_refl)).
  destruct (guard a); simpl; rewrite IH by (intros b Hb; apply Hsame; right; exact Hb);
    reflexivity.
Qed.

(** X19. The calculation files its ratios in the order of the code, each
    key at most once; the tangible book value is the book value under
    another label: both are present exactly when the total equity is above
    zero, with the same value, the equity in millions. *)
Theorem ratios_in_source_order (v : values) :
  exists r,
    _calculate_ratios v = Ok r /\
    PyDict.keys r = List.filter (fun key => PyDict.mem key r) Spec.ratio_keys /\
    (PyDict.mem "book_value" r = PyFloat.gt0 (total_equity v)) /\
    (PyDict.mem "tangible_book_value" r = PyFloat.gt0 (total_equity v)) /\
    option_map value (PyDict.lookup "tangible_book_value" r) =
    option_map value (PyDict.lookup "book_value" r) /\
    option_map formatted (PyDict.lookup "tangible_book_value" r) =
    option_map formatted (PyDict.lookup "book_value" r).
Proof.
  destruct (calculate_ratios_result v) as (r & Hr & Hkeys & Hlookup).
  exists r. split; [exact Hr|]. split.
  - rewrite Hkeys, <- (ratio_blocks_keys v). apply filter_keys.
    intros [[[guard key] label] value] Hin. cbn [fst snd].
    specialize (Hlookup _ _ _ _ Hin). unfold PyDict.mem.
    destruct guard; [destruct Hlookup as (x & _ & ->) | rewrite Hlookup]; reflexivity.
  - assert (Hbook := Hlookup (PyFloat.gt0 (total_equity v)) "book_value" "Book Value"
                       (PyFloat.div (total_equity v) 1000000)
                       ltac:(do 19 right; left; reflexivity)).
    assert (Htangible := Hlookup (PyFloat.gt0 (total_equity v)) "tangible_book_value"
                           "Tangible Book Value"
                           (PyFloat.div (total_equity v) 1000000)
                           ltac:(do 20 right; left; reflexivity)).
    unfold PyDict.mem.
    destruct (PyFloat.gt0 (total_equity v)).
    + destruct Hbook as (x & Hx & ->). destruct Htangible as (y & Hy & ->).
      assert (x = y) by congruence. subst y.
      repeat split; reflexivity.
    + rewrite Hbook, Htangible. repeat split; reflexivity.
Qed.

End RatioBlocks.

(** ** Which value, which statement *)

Section Policies.

Import Schema SECService.

Lemma find_app_first {A} (P : A -> bool) (l1 l2 : list A) :
  List.find P (l1 ++ l2)%list =
  match List.find P l1 with Some x => Some x | None => List.find P l2 end.
Proof.
  induction l1 as [|a l1 IH]; simpl; [reflexivity|].
  destruct (P a); [reflexivity | exact IH].
Qed.

Lemma fold_keeps_last {A B} (P : A -> bool) (f : A -> B) (l : list A)
    (found : option B) :
  fold_left (fun found a => if P a then Some (f a) else found) l found =
  match List.find P (rev l) with Some a => Some (f a) | None => found end.
Proof.
  revert found. induction l as [|a l IH]; intros found; simpl; [reflexivity|].
  rewrite IH, find_app_first. destruct (List.find P (rev l)); [reflexivity|].
  simpl. destruct (P a); reflexivity.
Qed.

Lemma extract_units_tagged (u : units) (report_type period : string)
    (found : option concept_value) :
  fold_left
    (fun found '(unit_key, values) =>
       fold_left
         (fun found value =>
            if period_match report_type period value
            then Some {| cv_value := v_val value;
                         cv_unit := unit_key;
                         cv_period := v_end value;
                         cv_fiscal_year := v_fy value;
                         cv_fiscal_period := jget (v_fp value);
                         cv_form := v_form value;
                         cv_filing_date := v_filed value;
                         cv_accession_number := v_accn value |}
            else found)
         values found)
    u found =
  fold_left
    (fun found tagged =>
       if period_match report_type period (snd tagged)
       then Some (Spec.concept_value_of tagged)
       else found)
    (Spec.tagged_values u) found.
Proof.
  revert found. induction u as [|[unit_key values] u IH]; intros found.
  - reflexivity.
  - cbn [fold_left Spec.tagged_values flat_map]. rewrite fold_left_app, IH.
    f_equal. clear. revert found.
    induction values as [|value values IH]; intros found; [reflexivity|].
    cbn [fold_left map]. rewrite IH. reflexivity.
Qed.

(** X20. The company-concept branch keeps the last value, over all units in
    document order, that matches the period, where the facts branch keeps
    the first one of the first unit that has a match; it keeps none exactly
    when no value matches. *)
Theorem company_concept_keeps_last_match (u : units) (report_type period : string) :
  extract_units u report_type period =
  option_map Spec.concept_value_of
    (List.find (fun tagged => period_match report_type period (snd tagged))
               (rev (Spec.tagged_values u))) /\
  (extract_units u report_type period = None <->
   forall unit_key values value,
     In (unit_key, values) u -> In value values ->
     period_match report_type period value = false).
Proof.
  assert (Hlast :
    extract_units u report_type period =
    option_map Spec.concept_value_of
      (List.find (fun tagged => period_match report_type period (snd tagged))
                 (rev (Spec.tagged_values u)))).
  { unfold extract_units. rewrite extract_units_tagged.
    rewrite (fold_keeps_last
               (fun tagged => period_match report_type period (snd tagged))
               Spec.concept_value_of).
    destruct (List.find _ _); reflexivity. }
  split; [exact Hlast|]. rewrite Hlast. split.
  - intros Hnone unit_key values value Hu Hv.
    destruct (List.find _ _) as [tagged|] eqn:Hfind; [discriminate|].
    apply (find_none _ _ Hfind (unit_key, value)).
    apply in_rev. rewrite rev_involutive. unfold Spec.tagged_values.
    apply in_flat_map. exists (unit_key, values). split; [exact Hu|].
    apply in_map. exact Hv.
  - intros Hnone.
    destruct (List.find _ _) as [[unit_key value]|] eqn:Hfind; [|reflexivity].
    apply find_some in Hfind. destruct Hfind as [Hin Hmatch].
    apply in_rev in Hin. unfold Spec.tagged_values in Hin.
    apply in_flat_map in Hin. destruct Hin as ([k values] & Hu & Hv).
    apply in_map_iff in Hv. destruct Hv as (v & Heq & Hv). injection Heq as -> ->.
    cbn [snd] in Hmatch. rewrite (Hnone _ _ _ Hu Hv) in Hmatch. discriminate.
Qed.

(** X21. With one entry per concept name, a concept is listed under at most
    one statement, and only a concept of the facts is listed. *)
Theorem concept_in_one_statement (facts : list (string * concept))
    (t t' : statement_type) (name : string) :
  List.NoDup (PyDict.keys facts) ->
  In name (names t (_categorize_concepts_by_statement facts)) ->
  In name (PyDict.keys facts) /\
  (In name (names t' (_categorize_concepts_by_statement facts)) -> t = t').
Proof.
  intros Hnd Hin. apply categorized_names in Hin.
  destruct Hin as (cd & Hfact & Hcat). split.
  - unfold PyDict.keys. apply in_map_iff. exists (name, cd). auto.
  - intros Hin'. apply categorized_names in Hin'.
    destruct Hin' as (cd' & Hfact' & Hcat').
    assert (cd = cd') by exact (keys_functional facts name cd cd' Hnd Hfact Hfact').
    subst cd'. congruence.
Qed.

Lemma concept_in_one_statement_witness :
  In "us-gaap.InventoryChange"
     (names cash_flow (_categorize_concepts_by_statement Examples.sample_concepts)) /\
  ~ In "us-gaap.InventoryChange"
      (names balance_sheet (_categorize_concepts_by_statement Examples.sample_concepts)).
Proof.
  assert (Hnd : List.NoDup (PyDict.keys Examples.sample_concepts)).
  { repeat (constructor; [simpl; intuition discriminate|]). constructor. }
  assert (Hin : In "us-gaap.InventoryChange"
                   (names cash_flow
                      (_categorize_concepts_by_statement Examples.sample_concepts)))
    by (vm_compute; tauto).
  split; [exact Hin|]. intros Hin'.
  destruct (concept_in_one_statement Examples.sample_concepts cash_flow balance_sheet
              "us-gaap.InventoryChange" Hnd Hin) as [_ Hsame].
  discriminate (Hsame Hin').
Defined.

End Policies.
